(** * multi-llm-ts: the Google and OpenAI (OpenRouter) provider adapters

    Shallow embedding of [src/providers/google.ts], [src/providers/openai.ts]
    and [src/providers/openrouter.ts]: request construction, the recursive
    tool loop of [chat], and the chunk translation of the streaming path.

    Conventions.
    - A JavaScript object used as a dictionary (request bodies, [customOpts])
      is a [gmap string _]; an object spread [{...a, ...b}] is the map union
      in which [b] wins.
    - Code that mutates shared state ([thread.push], [context.toolCalls],
      the events a generator yields) runs in a state-and-exception monad;
      the state survives a [throw], as it does in JavaScript.
    - The backend is a script of responses (or of chunks); every request the
      code issues is logged with the thread snapshot it carried.
    - Numbers of the option record are finite rationals; token counters are
      integers extended with [NaN]. *)

From Stdlib Require Import ZArith QArith String List Bool Lia.
From stdpp Require Import base option list strings gmap fin_maps.
Import ListNotations.
Set Warnings "-register-all".
Local Open Scope string_scope.
Local Open Scope list_scope.

(* ===================================================================== *)
(** ** JavaScript values and helpers *)
(* ===================================================================== *)

(** [s.startsWith(p)] *)
Definition startsWith (s p : string) : bool := String.prefix p s.

(** [s.includes(sub)] *)
Fixpoint includes (s sub : string) : bool :=
  String.prefix sub s ||
  match s with
  | EmptyString => false
  | String _ s' => includes s' sub
  end.

(** [list.includes(x)] on an array of strings *)
Definition list_includes (l : list string) (x : string) : bool :=
  existsb (String.eqb x) l.

Arguments list_includes : simpl never.

(** Truthiness of a number: everything but zero (NaN is outside the model). *)
Definition truthyNum (q : Q) : bool := negb (Qnum q =? 0)%Z.

(** Truthiness of a string: everything but the empty string. *)
Definition truthyStr (s : string) : bool := negb (String.eqb s "").

(** Truthiness of an optional (possibly [undefined]) value. *)
Definition truthyOpt {A} (truthy : A → bool) (o : option A) : bool :=
  match o with Some a => truthy a | None => false end.

(** Optional chaining [o?.f] *)
Definition chain {A B} (o : option A) (f : A → option B) : option B :=
  match o with Some a => f a | None => None end.
Notation "o ?. f" := (chain o f) (at level 40, left associativity).

(** [o || ''] on an optional string *)
Definition orEmpty (o : option string) : string :=
  match o with Some s => s | None => "" end.

(** [s += o] on strings: [undefined] is appended as the text "undefined". *)
Definition appendJs (s : string) (o : option string) : string :=
  s ++ match o with Some a => a | None => "undefined" end.

(** JSON documents: tool arguments, tool results, opaque option values. *)
Inductive Json :=
| JNull
| JBool (b : bool)
| JNum (q : Q)
| JStr (s : string)
| JArr (l : list Json)
| JObj (l : list (string * Json)).

(** Token counters: a JavaScript number that is an integer or [NaN]. *)
Inductive number :=
| Fin (z : Z)
| NaN.

(** [a + b]; [undefined + b] is [NaN]. *)
Definition numAdd (a b : option number) : number :=
  match a, b with
  | Some (Fin x), Some (Fin y) => Fin (x + y)
  | _, _ => NaN
  end.

Definition truthyNumber (n : number) : bool :=
  match n with Fin z => negb (z =? 0)%Z | NaN => false end.

(* ===================================================================== *)
(** ** Shared vocabulary ([types/llm], as the providers use it) *)
(* ===================================================================== *)

Inductive LlmRole := system | developer | user | assistant | tool.

Definition roleName (r : LlmRole) : string :=
  match r with
  | system => "system" | developer => "developer" | user => "user"
  | assistant => "assistant" | tool => "tool"
  end.

Definition LlmRole_eqb (a b : LlmRole) : bool :=
  match a, b with
  | system, system | developer, developer | user, user
  | assistant, assistant | tool, tool => true
  | _, _ => false
  end.

(** [LlmCompletionOpts]. Every field is optional; an [undefined] options
    argument reads like the record with no field set, since the code only
    ever reads [opts?.field]. *)
Record LlmCompletionOpts := {
  tools : option bool;
  top_k : option Q;
  top_p : option Q;
  temperature : option Q;
  maxTokens : option Q;
  reasoningEffort : option string;
  usage : option bool;
  customOpts : option (gmap string Json);
}.

Definition noOpts : LlmCompletionOpts :=
  {| tools := None; top_k := None; top_p := None; temperature := None;
     maxTokens := None; reasoningEffort := None; usage := None;
     customOpts := None |}.

Definition set_tools (v : option bool) (o : LlmCompletionOpts) :=
  {| tools := v; top_k := top_k o; top_p := top_p o;
     temperature := temperature o; maxTokens := maxTokens o;
     reasoningEffort := reasoningEffort o; usage := usage o;
     customOpts := customOpts o |}.
Definition set_top_k (v : option Q) (o : LlmCompletionOpts) :=
  {| tools := tools o; top_k := v; top_p := top_p o;
     temperature := temperature o; maxTokens := maxTokens o;
     reasoningEffort := reasoningEffort o; usage := usage o;
     customOpts := customOpts o |}.
Definition set_top_p (v : option Q) (o : LlmCompletionOpts) :=
  {| tools := tools o; top_k := top_k o; top_p := v;
     temperature := temperature o; maxTokens := maxTokens o;
     reasoningEffort := reasoningEffort o; usage := usage o;
     customOpts := customOpts o |}.
Definition set_temperature (v : option Q) (o : LlmCompletionOpts) :=
  {| tools := tools o; top_k := top_k o; top_p := top_p o;
     temperature := v; maxTokens := maxTokens o;
     reasoningEffort := reasoningEffort o; usage := usage o;
     customOpts := customOpts o |}.
Definition set_maxTokens (v : option Q) (o : LlmCompletionOpts) :=
  {| tools := tools o; top_k := top_k o; top_p := top_p o;
     temperature := temperature o; maxTokens := v;
     reasoningEffort := reasoningEffort o; usage := usage o;
     customOpts := customOpts o |}.
Definition set_reasoningEffort (v : option string) (o : LlmCompletionOpts) :=
  {| tools := tools o; top_k := top_k o; top_p := top_p o;
     temperature := temperature o; maxTokens := maxTokens o;
     reasoningEffort := v; usage := usage o;
     customOpts := customOpts o |}.

(** [opts?.usage] in a condition *)
Definition usageOn (o : LlmCompletionOpts) : bool := truthyOpt id (usage o).

(** A tool as the registry lists it ([getAvailableTools]). *)
Record ItemsSchema := {
  items_type : option string;
  items_properties : option Json;
}.

Record ParamSchema := {
  param_type : option string;
  param_description : option string;
  param_items : option ItemsSchema;
}.

Record ToolParameters := {
  properties : list (string * ParamSchema);
  required : list string;
}.

Record Tool := {
  tool_name : string;
  tool_description : string;
  tool_parameters : option ToolParameters;
}.

(** [LlmToolCallInfo]: what the aggregate result reports per executed call. *)
Record LlmToolCallInfo := {
  info_name : string;
  info_params : Json;
  info_result : Json;
}.

(** [LlmUsage], with the detail counters of the OpenAI wire format. *)
Record PromptTokensDetails := {
  cached_tokens : option number;
  prompt_audio_tokens : option number;
}.

Record CompletionTokensDetails := {
  reasoning_tokens : option number;
  completion_audio_tokens : option number;
}.

Record LlmUsage := {
  prompt_tokens : option number;
  completion_tokens : option number;
  total_tokens : option number;
  prompt_tokens_details : option PromptTokensDetails;
  completion_tokens_details : option CompletionTokensDetails;
}.

(** [LlmResponse] *)
Record LlmResponse := {
  resp_content : string;
  resp_toolCalls : list LlmToolCallInfo;
  resp_usage : option LlmUsage;
}.

(** Handle of a backend stream: the position of the request that opened it
    in the log of issued requests. *)
Definition LlmStream := nat.

(** [LlmChunk]: the events the stream translation yields. *)
Inductive LlmChunk :=
| ToolStatusChunk (name status : string)
| ToolDoneChunk (name : string) (params result : Json)
| StreamChunk (stream : LlmStream)
| ContentChunk (text : string) (done : bool)
| ReasoningChunk (text : string) (done : bool)
| UsageChunk (u : LlmUsage).

Definition isDoneContent (c : LlmChunk) : bool :=
  match c with ContentChunk _ true => true | _ => false end.
Definition isContent (c : LlmChunk) : bool :=
  match c with ContentChunk _ _ => true | _ => false end.
Definition isUsage (c : LlmChunk) : bool :=
  match c with UsageChunk _ => true | _ => false end.

(** [LlmToolCall]: a record of the in-flight accumulator; [message] is the
    backend-shaped announcement kept for the thread. *)
Record ToolCallFunction := {
  fn_name : option string;
  fn_arguments : option string;
}.

Record ToolCallMessage := {
  tcm_id : option string;
  tcm_index : option nat;
  tcm_function : option ToolCallFunction;
}.

Record LlmToolCall := {
  tc_id : string;
  tc_message : list ToolCallMessage;
  tc_function : string;
  tc_args : string;
}.

(** [Message] of [models/message], as far as the providers read it. *)
Record Message := {
  msg_role : LlmRole;
  msg_content : string;
  contentForModel : string;
  msg_attachment : option string;
}.

(** [LLmCompletionPayload]: one unit of the neutral payload, which is also
    the element type of the OpenAI thread. *)
Record LLmCompletionPayload := {
  role : LlmRole;
  content : option string;
  images : list string;
  tool_call_id : option string;
  name : option string;
  tool_calls : option (list ToolCallMessage);
}.

Definition set_role (r : LlmRole) (p : LLmCompletionPayload) :=
  {| role := r; content := content p; images := images p;
     tool_call_id := tool_call_id p; name := name p;
     tool_calls := tool_calls p |}.

(* ===================================================================== *)
(** ** Exceptions and the state monad *)
(* ===================================================================== *)

Inductive Exn :=
| InvalidJsonArgs (fn args : string)   (* the [Error] the OpenAI adapter builds *)
| SyntaxError (text : string)          (* an uncaught [JSON.parse] failure *)
| TypeError                            (* a property read on [undefined] *)
| BackendError.                        (* the backend call rejected *)

Inductive Result (A : Type) :=
| Ok (a : A)
| Throw (e : Exn).
Arguments Ok {A} a.
Arguments Throw {A} e.

Definition M (S A : Type) : Type := S → Result A * S.

Definition ret {S A} (a : A) : M S A := fun s => (Ok a, s).
Definition bind {S A B} (m : M S A) (k : A → M S B) : M S B :=
  fun s => match m s with
           | (Ok a, s') => k a s'
           | (Throw e, s') => (Throw e, s')
           end.
Definition throw {S A} (e : Exn) : M S A := fun s => (Throw e, s).
Definition gets {S A} (f : S → A) : M S A := fun s => (Ok (f s), s).
Definition modify {S} (f : S → S) : M S unit := fun s => (Ok tt, f s).

Notation "'do' x <- c ; k" := (bind c (fun x => k))
  (at level 10, x name, c at level 100, k at level 200).
Notation "'run' c ; k" := (bind c (fun _ => k))
  (at level 10, c at level 100, k at level 200).

(** [for (const x of l) { body x }] *)
Fixpoint forEach {S A} (l : list A) (body : A → M S unit) : M S unit :=
  match l with
  | [] => ret tt
  | x :: l' => run body x; forEach l' body
  end.

(** The parts of the JavaScript runtime and of the engine base class
    ([engine.ts]) the providers call but do not define. *)
Class Runtime := {
  (** [JSON.parse]; [None] when it throws *)
  JSON_parse : string → option Json;
  (** [JSON.stringify] *)
  JSON_stringify : Json → string;
  (** [callTool(name, args)]: the result may depend on the calls made so far *)
  toolResult : list (string * Json) → string → Json → Json;
  (** [getToolPreparationDescription], [getToolRunningDescription] *)
  getToolPreparationDescription : string → string;
  getToolRunningDescription : string → Json → string;
  (** [LlmEngine.buildPayload], the payload builder of the base class (with
      the attachment hooks of the adapter it runs for) *)
  superBuildPayload : string → list Message → LlmCompletionOpts → list LLmCompletionPayload;
  (** [LlmEngine.selectModel] *)
  selectModel : string → list Message → LlmCompletionOpts → string;
  (** [getAvailableTools()]: the tools the registered plugins declare *)
  availableTools : list Tool;
}.

(** The state a provider call runs in: its own mutable data ([local]: the
    thread array of [chat], the streaming context of the stream path), the
    log of backend requests issued, the log of tool invocations, and the
    events yielded so far. *)
Record Machine (Req Local : Type) := {
  local : Local;
  requests : list Req;
  invocations : list (string * Json);
  yielded : list LlmChunk;
}.
Arguments local {Req Local} _.
Arguments requests {Req Local} _.
Arguments invocations {Req Local} _.
Arguments yielded {Req Local} _.

Section MachineOps.
Context {Req Local : Type} {RT : Runtime}.

Definition getLocal : M (Machine Req Local) Local := gets local.

Definition modifyLocal (f : Local → Local) : M (Machine Req Local) unit :=
  modify (fun s => {| local := f (local s); requests := requests s;
                      invocations := invocations s; yielded := yielded s |}).

(** [yield chunk] *)
Definition yield (c : LlmChunk) : M (Machine Req Local) unit :=
  modify (fun s => {| local := local s; requests := requests s;
                      invocations := invocations s;
                      yielded := yielded s ++ [c] |}).

(** Sends a request to the backend; the handle returned is its position
    in the log. *)
Definition issue (r : Req) : M (Machine Req Local) LlmStream :=
  fun s => (Ok (length (requests s)),
            {| local := local s; requests := requests s ++ [r];
               invocations := invocations s; yielded := yielded s |}).

(** [await this.callTool(name, args)] *)
Definition callTool (name : string) (args : Json) : M (Machine Req Local) Json :=
  fun s => (Ok (toolResult (invocations s) name args),
            {| local := local s; requests := requests s;
               invocations := invocations s ++ [(name, args)];
               yielded := yielded s |}).
End MachineOps.

(* ===================================================================== *)
(** ** The OpenAI adapter ([openai.ts]) and its OpenRouter subclass *)
(* ===================================================================== *)

Module OpenAI.

(** The class the method is dispatched on: [openrouter.ts] extends the
    OpenAI engine and overrides [modelSupportsTools] and [systemRole]. Its
    [getToolsOpts] is called by no method of these sources; requests get
    their tools from [getFunctionCallingOptions] on both classes. *)
Inductive Engine := OpenAIEngine | OpenRouterEngine.

Definition modelAcceptsSystemRole (model : string) : bool :=
  negb (startsWith model "o1").

Definition modelSupportsTools (self : Engine) (model : string) : bool :=
  match self with
  | OpenAIEngine => negb (startsWith model "o1-") && negb (startsWith model "chatgpt-")
  | OpenRouterEngine => true
  end.

Definition modelIsReasoning (model : string) : bool := startsWith model "o".
Definition modelSupportsMaxTokens (model : string) : bool := true.
Definition modelSupportsTemperature (model : string) : bool := negb (modelIsReasoning model).
Definition modelSupportsTopP (model : string) : bool := negb (modelIsReasoning model).
Definition modelSupportsTopK (model : string) : bool := negb (modelIsReasoning model).
Definition modelSupportsReasoningEffort (model : string) : bool := modelIsReasoning model.

Definition systemRole (self : Engine) : LlmRole := system.

(** Values of a request body. *)
Inductive ReqVal :=
| RJson (j : Json)
| RMessages (l : list LLmCompletionPayload)
| RTools (l : list Tool).

(** [{...base, ...ext}]: the keys of [ext] win. *)
Definition spread (base ext : gmap string ReqVal) : gmap string ReqVal := ext ∪ base.

(** [...(supported && value ? fields value : {})] for a numeric option *)
Definition numField (supported : bool) (o : option Q)
    (fields : Q → gmap string ReqVal) : gmap string ReqVal :=
  match o with
  | Some q => if supported && truthyNum q then fields q else ∅
  | None => ∅
  end.

Definition strField (supported : bool) (o : option string)
    (fields : string → gmap string ReqVal) : gmap string ReqVal :=
  match o with
  | Some s => if supported && truthyStr s then fields s else ∅
  | None => ∅
  end.

Definition getCompletionOpts (model : string) (opts : LlmCompletionOpts)
    : gmap string ReqVal :=
  let o1 := numField (modelSupportsMaxTokens model) (maxTokens opts)
              (fun v => {[ "max_completion_tokens" := RJson (JNum v) ]}) in
  let o2 := numField (modelSupportsTemperature model) (temperature opts)
              (fun v => {[ "temperature" := RJson (JNum v) ]}) in
  let o3 := numField (modelSupportsTopK model) (top_k opts)
              (fun v => <[ "top_logprobs" := RJson (JNum v) ]>
                        {[ "logprobs" := RJson (JBool true) ]}) in
  let o4 := numField (modelSupportsTopP model) (top_p opts)
              (fun v => {[ "top_p" := RJson (JNum v) ]}) in
  let o5 := strField (modelSupportsReasoningEffort model) (reasoningEffort opts)
              (fun v => {[ "reasoning_effort" := RJson (JStr v) ]}) in
  let o6 := match customOpts opts with
            | Some c => RJson <$> c
            | None => ∅
            end in
  spread (spread (spread (spread (spread o1 o2) o3) o4) o5) o6.

Section WithRuntime.
Context {RT : Runtime} (self : Engine).

Definition getFunctionCallingOptions (model : string) (opts : LlmCompletionOpts)
    : gmap string ReqVal :=
  if (match tools opts with Some false => true | _ => false end
      || match top_k opts with None => true | Some _ => false end)
     || negb (modelSupportsTools self model)
  then ∅
  else
    let tools := availableTools in
    if negb (Nat.eqb (length tools) 0)
    then <[ "tool_choice" := RJson (JStr "auto") ]> {[ "tools" := RTools tools ]}
    else ∅.

Definition buildPayload (model : string) (thread : list Message)
    (opts : LlmCompletionOpts) : list LLmCompletionPayload :=
  let payload := superBuildPayload model thread opts in
  if negb (modelAcceptsSystemRole model)
  then List.filter (fun msg => negb (LlmRole_eqb (role msg) system)) payload
  else if negb (LlmRole_eqb (systemRole self) system)
  then map (fun msg => if LlmRole_eqb (role msg) system
                       then set_role (systemRole self) msg else msg) payload
  else payload.
End WithRuntime.

(** *** Native shapes of the backend *)

(** A tool call of a complete (non-streamed) response. *)
Record ToolCallObj := {
  call_id : string;
  call_name : string;
  call_arguments : string;
}.

Record ChoiceMessage := {
  message_content : option string;
  message_tool_calls : option (list ToolCallObj);
}.

Record ChatChoice := {
  choice_finish_reason : option string;
  choice_message : ChoiceMessage;
}.

Record ChatCompletion := {
  choices : list ChatChoice;
  completion_usage : option LlmUsage;
}.

(** A streamed chunk. *)
Record Delta := {
  delta_tool_calls : option (list ToolCallMessage);
  delta_content : option string;
  delta_reasoning_content : option string;
}.

Record ChunkChoice := {
  delta : option Delta;
  finish_reason : option string;
}.

Record ChatCompletionChunk := {
  chunk_choices : list ChunkChoice;
  chunk_usage : option LlmUsage;
}.

(** [OpenAIStreamingContext] *)
Record OpenAIStreamingContext := {
  ctx_model : string;
  ctx_thread : list LLmCompletionPayload;
  ctx_opts : LlmCompletionOpts;
  ctx_toolCalls : list LlmToolCall;
  ctx_done : bool;
}.

Definition set_thread (t : list LLmCompletionPayload) (c : OpenAIStreamingContext) :=
  {| ctx_model := ctx_model c; ctx_thread := t; ctx_opts := ctx_opts c;
     ctx_toolCalls := ctx_toolCalls c; ctx_done := ctx_done c |}.
Definition set_toolCalls (t : list LlmToolCall) (c : OpenAIStreamingContext) :=
  {| ctx_model := ctx_model c; ctx_thread := ctx_thread c; ctx_opts := ctx_opts c;
     ctx_toolCalls := t; ctx_done := ctx_done c |}.
Definition set_done (d : bool) (c : OpenAIStreamingContext) :=
  {| ctx_model := ctx_model c; ctx_thread := ctx_thread c; ctx_opts := ctx_opts c;
     ctx_toolCalls := ctx_toolCalls c; ctx_done := d |}.

(** The announcement of a complete response, as [thread.push(choice.message)]
    stores it. *)
Definition callToMessage (c : ToolCallObj) : ToolCallMessage :=
  {| tcm_id := Some (call_id c); tcm_index := None;
     tcm_function := Some {| fn_name := Some (call_name c);
                             fn_arguments := Some (call_arguments c) |} |}.

Definition messageToPayload (m : ChoiceMessage) : LLmCompletionPayload :=
  {| role := assistant; content := message_content m; images := [];
     tool_call_id := None; name := None;
     tool_calls := map callToMessage <$> message_tool_calls m |}.

Definition toolResponseMessage (id fn : string) (text : string) : LLmCompletionPayload :=
  {| role := tool; content := Some text; images := [];
     tool_call_id := Some id; name := Some fn; tool_calls := None |}.

Definition toolCallMessage (m : list ToolCallMessage) : LLmCompletionPayload :=
  {| role := assistant; content := Some ""; images := [];
     tool_call_id := None; name := None; tool_calls := Some m |}.

(** [x.d.f += v] guarded by [if (v)], where [d] may be missing on [x]:
    the read of [x.d!.f] then throws. *)
Definition addDetail {S D} (v : option number) (mine : option D)
    (get : D → option number) (set : number → D → D) : M S (option D) :=
  if truthyOpt truthyNumber v
  then match mine with
       | Some d => ret (Some (set (numAdd (get d) v) d))
       | None => throw TypeError
       end
  else ret mine.

(** The block under [// cumulate usage] of [chat]: the usage of the hop
    ([response.usage]) is added into the usage of the rest of the turn
    ([completion.usage]). *)
Definition cumulateUsage {S} (response completion : LlmUsage) : M S LlmUsage :=
  let prompt := numAdd (prompt_tokens completion) (prompt_tokens response) in
  do pd <- addDetail (prompt_tokens_details response ?. cached_tokens)
             (prompt_tokens_details completion) cached_tokens
             (fun n d => {| cached_tokens := Some n;
                            prompt_audio_tokens := prompt_audio_tokens d |});
  do pd <- addDetail (prompt_tokens_details response ?. prompt_audio_tokens)
             pd prompt_audio_tokens
             (fun n d => {| cached_tokens := cached_tokens d;
                            prompt_audio_tokens := Some n |});
  do cd <- addDetail (completion_tokens_details response ?. reasoning_tokens)
             (completion_tokens_details completion) reasoning_tokens
             (fun n d => {| reasoning_tokens := Some n;
                            completion_audio_tokens := completion_audio_tokens d |});
  do cd <- addDetail (completion_tokens_details response ?. completion_audio_tokens)
             cd completion_audio_tokens
             (fun n d => {| reasoning_tokens := reasoning_tokens d;
                            completion_audio_tokens := Some n |});
  ret {| prompt_tokens := Some prompt;
         completion_tokens := completion_tokens completion;
         total_tokens := total_tokens completion;
         prompt_tokens_details := pd;
         completion_tokens_details := cd |}.

(** [delete response.usage.total_tokens] when it is set and not zero *)
Definition dropTotal (u : LlmUsage) : LlmUsage :=
  if truthyOpt truthyNumber (total_tokens u)
  then {| prompt_tokens := prompt_tokens u;
          completion_tokens := completion_tokens u;
          total_tokens := None;
          prompt_tokens_details := prompt_tokens_details u;
          completion_tokens_details := completion_tokens_details u |}
  else u.

(** [existingToolCall.args += v] on the record [find] returns: the first
    one with this id. *)
Fixpoint appendToFirst (id : string) (v : option string) (l : list LlmToolCall)
    : list LlmToolCall :=
  match l with
  | [] => []
  | tc :: l' =>
      if String.eqb (tc_id tc) id
      then {| tc_id := tc_id tc; tc_message := tc_message tc;
              tc_function := tc_function tc;
              tc_args := appendJs (tc_args tc) v |} :: l'
      else tc :: appendToFirst id v l'
  end.

(** [delete tc.index] *)
Definition deleteIndex (m : ToolCallMessage) : ToolCallMessage :=
  {| tcm_id := tcm_id m; tcm_index := None; tcm_function := tcm_function m |}.

(** [m.function.arguments = args] *)
Definition setArguments (args : string) (m : ToolCallMessage) (f : ToolCallFunction)
    : ToolCallMessage :=
  {| tcm_id := tcm_id m; tcm_index := tcm_index m;
     tcm_function := Some {| fn_name := fn_name f; fn_arguments := Some args |} |}.

(** [l[l.length-1] = x] on a non-empty array *)
Definition setLast {A} (x : A) (l : list A) : list A := removelast l ++ [x].

Section Calls.
Context {RT : Runtime} (self : Engine).

Abbreviation Req := (gmap string ReqVal).
Abbreviation ChatM := (M (Machine Req (list LLmCompletionPayload))).
Abbreviation StreamM := (M (Machine Req OpenAIStreamingContext)).

(** The body of [client.chat.completions.create] in [chat]. *)
Definition chatRequest (model : string) (thread : list LLmCompletionPayload)
    (opts : LlmCompletionOpts) : Req :=
  spread (spread (<[ "messages" := RMessages thread ]>
                  {[ "model" := RJson (JStr model) ]})
                 (getCompletionOpts model opts))
         (getFunctionCallingOptions self model opts).

(** [try { args = JSON.parse(text) } catch (err) { throw new Error(...) }] *)
Definition parseArgs {S} (fn text : string) : M S Json :=
  match JSON_parse text with
  | Some args => ret args
  | None => throw (InvalidJsonArgs fn text)
  end.

(** One iteration of [for (const toolCall of toolCalls)] in [chat]. *)
Definition chatToolCall (toolCall : ToolCallObj) : ChatM LlmToolCallInfo :=
  do args <- parseArgs (call_name toolCall) (call_arguments toolCall);
  do content <- callTool (call_name toolCall) args;
  run modifyLocal (fun thread => thread ++
        [toolResponseMessage (call_id toolCall) (call_name toolCall)
           (JSON_stringify content)]);
  ret {| info_name := call_name toolCall; info_params := args;
         info_result := content |}.

(** The loop, with the [toolCallInfo] array it fills. *)
Fixpoint chatToolCalls (toolCalls : list ToolCallObj) : ChatM (list LlmToolCallInfo) :=
  match toolCalls with
  | [] => ret []
  | toolCall :: rest =>
      do info <- chatToolCall toolCall;
      do infos <- chatToolCalls rest;
      ret (info :: infos)
  end.

(** [chat(model, thread, opts)]: [thread] is the array in the state; the
    backend answers the n-th request with the n-th response of [script]
    and rejects once the script is used up. *)
Fixpoint chat (script : list ChatCompletion) (model : string)
    (opts : LlmCompletionOpts) : ChatM LlmResponse :=
  do thread <- getLocal;
  run issue (chatRequest model thread opts);
  match script with
  | [] => throw BackendError
  | response :: script' =>
      let terminal : ChatM LlmResponse :=
        match head (choices response) with
        | None => throw TypeError
        | Some choice =>
            ret {| resp_content := orEmpty (message_content (choice_message choice));
                   resp_toolCalls := [];
                   resp_usage := if usageOn opts
                                 then dropTotal <$> completion_usage response
                                 else None |}
        end in
      match head (choices response) with
      | Some choice =>
          if bool_decide (choice_finish_reason choice = Some "tool_calls")
          then
            run modifyLocal (fun thread =>
                  thread ++ [messageToPayload (choice_message choice)]);
            match message_tool_calls (choice_message choice) with
            | None => throw TypeError
            | Some toolCalls =>
                do toolCallInfo <- chatToolCalls toolCalls;
                do completion <- chat script' model opts;
                do usage' <-
                  match completion_usage response, resp_usage completion with
                  | Some ru, Some cu =>
                      if usageOn opts
                      then (do u <- cumulateUsage ru cu; ret (Some u))
                      else ret (Some cu)
                  | _, cu => ret cu
                  end;
                ret {| resp_content := resp_content completion;
                       resp_toolCalls := toolCallInfo ++ resp_toolCalls completion;
                       resp_usage := usage' |}
            end
          else terminal
      | None => terminal
      end
  end.

(** The body of [client.chat.completions.create] in [doStream]. *)
Definition streamRequest (context : OpenAIStreamingContext) : Req :=
  spread (spread (spread (<[ "messages" := RMessages (ctx_thread context) ]>
                          {[ "model" := RJson (JStr (ctx_model context)) ]})
                         (getCompletionOpts (ctx_model context) (ctx_opts context)))
                 (getFunctionCallingOptions self (ctx_model context) (ctx_opts context)))
         (<[ "stream" := RJson (JBool true) ]>
          {[ "stream_options" :=
               RJson (JObj [("include_usage", JBool (usageOn (ctx_opts context)))]) ]}).

Definition doStream : StreamM LlmStream :=
  run modifyLocal (set_toolCalls []);
  do context <- getLocal;
  issue (streamRequest context).

Definition stream (model : string) (thread : list Message)
    (opts : LlmCompletionOpts) : StreamM LlmStream :=
  let model := selectModel model thread opts in
  run modifyLocal (fun _ =>
        {| ctx_model := model; ctx_thread := buildPayload self model thread opts;
           ctx_opts := opts; ctx_toolCalls := []; ctx_done := false |});
  doStream.

(** The first block of [nativeChunkToLlmChunk]: a tool-call delta opens a
    record or extends one. *)
Definition accumulateToolCall (chunk : ChatCompletionChunk) : StreamM unit :=
  match head (chunk_choices chunk) ?. delta ?. delta_tool_calls
  return StreamM unit with
  | Some (tool_call :: others) =>
      match tcm_function tool_call return StreamM unit with
      | Some fn =>
          if truthyOpt truthyStr (tcm_id tool_call)
          then
            let id := orEmpty (tcm_id tool_call) in
            do context <- getLocal;
            if existsb (fun tc => String.eqb (tc_id tc) id) (ctx_toolCalls context)
            then modifyLocal (fun c =>
                   set_toolCalls (appendToFirst id (fn_arguments fn) (ctx_toolCalls c)) c)
            else
              let toolCall :=
                {| tc_id := id;
                   tc_message := map deleteIndex (tool_call :: others);
                   tc_function := orEmpty (fn_name fn);
                   tc_args := orEmpty (fn_arguments fn) |} in
              run modifyLocal (fun c => set_toolCalls (ctx_toolCalls c ++ [toolCall]) c);
              yield (ToolStatusChunk (tc_function toolCall)
                       (getToolPreparationDescription (tc_function toolCall)))
          else
            do context <- getLocal;
            match last (ctx_toolCalls context) with
            | None => throw TypeError
            | Some toolCall =>
                let args := appendJs (tc_args toolCall) (fn_arguments fn) in
                let withArgs m :=
                  {| tc_id := tc_id toolCall; tc_message := m;
                     tc_function := tc_function toolCall; tc_args := args |} in
                run modifyLocal (fun c =>
                      set_toolCalls (setLast (withArgs (tc_message toolCall))
                                       (ctx_toolCalls c)) c);
                match last (tc_message toolCall) with
                | Some m =>
                    match tcm_function m with
                    | Some f =>
                        modifyLocal (fun c =>
                          set_toolCalls
                            (setLast (withArgs (setLast (setArguments args m f)
                                                  (tc_message toolCall)))
                               (ctx_toolCalls c)) c)
                    | None => throw TypeError
                    end
                | None => throw TypeError
                end
            end
      | None => ret tt
      end
  | _ => ret tt
  end.

(** One iteration of [for (const toolCall of context.toolCalls)]. *)
Definition streamToolCall (toolCall : LlmToolCall) : StreamM unit :=
  do args <- parseArgs (tc_function toolCall) (tc_args toolCall);
  run yield (ToolStatusChunk (tc_function toolCall)
               (getToolRunningDescription (tc_function toolCall) args));
  do content <- callTool (tc_function toolCall) args;
  run modifyLocal (fun c => set_thread (ctx_thread c ++
        [toolCallMessage (tc_message toolCall)]) c);
  run modifyLocal (fun c => set_thread (ctx_thread c ++
        [toolResponseMessage (tc_id toolCall) (tc_function toolCall)
           (JSON_stringify content)]) c);
  yield (ToolDoneChunk (tc_function toolCall) args content).

Definition nativeChunkToLlmChunk (chunk : ChatCompletionChunk) : StreamM unit :=
  let choice := head (chunk_choices chunk) in
  let reason := orEmpty (choice ?. finish_reason) in
  run accumulateToolCall chunk;
  do context <- getLocal;
  if list_includes ["tool_calls"; "function_call"; "stop"] reason
     && negb (Nat.eqb (length (ctx_toolCalls context)) 0)
  then
    run forEach (ctx_toolCalls context) streamToolCall;
    do newStream <- doStream;
    yield (StreamChunk newStream)
  else
    let done := list_includes ["stop"; "length"; "content_filter"; "eos"] reason in
    let hasChoices := negb (Nat.eqb (length (chunk_choices chunk)) 0) in
    run (if done then modifyLocal (set_done true) else ret tt);
    run (if hasChoices
            && truthyOpt truthyStr (choice ?. delta ?. delta_reasoning_content)
         then yield (ReasoningChunk
                       (orEmpty (choice ?. delta ?. delta_reasoning_content)) done)
         else ret tt);
    run (if hasChoices
            && (truthyOpt truthyStr (choice ?. delta ?. delta_content) || done)
         then yield (ContentChunk (orEmpty (choice ?. delta ?. delta_content)) done)
         else ret tt);
    do context <- getLocal;
    match chunk_usage chunk with
    | Some u => if usageOn (ctx_opts context) && ctx_done context
                then yield (UsageChunk u) else ret tt
    | None => ret tt
    end.

(** Modelled from the spec: the consumption loop of the engine base class
    is not among the sources; section 4.5 has the producer hand every
    native chunk of a stream, in order, to the chunk translation. *)
Definition translateChunks (chunks : list ChatCompletionChunk) : StreamM unit :=
  forEach chunks nativeChunkToLlmChunk.
End Calls.

End OpenAI.

(* ===================================================================== *)
(** ** The Google adapter ([google.ts]) *)
(* ===================================================================== *)

Module Google.

(** *** Native shapes of the backend *)

Record FunctionCall := {
  fc_name : string;
  fc_args : Json;
}.

Inductive Part :=
| TextPart (text : option string)
| InlineDataPart (mimeType data : string)
| FunctionCallPart (call : FunctionCall)
| FunctionResponsePart (name : string) (response : Json).

Record Content := {
  content_role : string;
  parts : list Part;
}.

Record Candidate := {
  candidate_parts : list Part;
  finishReason : option string;
}.

Record UsageMetadata := {
  promptTokenCount : option number;
  candidatesTokenCount : option number;
}.

(** [EnhancedGenerateContentResponse], read through its accessors
    [functionCalls()] and [text()]. *)
Record GenerateContentResponse := {
  functionCalls : option (list FunctionCall);
  candidates : option (list Candidate);
  text : string;
  usageMetadata : option UsageMetadata;
}.

Record DeclItems := {
  decl_items_properties : option Json;
  decl_items_type : string;
}.

Record DeclEntry := {
  entry_description : option string;
  entry_type : option string;
  entry_items : option DeclItems;
}.

Record DeclParameters := {
  decl_properties : list (string * DeclEntry);
  decl_required : list string;
}.

Record FunctionDeclaration := {
  decl_name : string;
  decl_description : string;
  decl_parameters : option DeclParameters;
}.

Inductive FunctionCallingMode := AUTO.

(** [ModelParams]; the [GenerativeModel] the client returns is these. *)
Record ModelParams := {
  mp_model : string;
  systemInstruction : option string;
  toolConfig : option FunctionCallingMode;
  mp_tools : option (list FunctionDeclaration);
}.

Record GenerationConfig := {
  maxOutputTokens : option Q;
  gc_temperature : option Q;
  topK : option Q;
  topP : option Q;
}.

(** What [generateContent] and [generateContentStream] send. *)
Record Request := {
  req_model : ModelParams;
  contents : list Content;
  generationConfig : option GenerationConfig;
  req_stream : bool;
}.

(** [GoogleStreamingContext] *)
Record GoogleStreamingContext := {
  ctx_model : ModelParams;
  ctx_content : list Content;
  ctx_opts : LlmCompletionOpts;
  ctx_toolCalls : list LlmToolCall;
}.

Definition set_content (t : list Content) (c : GoogleStreamingContext) :=
  {| ctx_model := ctx_model c; ctx_content := t; ctx_opts := ctx_opts c;
     ctx_toolCalls := ctx_toolCalls c |}.
Definition set_toolCalls (t : list LlmToolCall) (c : GoogleStreamingContext) :=
  {| ctx_model := ctx_model c; ctx_content := ctx_content c; ctx_opts := ctx_opts c;
     ctx_toolCalls := t |}.

(** *** Capabilities *)

Definition modelStartsWith (model : string) (prefix : list string) : bool :=
  existsb (fun p => startsWith model p) prefix.

Definition supportsInstructions (model : string) : bool :=
  negb (modelStartsWith model ["models/gemini-pro"]).

Definition supportsTools (model : string) : bool :=
  negb (includes model "thinking").

(** *** Request construction *)

(** [...(value ? { key: value } : {})] *)
Definition ifTruthy (o : option Q) : option Q :=
  match o with
  | Some q => if truthyNum q then Some q else None
  | None => None
  end.

Definition getGenerationConfig (opts : LlmCompletionOpts) : option GenerationConfig :=
  let config := {| maxOutputTokens := ifTruthy (maxTokens opts);
                   gc_temperature := ifTruthy (temperature opts);
                   topK := ifTruthy (top_k opts);
                   topP := ifTruthy (top_p opts) |} in
  match maxOutputTokens config, gc_temperature config, topK config, topP config with
  | None, None, None, None => None
  | _, _, _, _ => Some config
  end.

(** The schema entry [getModel] builds for one declared parameter. *)
Definition declEntry (paramSchema : ParamSchema) : DeclEntry :=
  if bool_decide (param_type paramSchema = Some "array")
     || bool_decide (is_Some (param_items paramSchema))
  then {| entry_description := param_description paramSchema;
          entry_type := None;
          entry_items :=
            Some {| decl_items_properties := param_items paramSchema ?. items_properties;
                    decl_items_type :=
                      match param_items paramSchema ?. items_type with
                      | Some t => if truthyStr t then t else "string"
                      | None => "string"
                      end |} |}
  else {| entry_description := param_description paramSchema;
          entry_type := param_type paramSchema;
          entry_items := None |}.

Definition functionDeclaration (tool : Tool) : FunctionDeclaration :=
  let props := match tool_parameters tool with Some p => properties p | None => [] end in
  let required := match tool_parameters tool with Some p => required p | None => [] end in
  {| decl_name := tool_name tool;
     decl_description := tool_description tool;
     decl_parameters :=
       if negb (Nat.eqb (length props) 0)
       then Some {| decl_properties := map (fun '(paramName, paramSchema) =>
                                              (paramName, declEntry paramSchema)) props;
                    decl_required := required |}
       else None |}.

Section Calls.
Context {RT : Runtime}.

Abbreviation ChatM := (M (Machine Request (list Content))).
Abbreviation StreamM := (M (Machine Request GoogleStreamingContext)).

Definition getModel (model : string) (instructions : option string)
    (opts : LlmCompletionOpts) : ModelParams :=
  let functionDeclarations := map functionDeclaration availableTools in
  let enabled :=
    (bool_decide (tools opts = Some true) || bool_decide (is_Some (top_k opts)))
    && supportsTools model
    && negb (Nat.eqb (length functionDeclarations) 0) in
  {| mp_model := model;
     systemInstruction := if supportsInstructions model then instructions else None;
     toolConfig := if enabled then Some AUTO else None;
     mp_tools := if enabled then Some functionDeclarations else None |}.

Definition messageToContent (payload : LLmCompletionPayload) : Content :=
  {| content_role := if LlmRole_eqb (role payload) assistant
                     then "model" else roleName (role payload);
     parts := TextPart (content payload)
              :: map (fun image => InlineDataPart "image/png" image) (images payload) |}.

Definition threadToHistory (thread : list Message) (modelName : string)
    (opts : LlmCompletionOpts) : list Content :=
  let hasInstructions := supportsInstructions modelName in
  let payload :=
    map (fun p => if LlmRole_eqb (role p) system then set_role user p else p)
        (superBuildPayload modelName
           (drop (if hasInstructions then 1 else 0) thread) opts) in
  map messageToContent payload.

Definition usageOf (m : UsageMetadata) : LlmUsage :=
  {| prompt_tokens := promptTokenCount m;
     completion_tokens := candidatesTokenCount m;
     total_tokens := None;
     prompt_tokens_details := None;
     completion_tokens_details := None |}.

(** The block under [// cumulate usage] of [chat]. *)
Definition cumulateUsage (response : UsageMetadata) (completion : LlmUsage) : LlmUsage :=
  {| prompt_tokens :=
       Some (numAdd (prompt_tokens completion) (promptTokenCount response));
     completion_tokens :=
       Some (numAdd (completion_tokens completion) (candidatesTokenCount response));
     total_tokens := total_tokens completion;
     prompt_tokens_details := prompt_tokens_details completion;
     completion_tokens_details := completion_tokens_details completion |}.

(** [response.candidates![0].content.parts] *)
Definition firstCandidateParts {S} (response : GenerateContentResponse)
    : M S (list Part) :=
  match candidates response with
  | Some (candidate :: _) => ret (candidate_parts candidate)
  | _ => throw TypeError
  end.

(** The loop of [chat] over the function calls of a response, with the
    [results] and [toolCallInfo] arrays it fills. *)
Fixpoint chatToolCalls (toolCalls : list FunctionCall)
    : ChatM (list Part * list LlmToolCallInfo) :=
  match toolCalls with
  | [] => ret ([], [])
  | toolCall :: rest =>
      do content <- callTool (fc_name toolCall) (fc_args toolCall);
      do more <- chatToolCalls rest;
      ret (FunctionResponsePart (fc_name toolCall) content :: fst more,
           {| info_name := fc_name toolCall; info_params := fc_args toolCall;
              info_result := content |} :: snd more)
  end.

(** [chat(modelName, thread, opts)]: [thread] is the array in the state
    (an array of [Content], on which [contentForModel] is undefined). *)
Fixpoint chat (script : list GenerateContentResponse) (modelName : string)
    (opts : LlmCompletionOpts) : ChatM LlmResponse :=
  do thread <- getLocal;
  match thread with
  | [] => throw TypeError
  | _ :: _ =>
      let model := getModel modelName None opts in
      run issue {| req_model := model; contents := thread;
                   generationConfig := getGenerationConfig opts;
                   req_stream := false |};
      match script with
      | [] => throw BackendError
      | response :: script' =>
          match functionCalls response with
          | Some (toolCall :: toolCalls) =>
              do done <- chatToolCalls (toolCall :: toolCalls);
              do announced <- firstCandidateParts response;
              run modifyLocal (fun thread => thread ++
                    [{| content_role := "assistant"; parts := announced |}]);
              run modifyLocal (fun thread => thread ++
                    [{| content_role := "tool"; parts := fst done |}]);
              do completion <- chat script' modelName opts;
              ret {| resp_content := resp_content completion;
                     resp_toolCalls := snd done ++ resp_toolCalls completion;
                     resp_usage :=
                       match usageMetadata response, resp_usage completion with
                       | Some m, Some u =>
                           if usageOn opts then Some (cumulateUsage m u) else Some u
                       | _, u => u
                       end |}
          | _ =>
              ret {| resp_content := text response;
                     resp_toolCalls := [];
                     resp_usage := if usageOn opts
                                   then usageOf <$> usageMetadata response
                                   else None |}
          end
      end
  end.

Definition complete (script : list GenerateContentResponse) (model : string)
    (thread : list Message) (opts : LlmCompletionOpts) : ChatM LlmResponse :=
  run modifyLocal (fun _ => threadToHistory thread model opts);
  chat script model opts.

Definition doStream : StreamM LlmStream :=
  run modifyLocal (set_toolCalls []);
  do context <- getLocal;
  issue {| req_model := ctx_model context; contents := ctx_content context;
           generationConfig := getGenerationConfig (ctx_opts context);
           req_stream := true |}.

Definition stream (modelName : string) (thread : list Message)
    (opts : LlmCompletionOpts) : StreamM LlmStream :=
  let modelName := selectModel modelName thread opts in
  match thread with
  | [] => throw TypeError
  | first :: _ =>
      run modifyLocal (fun _ =>
            {| ctx_model := getModel modelName (Some (contentForModel first)) opts;
               ctx_content := threadToHistory thread modelName opts;
               ctx_opts := opts; ctx_toolCalls := [] |});
      doStream
  end.

(** The record [nativeChunkToLlmChunk] keeps per function call. *)
Definition toolCallRecord (tc : FunctionCall) : LlmToolCall :=
  {| tc_id := fc_name tc; tc_message := []; tc_function := fc_name tc;
     tc_args := JSON_stringify (fc_args tc) |}.

(** The loop of [nativeChunkToLlmChunk] over [context.toolCalls], with
    the [results] array it fills. *)
Fixpoint streamToolCalls (toolCalls : list LlmToolCall) : StreamM (list Part) :=
  match toolCalls with
  | [] => ret []
  | toolCall :: rest =>
      run yield (ToolStatusChunk (tc_function toolCall)
                   (getToolPreparationDescription (tc_function toolCall)));
      do args <- match JSON_parse (tc_args toolCall) return StreamM Json with
                 | Some args => ret args
                 | None => throw (SyntaxError (tc_args toolCall))
                 end;
      run yield (ToolStatusChunk (tc_function toolCall)
                   (getToolRunningDescription (tc_function toolCall) args));
      do content <- callTool (tc_function toolCall) args;
      run yield (ToolDoneChunk (tc_function toolCall) args content);
      do results <- streamToolCalls rest;
      ret (FunctionResponsePart (tc_function toolCall) content :: results)
  end.

(** The block under [// save]: the accumulator becomes the records of
    the function calls of the chunk. *)
Definition saveToolCalls (toolCalls : list FunctionCall) : StreamM unit :=
  modifyLocal (set_toolCalls (map toolCallRecord toolCalls)).

Definition nativeChunkToLlmChunk (chunk : GenerateContentResponse) : StreamM unit :=
  match functionCalls chunk with
  | Some (toolCall :: toolCalls) =>
      run saveToolCalls (toolCall :: toolCalls);
      do context <- getLocal;
      do results <- streamToolCalls (ctx_toolCalls context);
      do announced <- firstCandidateParts chunk;
      run modifyLocal (fun c => set_content (ctx_content c ++
            [{| content_role := "assistant"; parts := announced |}]) c);
      run modifyLocal (fun c => set_content (ctx_content c ++
            [{| content_role := "tool"; parts := results |}]) c);
      do newStream <- doStream;
      yield (StreamChunk newStream)
  | _ =>
      do done <- match candidates chunk return StreamM bool with
                 | None => ret false
                 | Some [] => throw TypeError
                 | Some (candidate :: _) =>
                     ret (truthyOpt truthyStr (finishReason candidate))
                 end;
      run yield (ContentChunk (text chunk) done);
      do context <- getLocal;
      match usageMetadata chunk with
      | Some m => if done && usageOn (ctx_opts context)
                  then yield (UsageChunk (usageOf m)) else ret tt
      | None => ret tt
      end
  end.

(** Modelled from the spec: the consumption loop of the engine base class
    is not among the sources; section 4.5 has the producer hand every
    native chunk of a stream, in order, to the chunk translation. *)
Definition translateChunks (chunks : list GenerateContentResponse) : StreamM unit :=
  forEach chunks nativeChunkToLlmChunk.
End Calls.

End Google.

(* ===================================================================== *)
(** ** The adapters side by side *)
(* ===================================================================== *)

(** The adapter classes of the sources. *)
Inductive Adapter :=
| GoogleAdapter
| OpenAIAdapter (self : OpenAI.Engine).

(** The capability predicates each adapter answers with. *)
Definition supportsTools (a : Adapter) (model : string) : bool :=
  match a with
  | GoogleAdapter => Google.supportsTools model
  | OpenAIAdapter self => OpenAI.modelSupportsTools self model
  end.

Definition acceptsSystemRole (a : Adapter) (model : string) : bool :=
  match a with
  | GoogleAdapter => Google.supportsInstructions model
  | OpenAIAdapter _ => OpenAI.modelAcceptsSystemRole model
  end.

(** Whether the request the adapter builds declares the tools: the [tools]
    entry of [ModelParams] on Google, the [tools] key of the function
    calling options on OpenAI. *)
Definition toolsInjected {RT : Runtime} (a : Adapter) (model : string)
    (opts : LlmCompletionOpts) : bool :=
  match a with
  | GoogleAdapter =>
      bool_decide (is_Some (Google.mp_tools (Google.getModel model None opts)))
  | OpenAIAdapter self =>
      bool_decide (is_Some (OpenAI.getFunctionCallingOptions self model opts !! "tools"))
  end.

(** The roles of the units of the payload the adapter builds for a thread. *)
Definition payloadRoles {RT : Runtime} (a : Adapter) (model : string)
    (thread : list Message) (opts : LlmCompletionOpts) : list string :=
  match a with
  | GoogleAdapter => map Google.content_role (Google.threadToHistory thread model opts)
  | OpenAIAdapter self =>
      map (fun p => roleName (role p)) (OpenAI.buildPayload self model thread opts)
  end.

(** The tool policy in the words of the specification: enabled by the
    explicit flag, or whenever [top_k] is present. *)
Definition specToolsEnabled (opts : LlmCompletionOpts) : bool :=
  bool_decide (tools opts = Some true) || bool_decide (is_Some (top_k opts)).

(** The gate each adapter applies: Google reads the policy above; OpenAI
    wants [top_k] present and the flag not explicitly off. *)
Definition toolsGate (a : Adapter) (opts : LlmCompletionOpts) : bool :=
  match a with
  | GoogleAdapter =>
      bool_decide (tools opts = Some true) || bool_decide (is_Some (top_k opts))
  | OpenAIAdapter _ =>
      negb (bool_decide (tools opts = Some false)) && bool_decide (is_Some (top_k opts))
  end.

(** The options a model may not support, the capability that gates each on
    the OpenAI adapter, and the request keys each one sets. *)
Inductive GatedOption := Temperature | TopP | TopK | MaxTokens | ReasoningEffort.

Definition modelSupports (model : string) (o : GatedOption) : bool :=
  match o with
  | Temperature => OpenAI.modelSupportsTemperature model
  | TopP => OpenAI.modelSupportsTopP model
  | TopK => OpenAI.modelSupportsTopK model
  | MaxTokens => OpenAI.modelSupportsMaxTokens model
  | ReasoningEffort => OpenAI.modelSupportsReasoningEffort model
  end.

Definition requestKeys (o : GatedOption) : list string :=
  match o with
  | Temperature => ["temperature"]
  | TopP => ["top_p"]
  | TopK => ["logprobs"; "top_logprobs"]
  | MaxTokens => ["max_completion_tokens"]
  | ReasoningEffort => ["reasoning_effort"]
  end.

(** The numeric options and their setter. *)
Inductive NumericOption := NTemperature | NTopP | NTopK | NMaxTokens.

Definition setNumeric (o : NumericOption) (v : option Q) (opts : LlmCompletionOpts)
    : LlmCompletionOpts :=
  match o with
  | NTemperature => set_temperature v opts
  | NTopP => set_top_p v opts
  | NTopK => set_top_k v opts
  | NMaxTokens => set_maxTokens v opts
  end.

(** Executing calls one after the other through the registry, from a given
    history of invocations: the result of each. *)
Fixpoint toolResults {RT : Runtime} (history : list (string * Json))
    (calls : list (string * Json)) : list Json :=
  match calls with
  | [] => []
  | (name, args) :: rest =>
      toolResult history name args :: toolResults (history ++ [(name, args)]) rest
  end.

(** The shape of the events of a turn that ends without a tool call:
    one final content event, nothing final or usage-bearing before it, and
    after it nothing, or the one usage event the backend supplied. *)
Definition terminalShape (events : list LlmChunk) (tracking : bool)
    (supplied : option LlmUsage) : Prop :=
  ∃ before text after,
    events = before ++ ContentChunk text true :: after
    ∧ Forall (fun e => isDoneContent e = false ∧ isUsage e = false) before
    ∧ (after = [] ∨ (tracking = true ∧ ∃ u, supplied = Some u ∧ after = [UsageChunk u])).

(* ===================================================================== *)
(** ** Vocabulary of the properties *)
(* ===================================================================== *)

(** The response of a call that returned. *)
Definition returned {S} (r : Result LlmResponse * S) : option LlmResponse :=
  match r.1 with Ok resp => Some resp | Throw _ => None end.

(** The states of the two streaming paths. *)
Abbreviation OpenAIState :=
  (Machine (gmap string OpenAI.ReqVal) OpenAI.OpenAIStreamingContext).
Abbreviation GoogleState :=
  (Machine Google.Request Google.GoogleStreamingContext).

Section Vocabulary.
Context {RT : Runtime}.

(** What the custom passthrough holds under a key. *)
Definition customValue (opts : LlmCompletionOpts) (k : string) : option OpenAI.ReqVal :=
  match customOpts opts with
  | Some c => OpenAI.RJson <$> (c !! k)
  | None => None
  end.

(** The records of a list of executed calls, given the history of
    invocations they started from: name and parameters as reported, result
    as the registry gave it at that point. *)
Definition infosOf (history : list (string * Json))
    (calls : list (string * Json)) : list LlmToolCallInfo :=
  zip_with (fun call result =>
              {| info_name := fst call; info_params := snd call;
                 info_result := result |})
           calls (toolResults history calls).

(** The calls an OpenAI tool call list announces, once parsed. *)
Definition parsesTo (call : OpenAI.ToolCallObj) (parsed : string * Json) : Prop :=
  OpenAI.call_name call = fst parsed
  ∧ JSON_parse (OpenAI.call_arguments call) = Some (snd parsed).

(** A hop of the OpenAI backend that asks for tools, with the calls it
    announces; a hop that ends the turn; a hop whose usage has no detail
    counters. *)
Definition openaiHopAnnounces (response : OpenAI.ChatCompletion)
    (parsed : list (string * Json)) : Prop :=
  ∃ choice others toolCalls,
    OpenAI.choices response = choice :: others
    ∧ OpenAI.choice_finish_reason choice = Some "tool_calls"
    ∧ OpenAI.message_tool_calls (OpenAI.choice_message choice) = Some toolCalls
    ∧ Forall2 parsesTo toolCalls parsed.

Definition openaiTerminal (response : OpenAI.ChatCompletion) (text : string) : Prop :=
  ∃ choice others,
    OpenAI.choices response = choice :: others
    ∧ OpenAI.choice_finish_reason choice ≠ Some "tool_calls"
    ∧ text = orEmpty (OpenAI.message_content (OpenAI.choice_message choice)).

Definition plainUsage (response : OpenAI.ChatCompletion) : Prop :=
  match OpenAI.completion_usage response with
  | Some u => prompt_tokens_details u = None ∧ completion_tokens_details u = None
  | None => True
  end.

(** What the usage block of the OpenAI [chat] does with the usage of a
    hop that has no detail counters: only the prompt counter moves. *)
Definition openaiHopUsage (hop : option LlmUsage) (rest : LlmUsage) : LlmUsage :=
  match hop with
  | Some ru =>
      {| prompt_tokens := Some (numAdd (prompt_tokens rest) (prompt_tokens ru));
         completion_tokens := completion_tokens rest;
         total_tokens := total_tokens rest;
         prompt_tokens_details := prompt_tokens_details rest;
         completion_tokens_details := completion_tokens_details rest |}
  | None => rest
  end.

Definition openaiTurnUsage (opts : LlmCompletionOpts)
    (hops : list OpenAI.ChatCompletion) (final : OpenAI.ChatCompletion)
    : option LlmUsage :=
  if usageOn opts
  then match OpenAI.completion_usage final with
       | Some u => Some (foldr openaiHopUsage (OpenAI.dropTotal u)
                           (map OpenAI.completion_usage hops))
       | None => None
       end
  else None.

(** The calls a list of Google function calls announces. *)
Definition googleCalls (calls : list Google.FunctionCall) : list (string * Json) :=
  map (fun fc => (Google.fc_name fc, Google.fc_args fc)) calls.

Definition googleHopAnnounces (response : Google.GenerateContentResponse)
    (calls : list (string * Json)) : Prop :=
  ∃ toolCalls candidate others,
    Google.functionCalls response = Some toolCalls
    ∧ toolCalls ≠ []
    ∧ calls = googleCalls toolCalls
    ∧ Google.candidates response = Some (candidate :: others).

Definition googleTerminal (response : Google.GenerateContentResponse) : Prop :=
  Google.functionCalls response = None ∨ Google.functionCalls response = Some [].

Definition googleHopUsage (hop : option Google.UsageMetadata) (rest : LlmUsage)
    : LlmUsage :=
  match hop with
  | Some m => Google.cumulateUsage m rest
  | None => rest
  end.

Definition googleTurnUsage (opts : LlmCompletionOpts)
    (hops : list Google.GenerateContentResponse)
    (final : Google.GenerateContentResponse) : option LlmUsage :=
  if usageOn opts
  then match Google.usageMetadata final with
       | Some m => Some (foldr googleHopUsage (Google.usageOf m)
                           (map Google.usageMetadata hops))
       | None => None
       end
  else None.

(** The usage a Google hop reports, from its two counters. *)
Definition googleCounts (p c : Z) : Google.UsageMetadata :=
  {| Google.promptTokenCount := Some (Fin p);
     Google.candidatesTokenCount := Some (Fin c) |}.

Definition sumZ (l : list Z) : Z := foldr Z.add 0%Z l.

(** The function part of the tool-call delta a chunk carries, if any:
    [chunk.choices[0]?.delta?.tool_calls?.[0]?.function]. *)
Definition toolCallDelta (chunk : OpenAI.ChatCompletionChunk) : option ToolCallFunction :=
  head (OpenAI.chunk_choices chunk) ?. OpenAI.delta ?. OpenAI.delta_tool_calls
    ?. head ?. tcm_function.

(** [chunk.choices[0]?.finish_reason || ''] *)
Definition finishReasonOf (chunk : OpenAI.ChatCompletionChunk) : string :=
  orEmpty (head (OpenAI.chunk_choices chunk) ?. OpenAI.finish_reason).

(** The finish reasons that end the content, and those that close the set
    of pending tool calls. *)
Definition endsContent (reason : string) : bool :=
  list_includes ["stop"; "length"; "content_filter"; "eos"] reason.

Definition closesToolCalls (reason : string) : bool :=
  list_includes ["tool_calls"; "function_call"; "stop"] reason.

(** A record of the accumulator parses to a call. *)
Definition recordParsesTo (toolCall : LlmToolCall)
    (parsed : string * Json) : Prop :=
  tc_function toolCall = fst parsed ∧ JSON_parse (tc_args toolCall) = Some (snd parsed).

(** The two thread messages the OpenAI stream path adds per executed call. *)
Definition openaiToolMessages (toolCalls : list LlmToolCall)
    (results : list Json) : list LLmCompletionPayload :=
  concat (zip_with (fun toolCall result =>
                      [OpenAI.toolCallMessage (tc_message toolCall);
                       OpenAI.toolResponseMessage (tc_id toolCall) (tc_function toolCall)
                         (JSON_stringify result)])
                   toolCalls results).

Definition idsDistinct (toolCalls : list LlmToolCall) : Prop :=
  NoDup (map tc_id toolCalls).

(** A state with further events yielded. *)
Definition withEvents {Req Local} (s : Machine Req Local) (events : list LlmChunk)
    : Machine Req Local :=
  {| local := local s; requests := requests s; invocations := invocations s;
     yielded := yielded s ++ events |}.

Definition quiet (e : LlmChunk) : Prop := isDoneContent e = false ∧ isUsage e = false.

Definition notContent (e : LlmChunk) : Prop := isContent e = false.

(** A chunk of a turn without tool calls: no tool-call delta, and either
    no finish signal yet (plain) or the finish signal (final). *)
Definition openaiPlainChunk (chunk : OpenAI.ChatCompletionChunk) : Prop :=
  toolCallDelta chunk = None ∧ endsContent (finishReasonOf chunk) = false.

Definition openaiFinalChunk (chunk : OpenAI.ChatCompletionChunk) : Prop :=
  toolCallDelta chunk = None ∧ endsContent (finishReasonOf chunk) = true.

Definition noFunctionCalls (chunk : Google.GenerateContentResponse) : Prop :=
  Google.functionCalls chunk = None ∨ Google.functionCalls chunk = Some [].

(** [!!chunk.candidates?.[0].finishReason], where it is defined. *)
Definition googleFinished (chunk : Google.GenerateContentResponse) : option bool :=
  match Google.candidates chunk with
  | None => Some false
  | Some [] => None
  | Some (candidate :: _) => Some (truthyOpt truthyStr (Google.finishReason candidate))
  end.

Definition googlePlainChunk (chunk : Google.GenerateContentResponse) : Prop :=
  noFunctionCalls chunk ∧ googleFinished chunk = Some false.

Definition googleFinalChunk (chunk : Google.GenerateContentResponse) : Prop :=
  noFunctionCalls chunk ∧ googleFinished chunk = Some true.

(** The events of a Google chunk that carries no function call. *)
Definition googleTextEvents (opts : LlmCompletionOpts)
    (chunk : Google.GenerateContentResponse) (done : bool) : list LlmChunk :=
  ContentChunk (Google.text chunk) done
  :: match Google.usageMetadata chunk with
     | Some m => if done && usageOn opts then [UsageChunk (Google.usageOf m)] else []
     | None => []
     end.

(** The function responses the Google stream path collects. *)
Definition googleToolResponses (calls : list (string * Json)) (results : list Json)
    : list Google.Part :=
  zip_with (fun call result => Google.FunctionResponsePart call.1 result) calls results.

End Vocabulary.

Arguments infosOf : simpl never.

(** Runs the monad operations of a goal as far as they are known. *)
Ltac run_monad :=
  unfold getLocal, modifyLocal, yield, issue, callTool;
  unfold bind, ret, throw, gets, modify; cbn.

(** Names the events a run added to those of [s], when nothing else of the
    state moved. *)
Ltac give_events s :=
  match goal with
  | |- ∃ events, (_, ?st) = _ ∧ _ =>
      let y := eval cbn in (yielded st) in
      match y with
      | yielded s => exists []
      | yielded s ++ [?a] => exists [a]
      | (yielded s ++ [?a]) ++ [?b] => exists [a; b]
      | ((yielded s ++ [?a]) ++ [?b]) ++ [?c] => exists [a; b; c]
      end
  end;
  split;
  [ unfold withEvents; destruct s; cbn; rewrite <- ?app_assoc, ?app_nil_r; reflexivity
  | ].

(* ===================================================================== *)
(** ** Model listing ([getModels] of [google.ts], [openrouter.ts]) *)
(* ===================================================================== *)

Module GoogleModels.

(** An entry of [json.models], as [getModels] reads it. *)
Record ApiModel := {
  api_name : option string;
  api_displayName : option string;
  api_description : option string;
}.

(** An entry of the list [getModels] returns. *)
Record Model := {
  model_id : string;
  model_name : option string;
  model_meta : ApiModel;
}.

Definition isDigit (c : Ascii.ascii) : bool :=
  let n := Ascii.nat_of_ascii c in (48 <=? n)%nat && (n <=? 57)%nat.

Fixpoint allDigits (s : string) : bool :=
  match s with
  | EmptyString => true
  | String c s' => isDigit c && allDigits s'
  end.

(** [s.match(/\d\d\d$/)]: the last three characters are digits. *)
Definition endsWithThreeDigits (s : string) : bool :=
  (3 <=? String.length s)%nat
  && allDigits (String.substring (String.length s - 3) 3 s).

(** [s.replace(pattern, '')] with a string pattern: the first occurrence
    goes. *)
Fixpoint removeFirst (pattern s : string) : string :=
  if String.prefix pattern s
  then String.substring (String.length pattern) (String.length s - String.length pattern) s
  else match s with
       | EmptyString => EmptyString
       | String c s' => String c (removeFirst pattern s')
       end.

(** The four [continue] tests of the filter loop. *)
Definition skipped (model : ApiModel) : bool :=
  truthyOpt endsWithThreeDigits (api_name model)
  || truthyOpt (fun n => includes n "tuning") (api_name model)
  || truthyOpt (fun d => includes d "deprecated") (api_description model)
  || truthyOpt (fun d => includes d "discontinued") (api_description model).

(** The filter loop; [model.name.replace] throws on an entry without name. *)
Fixpoint collect (models : list ApiModel) : Result (list Model) :=
  match models with
  | [] => Ok []
  | model :: rest =>
      if skipped model then collect rest
      else match api_name model with
           | None => Throw TypeError
           | Some n =>
               match collect rest with
               | Ok more =>
                   Ok ({| model_id := removeFirst "models/" n;
                          model_name := api_displayName model;
                          model_meta := model |} :: more)
               | Throw e => Throw e
               end
           end
  end.

(** [names.includes(x)] on an array of possibly undefined strings *)
Definition seen (names : list (option string)) (x : option string) : bool :=
  bool_decide (x ∈ names).

(** The loop under [// now remove duplicated based on name]. *)
Fixpoint dedupe (names : list (option string)) (models : list Model) : list Model :=
  match models with
  | [] => []
  | model :: rest =>
      if seen names (model_name model) then dedupe names rest
      else model :: dedupe (names ++ [model_name model]) rest
  end.

(** [getModels()], given what the models endpoint answered. *)
Definition getModels (apiKey : option string) (models : list ApiModel)
    : Result (list Model) :=
  if negb (truthyOpt truthyStr apiKey) then Ok []
  else match collect models with
       | Ok collected => Ok (dedupe [] (rev collected))
       | Throw e => Throw e
       end.

End GoogleModels.

Module OpenRouter.

Record Architecture := {
  modality : option string;
}.

(** A listed model: its id and [meta.architecture]. *)
Record Model := {
  model_id : string;
  architecture : option Architecture;
}.

(** [s.split('-')[0]] *)
Fixpoint beforeDash (s : string) : string :=
  match s with
  | EmptyString => EmptyString
  | String c s' =>
      if Ascii.eqb c (Ascii.ascii_of_nat 45) then EmptyString
      else String c (beforeDash s')
  end.

(** The predicate of [filterVisionModels]; a missing architecture or
    modality makes the chain undefined, which the filter reads as false. *)
Definition listsImages (model : Model) : bool :=
  match architecture model ?. modality with
  | Some m => includes (beforeDash m) "+image"
  | None => false
  end.

Definition filterVisionModels (models : list Model) : list string :=
  map model_id (List.filter listsImages models).

End OpenRouter.

(* ===================================================================== *)
(** ** Vocabulary of the further properties *)
(* ===================================================================== *)

(** A string without dash. *)
Fixpoint dashFree (s : string) : bool :=
  match s with
  | EmptyString => true
  | String c s' => negb (Ascii.eqb c (Ascii.ascii_of_nat 45)) && dashFree s'
  end.

(** The entry [getModels] of the Google adapter lists for an entry of the
    endpoint that passes the filter. *)
Definition googleListed (a : GoogleModels.ApiModel) (m : GoogleModels.Model) : Prop :=
  GoogleModels.skipped a = false
  ∧ ∃ n, GoogleModels.api_name a = Some n
         ∧ m = {| GoogleModels.model_id := GoogleModels.removeFirst "models/" n;
                  GoogleModels.model_name := GoogleModels.api_displayName a;
                  GoogleModels.model_meta := a |}.

(** The state after a run extends the state before it: the thread the run
    works on and the logs have only grown at their end. *)
Definition grows {Req Local T} (threadOf : Local → list T)
    (s s' : Machine Req Local) : Prop :=
  threadOf (local s) `prefix_of` threadOf (local s')
  ∧ requests s `prefix_of` requests s'
  ∧ invocations s `prefix_of` invocations s'
  ∧ yielded s `prefix_of` yielded s'.

(** A computation that only ever extends the state, whatever its outcome. *)
Definition growing {Req Local T A} (threadOf : Local → list T)
    (m : M (Machine Req Local) A) : Prop :=
  ∀ s, grows threadOf s (m s).2.

(** The messages a tool hop of the OpenAI [chat] leaves on the thread: the
    assistant message of the hop, then one tool response per call, under
    the id of the call. *)
Definition openaiToolResponses {RT : Runtime} (toolCalls : list OpenAI.ToolCallObj)
    (results : list Json) : list LLmCompletionPayload :=
  zip_with (fun call result =>
              OpenAI.toolResponseMessage (OpenAI.call_id call) (OpenAI.call_name call)
                (JSON_stringify result))
           toolCalls results.

Definition openaiHopMessages {RT : Runtime} (response : OpenAI.ChatCompletion)
    (results : list Json) : list LLmCompletionPayload :=
  match head (OpenAI.choices response) with
  | Some choice =>
      OpenAI.messageToPayload (OpenAI.choice_message choice)
      :: openaiToolResponses
           (default [] (OpenAI.message_tool_calls (OpenAI.choice_message choice)))
           results
  | None => []
  end.

(** The threads the requests of a turn carry: the thread the turn starts
    from, then, hop after hop, that thread with the messages of the hop. *)
Fixpoint openaiTurnThreads {RT : Runtime} (history : list (string * Json))
    (thread : list LLmCompletionPayload) (hops : list OpenAI.ChatCompletion)
    (parsed : list (list (string * Json))) : list (list LLmCompletionPayload) :=
  thread ::
  match hops, parsed with
  | response :: hops', calls :: parsed' =>
      openaiTurnThreads (history ++ calls)
        (thread ++ openaiHopMessages response (toolResults history calls))
        hops' parsed'
  | _, _ => []
  end.

(** The same for the Google [chat]: a hop leaves the parts that announce
    the calls, under the role [assistant], and the function responses, under
    the role [tool]. *)
Definition googleResponseParts (calls : list (string * Json)) (results : list Json)
    : list Google.Part :=
  zip_with (fun call result => Google.FunctionResponsePart call.1 result) calls results.

Definition googleHopContents (response : Google.GenerateContentResponse)
    (results : list Json) : list Google.Content :=
  match Google.candidates response, Google.functionCalls response with
  | Some (candidate :: _), Some toolCalls =>
      [ {| Google.content_role := "assistant";
           Google.parts := Google.candidate_parts candidate |};
        {| Google.content_role := "tool";
           Google.parts :=
             googleResponseParts
               (map (fun fc => (Google.fc_name fc, Google.fc_args fc)) toolCalls)
               results |} ]
  | _, _ => []
  end.

Fixpoint googleTurnThreads {RT : Runtime} (history : list (string * Json))
    (thread : list Google.Content) (hops : list Google.GenerateContentResponse)
    (calls : list (list (string * Json))) : list (list Google.Content) :=
  thread ::
  match hops, calls with
  | response :: hops', called :: calls' =>
      googleTurnThreads (history ++ called)
        (thread ++ googleHopContents response (toolResults history called))
        hops' calls'
  | _, _ => []
  end.

(** The request [chat] of the Google adapter sends for a thread. *)
Definition googleChatRequest {RT : Runtime} (modelName : string)
    (opts : LlmCompletionOpts) (thread : list Google.Content) : Google.Request :=
  {| Google.req_model := Google.getModel modelName None opts;
     Google.contents := thread;
     Google.generationConfig := Google.getGenerationConfig opts;
     Google.req_stream := false |}.

(** The request key a numeric option sets on the OpenAI adapter, the
    capability that gates it there, and the field it sets in the generation
    config of the Google adapter. *)
Definition numericKey (o : NumericOption) : string :=
  match o with
  | NTemperature => "temperature"
  | NTopP => "top_p"
  | NTopK => "top_logprobs"
  | NMaxTokens => "max_completion_tokens"
  end.

Definition numericSupported (model : string) (o : NumericOption) : bool :=
  match o with
  | NTemperature => OpenAI.modelSupportsTemperature model
  | NTopP => OpenAI.modelSupportsTopP model
  | NTopK => OpenAI.modelSupportsTopK model
  | NMaxTokens => OpenAI.modelSupportsMaxTokens model
  end.

Definition googleField (o : NumericOption) (config : Google.GenerationConfig)
    : option Q :=
  match o with
  | NTemperature => Google.gc_temperature config
  | NTopP => Google.topP config
  | NTopK => Google.topK config
  | NMaxTokens => Google.maxOutputTokens config
  end.

(** The first tool-call delta of a chunk:
    [chunk.choices[0]?.delta?.tool_calls?.[0]]. *)
Definition firstToolCall (chunk : OpenAI.ChatCompletionChunk) : option ToolCallMessage :=
  head (OpenAI.chunk_choices chunk) ?. OpenAI.delta ?. OpenAI.delta_tool_calls ?. head.

(** A fragment: a tool-call delta that carries a function part but no id,
    with the piece of the arguments it brings. *)
Definition isFragment (tool_call : ToolCallMessage) (piece : option string) : Prop :=
  truthyOpt truthyStr (tcm_id tool_call) = false
  ∧ ∃ fn, tcm_function tool_call = Some fn ∧ fn_arguments fn = piece.

(** A chunk that brings one tool-call delta and nothing else: no finish
    reason that ends the content or closes the tool calls, no text, no
    reasoning text, no usage. *)
Definition toolDeltaChunk (chunk : OpenAI.ChatCompletionChunk)
    (tool_call : ToolCallMessage) : Prop :=
  ∃ choice others d,
    OpenAI.chunk_choices chunk = choice :: others
    ∧ OpenAI.delta choice = Some d
    ∧ OpenAI.delta_tool_calls d = Some [tool_call]
    ∧ truthyOpt truthyStr (OpenAI.delta_content d) = false
    ∧ truthyOpt truthyStr (OpenAI.delta_reasoning_content d) = false
    ∧ closesToolCalls (finishReasonOf chunk) = false
    ∧ endsContent (finishReasonOf chunk) = false
    ∧ OpenAI.chunk_usage chunk = None.

Definition fragmentChunk (chunk : OpenAI.ChatCompletionChunk)
    (piece : option string) : Prop :=
  ∃ tool_call, toolDeltaChunk chunk tool_call ∧ isFragment tool_call piece.

(** The record of a tool call under accumulation: the arguments received
    so far, and the announcement kept for the thread with the arguments it
    shows. *)
Definition pendingCall (id : string) (fnName : option string) (args : string)
    (shown : option string) : LlmToolCall :=
  {| tc_id := id;
     tc_message := [ {| tcm_id := Some id; tcm_index := None;
                        tcm_function := Some {| fn_name := fnName;
                                                fn_arguments := shown |} |} ];
     tc_function := orEmpty fnName;
     tc_args := args |}.

(** The events of one executed tool call on each streaming path. *)
Definition googleCallEvents {RT : Runtime} (call : string * Json) (result : Json)
    : list LlmChunk :=
  [ ToolStatusChunk call.1 (getToolPreparationDescription call.1);
    ToolStatusChunk call.1 (getToolRunningDescription call.1 call.2);
    ToolDoneChunk call.1 call.2 result ].

Definition openaiCallEvents {RT : Runtime} (call : string * Json) (result : Json)
    : list LlmChunk :=
  [ ToolStatusChunk call.1 (getToolRunningDescription call.1 call.2);
    ToolDoneChunk call.1 call.2 result ].

(** The usage event a chunk yields at the end of its translation. *)
Definition openaiUsageEvents (context : OpenAI.OpenAIStreamingContext)
    (chunk : OpenAI.ChatCompletionChunk) : list LlmChunk :=
  match OpenAI.chunk_usage chunk with
  | Some u => if usageOn (OpenAI.ctx_opts context) && OpenAI.ctx_done context
              then [UsageChunk u] else []
  | None => []
  end.

(** The declared parameters of a tool: [tool.function.parameters?.properties
    ?? {}] and [tool.function.parameters?.required ?? []]. *)
Definition toolProperties (tool : Tool) : list (string * ParamSchema) :=
  match tool_parameters tool with Some p => properties p | None => [] end.

Definition toolRequired (tool : Tool) : list string :=
  match tool_parameters tool with Some p => required p | None => [] end.

(** A schema entry of a function declaration follows the schema of the
    parameter it declares: the same description; for a scalar parameter
    (not an array, no items) the type of the parameter and no items; for an
    array or a parameter with items no type, and items with the properties
    of the parameter's items and a type that is never empty: the one the
    parameter's items name, [string] when they name none. *)
Definition entryFollows (paramSchema : ParamSchema) (e : Google.DeclEntry) : Prop :=
  Google.entry_description e = param_description paramSchema
  ∧ match Google.entry_items e with
    | Some items =>
        (param_type paramSchema = Some "array" ∨ is_Some (param_items paramSchema))
        ∧ Google.entry_type e = None
        ∧ Google.decl_items_properties items
          = param_items paramSchema ?. items_properties
        ∧ Google.decl_items_type items ≠ ""
        ∧ (∀ t, param_items paramSchema ?. items_type = Some t → t ≠ "" →
                Google.decl_items_type items = t)
        ∧ (param_items paramSchema ?. items_type = None
           ∨ param_items paramSchema ?. items_type = Some "" →
           Google.decl_items_type items = "string")
    | None =>
        param_type paramSchema ≠ Some "array"
        ∧ param_items paramSchema = None
        ∧ Google.entry_type e = param_type paramSchema
    end.

(** The function declaration follows the tool it declares: name and
    description; parameters exactly when the tool declares a property, and
    then one entry per property, in order, under the name of the property
    and following its schema, with the required list of the tool. *)
Definition declares (tool : Tool) (decl : Google.FunctionDeclaration) : Prop :=
  Google.decl_name decl = tool_name tool
  ∧ Google.decl_description decl = tool_description tool
  ∧ match Google.decl_parameters decl with
    | Some p =>
        toolProperties tool ≠ []
        ∧ Forall2 (fun property entry =>
                     entry.1 = property.1 ∧ entryFollows property.2 entry.2)
            (toolProperties tool) (Google.decl_properties p)
        ∧ Google.decl_required p = toolRequired tool
    | None => toolProperties tool = []
    end.

(** The streaming context [stream] of the OpenAI adapter creates; the
    request [doStream] sends for it is [OpenAI.streamRequest] of it. *)
Definition openaiStreamContext (model : string) (thread : list LLmCompletionPayload)
    (opts : LlmCompletionOpts) : OpenAI.OpenAIStreamingContext :=
  {| OpenAI.ctx_model := model; OpenAI.ctx_thread := thread; OpenAI.ctx_opts := opts;
     OpenAI.ctx_toolCalls := []; OpenAI.ctx_done := false |}.

(** The request of the Google adapter: the model [getModel] builds, the
    contents, the generation config. [chat] sends it not streamed and with
    no instructions, [doStream] streamed and with the model [stream]
    built. *)
Definition googleRequest {RT : Runtime} (modelName : string)
    (instructions : option string) (content : list Google.Content)
    (opts : LlmCompletionOpts) (streamed : bool) : Google.Request :=
  {| Google.req_model := Google.getModel modelName instructions opts;
     Google.contents := content;
     Google.generationConfig := Google.getGenerationConfig opts;
     Google.req_stream := streamed |}.

(** The chunks that stream one tool call, one call per delta: the chunk
    that opens the call and fragments without id; with the record they
    leave in the accumulator. *)
Definition streamsCall (chunks : list OpenAI.ChatCompletionChunk)
    (record : LlmToolCall) : Prop :=
  ∃ opening fragments pieces id index fnName a0,
    chunks = opening :: fragments
    ∧ toolDeltaChunk opening
        {| tcm_id := Some id; tcm_index := index;
           tcm_function := Some {| fn_name := fnName; fn_arguments := a0 |} |}
    ∧ truthyStr id = true
    ∧ Forall2 fragmentChunk fragments pieces
    ∧ record = pendingCall id fnName (foldl appendJs (orEmpty a0) pieces)
                 (match pieces with
                  | [] => a0
                  | _ :: _ => Some (foldl appendJs (orEmpty a0) pieces)
                  end).

(** The preparation status a call yields when it is opened. *)
Definition preparationEvent {RT : Runtime} (record : LlmToolCall) : LlmChunk :=
  ToolStatusChunk (tc_function record)
    (getToolPreparationDescription (tc_function record)).

(** The sampling keys of an OpenAI request. *)
Definition samplingKeys : list string :=
  ["temperature"; "top_p"; "logprobs"; "top_logprobs"].

(** The requests issued from position [n] of the log on all satisfy [P],
    and a computation that keeps it so, whatever its outcome. *)
Definition requestsSatisfy {Req Local} (n : nat) (P : Req → Prop)
    (s : Machine Req Local) : Prop :=
  Forall P (drop n (requests s)).

Definition sending {Req Local A} (n : nat) (P : Req → Prop)
    (m : M (Machine Req Local) A) : Prop :=
  ∀ s, requestsSatisfy n P s → requestsSatisfy n P (m s).2.

(** An OpenRouter model whose modality reads [input->output]. *)
Definition modalityModel (id input output : string) : OpenRouter.Model :=
  {| OpenRouter.model_id := id;
     OpenRouter.architecture :=
       Some {| OpenRouter.modality := Some (input ++ "->" ++ output)%string |} |}.

(* ===================================================================== *)
(** ** A small runtime to run the adapters on *)
(* ===================================================================== *)

Module Toy.

Definition weather : Tool :=
  {| tool_name := "get_weather"; tool_description := "weather of a city";
     tool_parameters :=
       Some {| properties := [("city", {| param_type := Some "string";
                                          param_description := Some "the city";
                                          param_items := None |})];
               required := ["city"] |} |}.

Definition parse (s : string) : option Json :=
  if String.eqb s "{}" then Some (JObj [])
  else if String.eqb s "[]" then Some (JArr [])
  else if String.eqb s "null" then Some JNull
  else None.

Definition stringify (j : Json) : string :=
  match j with
  | JObj [] => "{}"
  | JArr [] => "[]"
  | JNull => "null"
  | _ => "{...}"
  end.

Definition payloadOf (m : Message) : LLmCompletionPayload :=
  {| role := msg_role m; content := Some (contentForModel m); images := [];
     tool_call_id := None; name := None; tool_calls := None |}.

Definition runtime : Runtime :=
  {| JSON_parse := parse;
     JSON_stringify := stringify;
     toolResult := fun history name args => JStr ("result of " ++ name)%string;
     getToolPreparationDescription := fun name => ("preparing " ++ name)%string;
     getToolRunningDescription := fun name args => ("running " ++ name)%string;
     superBuildPayload := fun model thread opts => map payloadOf thread;
     selectModel := fun model thread opts => model;
     availableTools := [weather] |}.

Definition thread : list Message :=
  [ {| msg_role := system; msg_content := "be terse";
       contentForModel := "be terse"; msg_attachment := None |};
    {| msg_role := user; msg_content := "weather in Lyon?";
       contentForModel := "weather in Lyon?"; msg_attachment := None |} ].

Definition usageOfCounts (p c : Z) : LlmUsage :=
  {| prompt_tokens := Some (Fin p); completion_tokens := Some (Fin c);
     total_tokens := None; prompt_tokens_details := None;
     completion_tokens_details := None |}.

Definition tracking : LlmCompletionOpts :=
  {| tools := None; top_k := None; top_p := None; temperature := None;
     maxTokens := None; reasoningEffort := None; usage := Some true;
     customOpts := None |}.

(** An OpenAI turn of two hops: a call of [get_weather], then the answer. *)
Definition weatherCall (args : string) : OpenAI.ToolCallObj :=
  {| OpenAI.call_id := "call_1"; OpenAI.call_name := "get_weather";
     OpenAI.call_arguments := args |}.

Definition toolChoice (args : string) : OpenAI.ChatChoice :=
  {| OpenAI.choice_finish_reason := Some "tool_calls";
     OpenAI.choice_message :=
       {| OpenAI.message_content := None;
          OpenAI.message_tool_calls := Some [weatherCall args] |} |}.

Definition openaiToolHop (args : string) (u : option LlmUsage) : OpenAI.ChatCompletion :=
  {| OpenAI.choices := [toolChoice args]; OpenAI.completion_usage := u |}.

Definition openaiAnswer (text : string) (u : option LlmUsage) : OpenAI.ChatCompletion :=
  {| OpenAI.choices :=
       [ {| OpenAI.choice_finish_reason := Some "stop";
            OpenAI.choice_message :=
              {| OpenAI.message_content := Some text;
                 OpenAI.message_tool_calls := None |} |} ];
     OpenAI.completion_usage := u |}.

Definition openaiStart (thread : list LLmCompletionPayload)
    : Machine (gmap string OpenAI.ReqVal) (list LLmCompletionPayload) :=
  {| local := thread; requests := []; invocations := []; yielded := [] |}.

(** A streamed OpenAI turn: two content chunks and the finish chunk. *)
Definition contentChunk (text : string) (reason : option string)
    (u : option LlmUsage) : OpenAI.ChatCompletionChunk :=
  {| OpenAI.chunk_choices :=
       [ {| OpenAI.delta := Some {| OpenAI.delta_tool_calls := None;
                                    OpenAI.delta_content := Some text;
                                    OpenAI.delta_reasoning_content := None |};
            OpenAI.finish_reason := reason |} ];
     OpenAI.chunk_usage := u |}.

Definition streamStart (toolCalls : list LlmToolCall)
    : Machine (gmap string OpenAI.ReqVal) OpenAI.OpenAIStreamingContext :=
  {| local := {| OpenAI.ctx_model := "gpt-4o"; OpenAI.ctx_thread := [];
                 OpenAI.ctx_opts := tracking; OpenAI.ctx_toolCalls := toolCalls;
                 OpenAI.ctx_done := false |};
     requests := []; invocations := []; yielded := [] |}.

Definition weatherRecord (args : string) : LlmToolCall :=
  {| tc_id := "call_1"; tc_message := []; tc_function := "get_weather";
     tc_args := args |}.

(** The chunk that closes the set of pending tool calls. *)
Definition toolCallsDone : OpenAI.ChatCompletionChunk :=
  {| OpenAI.chunk_choices :=
       [ {| OpenAI.delta := None; OpenAI.finish_reason := Some "tool_calls" |} ];
     OpenAI.chunk_usage := None |}.

(** A Google turn: a hop that calls [get_weather] twice, then the answer. *)
Definition lyon : Google.FunctionCall :=
  {| Google.fc_name := "get_weather"; Google.fc_args := JObj [] |}.

Definition paris : Google.FunctionCall :=
  {| Google.fc_name := "get_weather"; Google.fc_args := JArr [] |}.

Definition googleToolHop (u : option Google.UsageMetadata)
    : Google.GenerateContentResponse :=
  {| Google.functionCalls := Some [lyon; paris];
     Google.candidates :=
       Some [ {| Google.candidate_parts :=
                   [Google.FunctionCallPart lyon; Google.FunctionCallPart paris];
                 Google.finishReason := None |} ];
     Google.text := "";
     Google.usageMetadata := u |}.

Definition googleAnswer (text : string) (reason : option string)
    (u : option Google.UsageMetadata) : Google.GenerateContentResponse :=
  {| Google.functionCalls := None;
     Google.candidates :=
       Some [ {| Google.candidate_parts := [Google.TextPart (Some text)];
                 Google.finishReason := reason |} ];
     Google.text := text;
     Google.usageMetadata := u |}.

Definition googleStart (content : list Google.Content)
    : Machine Google.Request (list Google.Content) :=
  {| local := content; requests := []; invocations := []; yielded := [] |}.

Definition googleStreamStart
    : Machine Google.Request Google.GoogleStreamingContext :=
  {| local := {| Google.ctx_model :=
                   Google.getModel (RT := runtime) "gemini-1.5-pro" None tracking;
                 Google.ctx_content := []; Google.ctx_opts := tracking;
                 Google.ctx_toolCalls := [] |};
     requests := []; invocations := []; yielded := [] |}.

(** A streaming context on a reasoning model, with a temperature asked. *)
Definition reasoningContext : OpenAI.OpenAIStreamingContext :=
  {| OpenAI.ctx_model := "o3-mini"; OpenAI.ctx_thread := [];
     OpenAI.ctx_opts := set_temperature (Some (7 # 10)) noOpts;
     OpenAI.ctx_toolCalls := []; OpenAI.ctx_done := false |}.

End Toy.

(** Sample data of the further properties. *)
Module Sample.

Definition apiModel (n displayName : string) (d : option string)
    : GoogleModels.ApiModel :=
  {| GoogleModels.api_name := Some n;
     GoogleModels.api_displayName := Some displayName;
     GoogleModels.api_description := d |}.

(** An answer of the models endpoint: a numbered snapshot, two entries
    with one display name, a deprecated entry. *)
Definition endpoint : list GoogleModels.ApiModel :=
  [ apiModel "models/gemini-1.5-pro-001" "Gemini 1.5 Pro" None;
    apiModel "models/gemini-1.5-pro" "Gemini 1.5 Pro" None;
    apiModel "models/gemini-1.5-pro-latest" "Gemini 1.5 Pro" None;
    apiModel "models/gemini-1.0-pro-vision" "Gemini 1.0 Pro Vision"
      (Some "this model is deprecated") ].

(** A streamed chunk that brings one tool-call delta. *)
Definition toolDelta (id fnName args : option string) : OpenAI.ChatCompletionChunk :=
  {| OpenAI.chunk_choices :=
       [ {| OpenAI.delta :=
              Some {| OpenAI.delta_tool_calls :=
                        Some [ {| tcm_id := id; tcm_index := Some 0%nat;
                                  tcm_function :=
                                    Some {| fn_name := fnName;
                                            fn_arguments := args |} |} ];
                      OpenAI.delta_content := None;
                      OpenAI.delta_reasoning_content := None |};
            OpenAI.finish_reason := None |} ];
     OpenAI.chunk_usage := None |}.

(** A tool-call entry of a delta, complete in one piece. *)
Definition callEntry (id fnName args : string) (index : nat) : ToolCallMessage :=
  {| tcm_id := Some id; tcm_index := Some index;
     tcm_function := Some {| fn_name := Some fnName; fn_arguments := Some args |} |}.

(** A streamed chunk whose delta reports two tool calls at once. *)
Definition twoCalls : OpenAI.ChatCompletionChunk :=
  {| OpenAI.chunk_choices :=
       [ {| OpenAI.delta :=
              Some {| OpenAI.delta_tool_calls :=
                        Some [ callEntry "call_1" "get_weather" "{}" 0;
                               callEntry "call_2" "get_time" "{}" 1 ];
                      OpenAI.delta_content := None;
                      OpenAI.delta_reasoning_content := None |};
            OpenAI.finish_reason := None |} ];
     OpenAI.chunk_usage := None |}.

(** The chunk that brings the usage after the finish signal: no choice. *)
Definition usageOnly (u : LlmUsage) : OpenAI.ChatCompletionChunk :=
  {| OpenAI.chunk_choices := []; OpenAI.chunk_usage := Some u |}.

(** A streaming state that has seen the finish signal. *)
Definition finished : Machine (gmap string OpenAI.ReqVal) OpenAI.OpenAIStreamingContext :=
  {| local := {| OpenAI.ctx_model := "gpt-4o"; OpenAI.ctx_thread := [];
                 OpenAI.ctx_opts := Toy.tracking; OpenAI.ctx_toolCalls := [];
                 OpenAI.ctx_done := true |};
     requests := []; invocations := []; yielded := [ContentChunk "" true] |}.

Definition nameless : GoogleModels.ApiModel :=
  {| GoogleModels.api_name := None;
     GoogleModels.api_displayName := Some "Nameless";
     GoogleModels.api_description := None |}.

End Sample.

(* ===================================================================== *)
(** ** Request construction: tools, system role, option gating *)
(* ===================================================================== *)

Section RequestConstruction.
Context {RT : Runtime}.

Lemma length_functionDeclarations :
  length (map Google.functionDeclaration availableTools) = length availableTools.
Proof. apply length_map. Qed.





Lemma role_after_remap (p : LLmCompletionPayload) :
  Google.content_role
    (Google.messageToContent
       (if LlmRole_eqb (role p) system then set_role user p else p)) ≠ "system".
Proof.
  destruct p as [r c i t n tc]; destruct r; cbn; discriminate.
Qed.

Lemma google_history_no_system thread model opts :
  "system" ∉ map Google.content_role (Google.threadToHistory thread model opts).
Proof.
  unfold Google.threadToHistory.
  generalize (superBuildPayload model
    (drop (if Google.supportsInstructions model then 1 else 0) thread) opts).
  intros payload. rewrite !map_map.
  induction payload as [|p payload IH]; cbn [map].
  - apply not_elem_of_nil.
  - apply not_elem_of_cons. split; [|exact IH].
    intros E. symmetry in E. revert E. apply role_after_remap.
Qed.

Lemma roleName_system r : roleName r = "system" → r = system.
Proof. destruct r; cbn; intros E; try discriminate; reflexivity. Qed.

Lemma openai_payload_no_system self thread model opts :
  OpenAI.modelAcceptsSystemRole model = false →
  "system" ∉ map (fun p => roleName (role p)) (OpenAI.buildPayload self model thread opts).
Proof.
  intros Hm. unfold OpenAI.buildPayload. rewrite Hm. cbn [negb].
  intros Hin. apply list_elem_of_In, in_map_iff in Hin.
  destruct Hin as (p & Hp & Hin).
  apply filter_In in Hin. destruct Hin as [_ Hf].
  apply roleName_system in Hp. rewrite Hp in Hf. discriminate.
Qed.

(** C5. For a model that lacks system-role support, no unit of the
    payload an adapter builds has the system role: OpenAI filters the
    system units out, Google relabels them as user units. *)
Theorem no_system_unit_without_system_support (a : Adapter) (model : string)
    (thread : list Message) (opts : LlmCompletionOpts) :
  acceptsSystemRole a model = false →
  "system" ∉ payloadRoles a model thread opts.
Proof.
  destruct a as [|self]; cbn [acceptsSystemRole payloadRoles]; intros Hm.
  - apply google_history_no_system.
  - apply openai_payload_no_system, Hm.
Qed.

(** Without instruction support the Google model object carries no system
    instruction either. *)
Lemma google_no_systemInstruction model instructions opts :
  Google.supportsInstructions model = false →
  Google.systemInstruction (Google.getModel model instructions opts) = None.
Proof. intros Hm. unfold Google.getModel. cbn. rewrite Hm. reflexivity. Qed.

End RequestConstruction.


Lemma no_system_unit_without_system_support_witness :
  acceptsSystemRole (OpenAIAdapter OpenAI.OpenAIEngine) "o1-mini" = false
  ∧ "system" ∉ payloadRoles (RT := Toy.runtime)
                 (OpenAIAdapter OpenAI.OpenAIEngine) "o1-mini" Toy.thread noOpts.
Proof.
  split; [reflexivity|].
  apply (no_system_unit_without_system_support (RT := Toy.runtime)
           (OpenAIAdapter OpenAI.OpenAIEngine) "o1-mini" Toy.thread noOpts).
  reflexivity.
Defined.

(* ===================================================================== *)
(** ** Option gating *)
(* ===================================================================== *)

Section OptionGating.
Context {RT : Runtime}.

Lemma truthyNum_zero (q : Q) : (q == 0)%Q → truthyNum q = false.
Proof.
  unfold Qeq, truthyNum. cbn. intros E.
  replace (Qnum q) with 0%Z by lia. reflexivity.
Qed.

Lemma lookup_spread (base ext : gmap string OpenAI.ReqVal) (k : string) :
  OpenAI.spread base ext !! k
  = match ext !! k with Some v => Some v | None => base !! k end.
Proof.
  unfold OpenAI.spread. rewrite lookup_union.
  destruct (ext !! k), (base !! k); reflexivity.
Qed.

Lemma lookup_numField supported o fields (k : string) :
  supported = false → OpenAI.numField supported o fields !! k = None.
Proof. intros ->. unfold OpenAI.numField. destruct o; apply lookup_empty. Qed.

Lemma lookup_strField supported o fields (k : string) :
  supported = false → OpenAI.strField supported o fields !! k = None.
Proof. intros ->. unfold OpenAI.strField. destruct o; apply lookup_empty. Qed.

Lemma lookup_numField_other supported o
    (fields : Q → gmap string OpenAI.ReqVal) (k : string) :
  (∀ v, fields v !! k = None) → OpenAI.numField supported o fields !! k = None.
Proof.
  intros Hf. unfold OpenAI.numField.
  destruct o as [q|]; [destruct (supported && truthyNum q)|];
    first [apply Hf | apply lookup_empty].
Qed.

Lemma lookup_strField_other supported o
    (fields : string → gmap string OpenAI.ReqVal) (k : string) :
  (∀ v, fields v !! k = None) → OpenAI.strField supported o fields !! k = None.
Proof.
  intros Hf. unfold OpenAI.strField.
  destruct o as [q|]; [destruct (supported && truthyStr q)|];
    first [apply Hf | apply lookup_empty].
Qed.

Lemma lookup_custom opts (k : string) :
  (match customOpts opts with
   | Some c => OpenAI.RJson <$> c
   | None => ∅
   end : gmap string OpenAI.ReqVal) !! k = customValue opts k.
Proof.
  unfold customValue.
  destruct (customOpts opts); [apply lookup_fmap|apply lookup_empty].
Qed.

Lemma completionOpts_unsupported model opts o (k : string) :
  modelSupports model o = false → k ∈ requestKeys o →
  OpenAI.getCompletionOpts model opts !! k = customValue opts k.
Proof.
  intros Hs Hk. unfold OpenAI.getCompletionOpts. cbv zeta.
  rewrite !lookup_spread, lookup_custom.
  destruct (customValue opts k); [reflexivity|].
  destruct o; cbn in Hs, Hk; set_unfold;
    repeat match goal with H : _ ∨ _ |- _ => destruct H end; subst;
    try discriminate Hs;
    repeat first
      [ rewrite (lookup_numField _ _ _ _ Hs)
      | rewrite (lookup_strField _ _ _ _ Hs)
      | rewrite lookup_numField_other by (intros; by simplify_map_eq)
      | rewrite lookup_strField_other by (intros; by simplify_map_eq) ];
    reflexivity.
Qed.

Lemma lookup_functionCallingOptions self model opts (k : string) :
  k ≠ "tools" → k ≠ "tool_choice" →
  OpenAI.getFunctionCallingOptions self model opts !! k = None.
Proof.
  intros H1 H2. unfold OpenAI.getFunctionCallingOptions.
  repeat match goal with |- context [if ?b then _ else _] => destruct b end;
    by simplify_map_eq.
Qed.

Lemma requestKeys_fresh o (k : string) :
  k ∈ requestKeys o →
  k ≠ "tools" ∧ k ≠ "tool_choice" ∧ k ≠ "model" ∧ k ≠ "messages"
  ∧ k ≠ "stream" ∧ k ≠ "stream_options".
Proof.
  intros Hk. destruct o; cbn in Hk; set_unfold;
    repeat match goal with H : _ ∨ _ |- _ => destruct H end; subst;
    repeat split; first [ intros ?; discriminate | set_solver ].
Qed.

Lemma chatRequest_unsupported self model thread opts o (k : string) :
  modelSupports model o = false → k ∈ requestKeys o →
  OpenAI.chatRequest self model thread opts !! k = customValue opts k.
Proof.
  intros Hs Hk. destruct (requestKeys_fresh o k Hk) as (?&?&?&?&?&?).
  unfold OpenAI.chatRequest. rewrite !lookup_spread.
  rewrite lookup_functionCallingOptions by assumption.
  rewrite (completionOpts_unsupported model opts o k Hs Hk).
  destruct (customValue opts k); [reflexivity|]. by simplify_map_eq.
Qed.

Lemma streamRequest_unsupported self context o (k : string) :
  modelSupports (OpenAI.ctx_model context) o = false → k ∈ requestKeys o →
  OpenAI.streamRequest self context !! k = customValue (OpenAI.ctx_opts context) k.
Proof.
  intros Hs Hk. destruct (requestKeys_fresh o k Hk) as (?&?&?&?&?&?).
  unfold OpenAI.streamRequest. rewrite !lookup_spread.
  rewrite lookup_insert_ne, lookup_singleton_ne by congruence.
  rewrite lookup_functionCallingOptions by assumption.
  rewrite (completionOpts_unsupported _ _ o k Hs Hk).
  destruct (customValue _ k); [reflexivity|]. by simplify_map_eq.
Qed.

(** C9. On the OpenAI adapter, an option the model does not support never
    fails the call and is left out of the request: the streaming request
    is issued, and under each key the option would set, that request (and
    the request of [chat]) holds only what the custom passthrough put
    there, which is nothing when the passthrough does not name the key. *)
Theorem unsupported_option_is_omitted (self : OpenAI.Engine)
    (s : Machine (gmap string OpenAI.ReqVal) OpenAI.OpenAIStreamingContext)
    (o : GatedOption) (k : string) :
  modelSupports (OpenAI.ctx_model (local s)) o = false →
  k ∈ requestKeys o →
  ∃ request s',
    OpenAI.doStream self s = (Ok (length (requests s)), s')
    ∧ requests s' = requests s ++ [request]
    ∧ request !! k = customValue (OpenAI.ctx_opts (local s)) k
    ∧ (customOpts (OpenAI.ctx_opts (local s)) = None → request !! k = None)
    ∧ ∀ thread,
        OpenAI.chatRequest self (OpenAI.ctx_model (local s)) thread
          (OpenAI.ctx_opts (local s)) !! k
        = customValue (OpenAI.ctx_opts (local s)) k.
Proof.
  intros Hs Hk.
  exists (OpenAI.streamRequest self (OpenAI.set_toolCalls [] (local s))).
  eexists. split; [reflexivity|]. split; [reflexivity|].
  assert (E : OpenAI.streamRequest self (OpenAI.set_toolCalls [] (local s)) !! k
              = customValue (OpenAI.ctx_opts (local s)) k)
    by exact (streamRequest_unsupported self
                (OpenAI.set_toolCalls [] (local s)) o k Hs Hk).
  split; [exact E|]. split.
  - intros Hc. rewrite E. unfold customValue. rewrite Hc. reflexivity.
  - intros thread. apply (chatRequest_unsupported _ _ _ _ o); assumption.
Qed.

(** A numeric option that is zero is left out of the generation config of
    Google and of the completion options of OpenAI, whatever the model
    supports: both are what they are without the option. *)
Lemma zero_option_leaves_the_option_sets (o : NumericOption) (q : Q)
    (model : string) (opts : LlmCompletionOpts) :
  (q == 0)%Q →
  Google.getGenerationConfig (setNumeric o (Some q) opts)
  = Google.getGenerationConfig (setNumeric o None opts)
  ∧ OpenAI.getCompletionOpts model (setNumeric o (Some q) opts)
    = OpenAI.getCompletionOpts model (setNumeric o None opts).
Proof.
  intros Hq. apply truthyNum_zero in Hq.
  destruct o; cbn [setNumeric];
    unfold Google.getGenerationConfig, OpenAI.getCompletionOpts,
      Google.ifTruthy, OpenAI.numField;
    cbn [maxTokens temperature top_k top_p reasoningEffort customOpts
         set_temperature set_top_p set_top_k set_maxTokens];
    rewrite Hq, ?andb_false_r; split; reflexivity.
Qed.
End OptionGating.

(** A zero [top_k] is left out of the generation config, yet it still counts
    as present where Google decides on tools. *)
Lemma zero_top_k_still_opens_the_tool_gate :
  Google.getGenerationConfig (set_top_k (Some 0%Q) noOpts) = None
  ∧ toolsInjected (RT := Toy.runtime) GoogleAdapter "gemini-1.5-pro"
      (set_top_k (Some 0%Q) noOpts) = true
  ∧ toolsInjected (RT := Toy.runtime) GoogleAdapter "gemini-1.5-pro" noOpts = false.
Proof. vm_compute. repeat split. Qed.

Lemma unsupported_option_is_omitted_witness :
  ∃ request s',
    OpenAI.doStream (RT := Toy.runtime) OpenAI.OpenAIEngine
      {| local := Toy.reasoningContext; requests := []; invocations := [];
         yielded := [] |} = (Ok 0, s')
    ∧ requests s' = [request]
    ∧ request !! "temperature" = None.
Proof.
  destruct (unsupported_option_is_omitted (RT := Toy.runtime) OpenAI.OpenAIEngine
              {| local := Toy.reasoningContext; requests := []; invocations := [];
                 yielded := [] |} Temperature "temperature")
    as (request & s' & E1 & E2 & _ & E3 & _).
  - reflexivity.
  - cbn. set_solver.
  - exists request, s'. repeat split; [exact E1 | exact E2 | apply E3; reflexivity].
Defined.

Section ZeroOnTheRequest.
Context {RT : Runtime}.

Lemma usageOn_setNumeric o v opts : usageOn (setNumeric o v opts) = usageOn opts.
Proof. destruct o; reflexivity. Qed.

Lemma functionCallingOptions_setNumeric self model o v opts :
  o ≠ NTopK →
  OpenAI.getFunctionCallingOptions self model (setNumeric o v opts)
  = OpenAI.getFunctionCallingOptions self model opts.
Proof. intros Ho. destruct o; try reflexivity. congruence. Qed.

Lemma google_getModel_setNumeric modelName instructions o v opts :
  o ≠ NTopK →
  Google.getModel modelName instructions (setNumeric o v opts)
  = Google.getModel modelName instructions opts.
Proof. intros Ho. destruct o; try reflexivity. congruence. Qed.

End ZeroOnTheRequest.

(** C10, as the code has it. A numeric option that is zero is left out of
    the request under its own keys, and for three of the four options the
    request is the one built without the option. On the OpenAI adapter the
    request of [chat] and the streaming request hold under every key but
    the two tool keys what they hold without the option; on the Google
    adapter the generation config, the contents, the model name and the
    instructions of the request are those of the request without the
    option. For temperature, top_p and maxTokens the whole request is the
    same on both adapters. For top_k the tool declarations are the
    exception: they are decided by the presence of a top_k, zero or not. *)
Theorem zero_numeric_option_is_omitted_from_the_request :
  ∀ (RT : Runtime) (o : NumericOption) (q : Q),
    (q == 0)%Q →
    (∀ self model thread opts (k : string),
        k ≠ "tools" → k ≠ "tool_choice" →
        OpenAI.chatRequest self model thread (setNumeric o (Some q) opts) !! k
        = OpenAI.chatRequest self model thread (setNumeric o None opts) !! k
        ∧ OpenAI.streamRequest self
            (openaiStreamContext model thread (setNumeric o (Some q) opts)) !! k
          = OpenAI.streamRequest self
              (openaiStreamContext model thread (setNumeric o None opts)) !! k)
    ∧ (∀ modelName instructions content opts streamed,
          Google.generationConfig
            (googleRequest modelName instructions content
               (setNumeric o (Some q) opts) streamed)
          = Google.generationConfig
              (googleRequest modelName instructions content
                 (setNumeric o None opts) streamed)
          ∧ Google.contents
              (googleRequest modelName instructions content
                 (setNumeric o (Some q) opts) streamed)
            = content
          ∧ Google.mp_model
              (Google.req_model
                 (googleRequest modelName instructions content
                    (setNumeric o (Some q) opts) streamed))
            = modelName
          ∧ Google.systemInstruction
              (Google.req_model
                 (googleRequest modelName instructions content
                    (setNumeric o (Some q) opts) streamed))
            = Google.systemInstruction
                (Google.req_model
                   (googleRequest modelName instructions content
                      (setNumeric o None opts) streamed)))
    ∧ (o ≠ NTopK →
       (∀ self model thread opts,
           OpenAI.chatRequest self model thread (setNumeric o (Some q) opts)
           = OpenAI.chatRequest self model thread (setNumeric o None opts)
           ∧ OpenAI.streamRequest self
               (openaiStreamContext model thread (setNumeric o (Some q) opts))
             = OpenAI.streamRequest self
                 (openaiStreamContext model thread (setNumeric o None opts)))
       ∧ (∀ modelName instructions content opts streamed,
             googleRequest modelName instructions content
               (setNumeric o (Some q) opts) streamed
             = googleRequest modelName instructions content
                 (setNumeric o None opts) streamed)).
Proof.
  intros RT o q Hq. split; [|split].
  - intros self model thread opts k H1 H2.
    destruct (zero_option_leaves_the_option_sets o q model opts Hq) as [_ Hc].
    unfold OpenAI.chatRequest, OpenAI.streamRequest, openaiStreamContext.
    cbn [OpenAI.ctx_model OpenAI.ctx_thread OpenAI.ctx_opts].
    rewrite !lookup_spread, !lookup_functionCallingOptions by assumption.
    rewrite Hc, !usageOn_setNumeric. split; reflexivity.
  - intros modelName instructions content opts streamed. unfold googleRequest.
    cbn [Google.generationConfig Google.contents Google.req_model Google.req_stream].
    destruct (zero_option_leaves_the_option_sets o q modelName opts Hq) as [Hg _].
    repeat split. exact Hg.
  - intros Ho. split.
    + intros self model thread opts.
      destruct (zero_option_leaves_the_option_sets o q model opts Hq) as [_ Hc].
      unfold OpenAI.chatRequest, OpenAI.streamRequest, openaiStreamContext.
      cbn [OpenAI.ctx_model OpenAI.ctx_thread OpenAI.ctx_opts].
      rewrite Hc, !usageOn_setNumeric,
        !(functionCallingOptions_setNumeric _ _ o _ _ Ho).
      split; reflexivity.
    + intros modelName instructions content opts streamed. unfold googleRequest.
      destruct (zero_option_leaves_the_option_sets o q modelName opts Hq) as [Hg _].
      rewrite Hg, !(google_getModel_setNumeric _ _ o _ _ Ho). reflexivity.
Qed.

(** C10 as the claim has it, on the outgoing request: a zero option would
    leave the request as it is without the option. A zero [top_k] does
    not: on a model that supports tools, with a tool registered, the
    request of the OpenAI [chat] then declares the tools, and the request
    without [top_k] does not. *)
Lemma zero_top_k_is_not_as_if_absent :
  ¬ (∀ (RT : Runtime) (o : NumericOption) (q : Q) self model thread opts,
        (q == 0)%Q →
        OpenAI.chatRequest self model thread (setNumeric o (Some q) opts)
        = OpenAI.chatRequest self model thread (setNumeric o None opts)).
Proof.
  intros H.
  specialize (H Toy.runtime NTopK 0%Q OpenAI.OpenAIEngine "gpt-4o" [] noOpts
                ltac:(reflexivity)).
  apply (f_equal (fun request : gmap string OpenAI.ReqVal => request !! "tools")) in H.
  vm_compute in H. discriminate H.
Qed.

(** The same on the Google adapter: with a zero [top_k] the model of the
    request carries the function declarations, without [top_k] it carries
    none; the generation config is the same, none. *)
Lemma zero_top_k_changes_the_google_request :
  let sent := googleRequest (RT := Toy.runtime) "gemini-1.5-pro" None []
                (setNumeric NTopK (Some 0%Q) noOpts) false in
  let plain := googleRequest (RT := Toy.runtime) "gemini-1.5-pro" None []
                 (setNumeric NTopK None noOpts) false in
  Google.generationConfig sent = None
  ∧ Google.generationConfig plain = None
  ∧ Google.mp_tools (Google.req_model sent)
    = Some [Google.functionDeclaration Toy.weather]
  ∧ Google.toolConfig (Google.req_model sent) = Some Google.AUTO
  ∧ Google.mp_tools (Google.req_model plain) = None
  ∧ Google.toolConfig (Google.req_model plain) = None.
Proof. vm_compute. repeat split. Qed.

Lemma zero_numeric_option_is_omitted_from_the_request_witness :
  (∀ k : string,
      k ≠ "tools" → k ≠ "tool_choice" →
      OpenAI.chatRequest (RT := Toy.runtime) OpenAI.OpenAIEngine "gpt-4o" []
        (setNumeric NTopK (Some 0%Q) noOpts) !! k
      = OpenAI.chatRequest (RT := Toy.runtime) OpenAI.OpenAIEngine "gpt-4o" []
          (setNumeric NTopK None noOpts) !! k)
  ∧ OpenAI.chatRequest (RT := Toy.runtime) OpenAI.OpenAIEngine "gpt-4o" []
      (setNumeric NTemperature (Some 0%Q) noOpts)
    = OpenAI.chatRequest (RT := Toy.runtime) OpenAI.OpenAIEngine "gpt-4o" []
        (setNumeric NTemperature None noOpts)
  ∧ googleRequest (RT := Toy.runtime) "gemini-1.5-pro" None []
      (setNumeric NTemperature (Some 0%Q) noOpts) false
    = googleRequest (RT := Toy.runtime) "gemini-1.5-pro" None []
        (setNumeric NTemperature None noOpts) false.
Proof.
  split; [|split].
  - intros k H1 H2.
    apply (proj1 (zero_numeric_option_is_omitted_from_the_request Toy.runtime
                    NTopK 0%Q ltac:(reflexivity))
             OpenAI.OpenAIEngine "gpt-4o" [] noOpts k H1 H2).
  - apply (proj1 (proj2 (proj2 (zero_numeric_option_is_omitted_from_the_request
                                  Toy.runtime NTemperature 0%Q ltac:(reflexivity)))
                    ltac:(discriminate))
             OpenAI.OpenAIEngine "gpt-4o" [] noOpts).
  - apply (proj2 (proj2 (proj2 (zero_numeric_option_is_omitted_from_the_request
                                  Toy.runtime NTemperature 0%Q ltac:(reflexivity)))
                    ltac:(discriminate))).
Defined.

(* ===================================================================== *)
(** ** The tool loop of [chat] *)
(* ===================================================================== *)

Section ChatLoop.
Context {RT : Runtime}.

Lemma toolResults_app history calls1 calls2 :
  toolResults history (calls1 ++ calls2)
  = toolResults history calls1 ++ toolResults (history ++ calls1) calls2.
Proof.
  revert history. induction calls1 as [|[n a] calls1 IH]; intros history; cbn.
  - rewrite app_nil_r. reflexivity.
  - rewrite IH, <- app_assoc. reflexivity.
Qed.

Lemma length_toolResults history calls :
  length (toolResults history calls) = length calls.
Proof.
  revert history. induction calls as [|[n a] calls IH]; intros history; cbn;
    [reflexivity|]. rewrite IH. reflexivity.
Qed.

Lemma infosOf_app history calls1 calls2 :
  infosOf history (calls1 ++ calls2)
  = infosOf history calls1 ++ infosOf (history ++ calls1) calls2.
Proof.
  unfold infosOf. rewrite toolResults_app.
  apply zip_with_app. rewrite length_toolResults. reflexivity.
Qed.

Lemma infosOf_cons history n a calls :
  infosOf history ((n, a) :: calls)
  = {| info_name := n; info_params := a; info_result := toolResult history n a |}
    :: infosOf (history ++ [(n, a)]) calls.
Proof. reflexivity. Qed.

Lemma openai_chatToolCalls_ok toolCalls parsed
    (s : Machine (gmap string OpenAI.ReqVal) (list LLmCompletionPayload)) :
  Forall2 parsesTo toolCalls parsed →
  ∃ s', OpenAI.chatToolCalls toolCalls s = (Ok (infosOf (invocations s) parsed), s')
        ∧ invocations s' = invocations s ++ parsed
        ∧ requests s' = requests s.
Proof.
  intros HF. revert s. induction HF as [|call [n a] toolCalls parsed [Hn Hp] HF IH];
    intros s.
  - eexists. split; [reflexivity|]. cbn. rewrite app_nil_r. split; reflexivity.
  - cbn in Hn, Hp. cbn [OpenAI.chatToolCalls].
    unfold OpenAI.chatToolCall, OpenAI.parseArgs. rewrite Hp. run_monad.
    match goal with |- context [OpenAI.chatToolCalls toolCalls ?s1] =>
      destruct (IH s1) as (s' & E & Hi & Hr); rewrite E end.
    cbn in Hi, Hr. eexists. split; [|split].
    + rewrite Hn, infosOf_cons. reflexivity.
    + rewrite Hi, <- app_assoc, Hn. reflexivity.
    + exact Hr.
Qed.

Lemma openai_cumulateUsage_plain {S} (ru cu : LlmUsage) (s : S) :
  prompt_tokens_details ru = None → completion_tokens_details ru = None →
  OpenAI.cumulateUsage ru cu s
  = (Ok {| prompt_tokens := Some (numAdd (prompt_tokens cu) (prompt_tokens ru));
           completion_tokens := completion_tokens cu;
           total_tokens := total_tokens cu;
           prompt_tokens_details := prompt_tokens_details cu;
           completion_tokens_details := completion_tokens_details cu |}, s).
Proof.
  intros E1 E2. unfold OpenAI.cumulateUsage, OpenAI.addDetail.
  rewrite E1, E2. reflexivity.
Qed.

Lemma openai_chat_turn self hops parsed final text rest model opts
    (s : Machine (gmap string OpenAI.ReqVal) (list LLmCompletionPayload)) :
  Forall2 openaiHopAnnounces hops parsed →
  Forall plainUsage hops →
  openaiTerminal final text →
  ∃ resp s',
    OpenAI.chat self (hops ++ final :: rest) model opts s = (Ok resp, s')
    ∧ resp_content resp = text
    ∧ resp_toolCalls resp = infosOf (invocations s) (concat parsed)
    ∧ resp_usage resp = openaiTurnUsage opts hops final
    ∧ invocations s' = invocations s ++ concat parsed.
Proof.
  intros HF. revert s.
  induction HF as [|hop calls hops parsed Hhop HF IH]; intros s Hplain Hfinal.
  - destruct Hfinal as (choice & others & Ec & Hr & ->).
    cbn [app OpenAI.chat]. run_monad. rewrite Ec. cbn.
    rewrite bool_decide_eq_false_2 by exact Hr.
    eexists _, _. split; [reflexivity|]. cbn.
    rewrite app_nil_r. unfold openaiTurnUsage.
    destruct (usageOn opts), (OpenAI.completion_usage final); repeat split.
  - destruct Hhop as (choice & others & toolCalls & Ec & Hr & Etc & Hp).
    apply Forall_cons in Hplain. destruct Hplain as [Hu Hplain].
    cbn [app OpenAI.chat]. run_monad. rewrite Ec. cbn.
    rewrite bool_decide_eq_true_2 by exact Hr. rewrite Etc.
    match goal with |- context [OpenAI.chatToolCalls toolCalls ?s1] =>
      destruct (openai_chatToolCalls_ok toolCalls calls s1 Hp)
        as (s2 & E & Hi & _); rewrite E end.
    destruct (IH s2 Hplain Hfinal) as (resp & s3 & E3 & Hc & Ht & Hus & Hi3).
    rewrite E3. cbn in Hi. unfold plainUsage in Hu.
    assert (Hfold : openaiTurnUsage opts (hop :: hops) final
                    = match openaiTurnUsage opts hops final with
                      | Some cu => Some (openaiHopUsage (OpenAI.completion_usage hop) cu)
                      | None => None
                      end).
    { unfold openaiTurnUsage. cbn [map foldr].
      destruct (usageOn opts), (OpenAI.completion_usage final); reflexivity. }
    rewrite Hfold, <- Hus.
    assert (Hon : ∀ cu, resp_usage resp = Some cu → usageOn opts = true).
    { intros cu Ecu. rewrite Hus in Ecu. unfold openaiTurnUsage in Ecu.
      destruct (usageOn opts); [reflexivity|discriminate]. }
    destruct (OpenAI.completion_usage hop) as [ru|],
      (resp_usage resp) as [cu|]; cbn;
      try rewrite (Hon _ eq_refl);
      try rewrite (openai_cumulateUsage_plain ru _ s3 (proj1 Hu) (proj2 Hu));
      (eexists _, _; split; [reflexivity|]; cbn;
       rewrite Hc, Ht, Hi3, Hi, infosOf_app, <- app_assoc; repeat split).
Qed.

Lemma google_chatToolCalls_ok toolCalls
    (s : Machine Google.Request (list Google.Content)) :
  ∃ results,
    Google.chatToolCalls toolCalls s
    = (Ok (results, infosOf (invocations s) (googleCalls toolCalls)),
       {| local := local s; requests := requests s;
          invocations := invocations s ++ googleCalls toolCalls;
          yielded := yielded s |}).
Proof.
  revert s. induction toolCalls as [|toolCall toolCalls IH]; intros s.
  - exists []. cbn. rewrite app_nil_r. destruct s; reflexivity.
  - cbn [Google.chatToolCalls]. run_monad.
    match goal with |- context [Google.chatToolCalls toolCalls ?s1] =>
      destruct (IH s1) as (results & E); rewrite E end.
    cbn. eexists. rewrite <- app_assoc. reflexivity.
Qed.

Local Arguments Google.chatToolCalls : simpl never.
Local Arguments googleCalls : simpl never.

Lemma google_chat_turn hops calls final rest modelName opts
    (s : Machine Google.Request (list Google.Content)) :
  local s ≠ [] →
  Forall2 googleHopAnnounces hops calls →
  googleTerminal final →
  ∃ resp s',
    Google.chat (hops ++ final :: rest) modelName opts s = (Ok resp, s')
    ∧ resp_content resp = Google.text final
    ∧ resp_toolCalls resp = infosOf (invocations s) (concat calls)
    ∧ resp_usage resp = googleTurnUsage opts hops final
    ∧ invocations s' = invocations s ++ concat calls.
Proof.
  intros Hne HF. revert s Hne.
  induction HF as [|hop hopCalls hops calls Hhop HF IH]; intros s Hne Hfinal.
  - cbn [app Google.chat]. run_monad.
    destruct (local s) as [|first thread] eqn:El; [congruence|].
    cbn. unfold googleTurnUsage.
    destruct Hfinal as [Ef | Ef]; rewrite Ef;
      (eexists _, _; split; [reflexivity|]; cbn; rewrite app_nil_r;
       destruct (usageOn opts), (Google.usageMetadata final); repeat split).
  - destruct Hhop as (toolCalls & candidate & others & Efc & Hnn & -> & Ecand).
    cbn [app Google.chat]. run_monad.
    destruct (local s) as [|first thread] eqn:El; [congruence|].
    cbn. rewrite Efc.
    destruct toolCalls as [|toolCall toolCalls]; [congruence|].
    match goal with |- context [Google.chatToolCalls ?l ?s1] =>
      destruct (google_chatToolCalls_ok l s1) as (results & E); rewrite E end.
    unfold Google.firstCandidateParts. rewrite Ecand. run_monad.
    match goal with |- context [Google.chat _ modelName opts ?s2] =>
      destruct (IH s2) as (resp & s3 & E3 & Hc & Ht & Hus & Hi3);
        [cbn; rewrite El; discriminate | exact Hfinal | rewrite E3] end.
    cbn in Ht, Hi3 |- *.
    eexists _, _. split; [reflexivity|]. cbn.
    rewrite Hc, Ht, Hi3, infosOf_app, <- app_assoc, Hus. repeat split.
    unfold googleTurnUsage. cbn [map foldr].
    destruct (usageOn opts), (Google.usageMetadata final),
      (Google.usageMetadata hop); reflexivity.
Qed.

Lemma infosOf_calls history calls :
  map (fun info => (info_name info, info_params info)) (infosOf history calls) = calls.
Proof.
  revert history. induction calls as [|[n a] calls IH]; intros history.
  - reflexivity.
  - rewrite infosOf_cons. cbn [map info_name info_params]. rewrite IH. reflexivity.
Qed.

(** The converse direction: whenever [chat] returns, the script it consumed
    is a run of tool hops followed by a final answer. *)
Lemma openai_chatToolCalls_inv toolCalls infos
    (s s' : Machine (gmap string OpenAI.ReqVal) (list LLmCompletionPayload)) :
  OpenAI.chatToolCalls toolCalls s = (Ok infos, s') →
  ∃ parsed,
    Forall2 parsesTo toolCalls parsed
    ∧ infos = infosOf (invocations s) parsed
    ∧ invocations s' = invocations s ++ parsed.
Proof.
  revert s infos s'. induction toolCalls as [|toolCall toolCalls IH]; intros s infos s'.
  - cbn. intros [= <- <-]. exists []. rewrite app_nil_r. repeat split. constructor.
  - cbn [OpenAI.chatToolCalls]. unfold bind at 1.
    unfold OpenAI.chatToolCall at 1. unfold OpenAI.parseArgs.
    destruct (JSON_parse (OpenAI.call_arguments toolCall)) as [args|] eqn:Hp;
      run_monad; [|discriminate].
    match goal with |- context [OpenAI.chatToolCalls toolCalls ?s1] =>
      destruct (OpenAI.chatToolCalls toolCalls s1) as [[more|e] s2] eqn:E end;
      [|discriminate].
    intros [= <- <-]. destruct (IH _ _ _ E) as (parsed & HF & -> & Hi).
    exists ((OpenAI.call_name toolCall, args) :: parsed). cbn in Hi. split; [|split].
    + constructor; [split; [reflexivity|exact Hp]|exact HF].
    + rewrite infosOf_cons. reflexivity.
    + rewrite Hi, <- app_assoc. reflexivity.
Qed.

Lemma bind_keeps_state {S A B} (m : M S A) (k : A → M S B) :
  (∀ s, (m s).2 = s) → (∀ a s, (k a s).2 = s) → ∀ s, (bind m k s).2 = s.
Proof.
  intros Hm Hk s. unfold bind. pose proof (Hm s) as E.
  destruct (m s) as [[a|e] s1]; cbn in E; subst s1; [apply Hk|reflexivity].
Qed.

Lemma addDetail_keeps_state {S D} v (mine : option D) get set (s : S) :
  (OpenAI.addDetail v mine get set s).2 = s.
Proof.
  unfold OpenAI.addDetail. destruct (truthyOpt truthyNumber v), mine; reflexivity.
Qed.

Lemma openai_cumulateUsage_state {S} (ru cu : LlmUsage) (s : S) :
  (OpenAI.cumulateUsage ru cu s).2 = s.
Proof.
  unfold OpenAI.cumulateUsage. revert s.
  repeat (apply bind_keeps_state; [intros s; apply addDetail_keeps_state|intros ?]).
  reflexivity.
Qed.

Lemma openai_chat_returns self script model opts resp
    (s s' : Machine (gmap string OpenAI.ReqVal) (list LLmCompletionPayload)) :
  OpenAI.chat self script model opts s = (Ok resp, s') →
  ∃ hops parsed final text rest,
    script = hops ++ final :: rest
    ∧ Forall2 openaiHopAnnounces hops parsed
    ∧ openaiTerminal final text
    ∧ resp_content resp = text
    ∧ resp_toolCalls resp = infosOf (invocations s) (concat parsed)
    ∧ invocations s' = invocations s ++ concat parsed.
Proof.
  revert s resp s'. induction script as [|response script IH]; intros s resp s'.
  - cbn. run_monad. discriminate.
  - cbn [OpenAI.chat]. run_monad.
    destruct (OpenAI.choices response) as [|choice others] eqn:Ec; cbn; [discriminate|].
    destruct (bool_decide (OpenAI.choice_finish_reason choice = Some "tool_calls")) eqn:Hr.
    + apply bool_decide_eq_true in Hr.
      destruct (OpenAI.message_tool_calls (OpenAI.choice_message choice))
        as [toolCalls|] eqn:Etc; [|discriminate].
      match goal with |- context [OpenAI.chatToolCalls toolCalls ?s1] =>
        destruct (OpenAI.chatToolCalls toolCalls s1) as [[infos|e] s2] eqn:E1 end;
        [|discriminate].
      destruct (OpenAI.chat self script model opts s2) as [[completion|e] s3] eqn:E2;
        [|discriminate].
      destruct (openai_chatToolCalls_inv _ _ _ _ E1) as (calls & HF & -> & Hi).
      destruct (IH _ _ _ E2)
        as (hops & parsed & final & text & rest & -> & HFh & Hfin & Hc & Ht & Hi3).
      cbn in Hi. intros Eres.
      assert (Hres : resp_content resp = resp_content completion
                     ∧ resp_toolCalls resp
                       = infosOf (invocations s) calls ++ resp_toolCalls completion
                     ∧ s' = s3).
      { destruct (OpenAI.completion_usage response) as [ru|],
          (resp_usage completion) as [cu|]; try destruct (usageOn opts);
          cbn in Eres; try (injection Eres as <- <-; repeat split).
        pose proof (openai_cumulateUsage_state ru cu s3) as Hst.
        destruct (OpenAI.cumulateUsage ru cu s3) as [[u|e] s4]; cbn in Hst, Eres;
          [|discriminate]. injection Eres as <- <-. repeat split. exact Hst. }
      destruct Hres as (Hrc & Hrt & ->).
      exists (response :: hops), (calls :: parsed), final, text, rest.
      split; [reflexivity|]. split.
      { constructor; [|exact HFh]. exists choice, others, toolCalls. repeat split; assumption. }
      split; [exact Hfin|]. split; [congruence|]. cbn [concat]. split.
      * rewrite Hrt, Ht, Hi, infosOf_app. reflexivity.
      * rewrite Hi3, Hi, <- app_assoc. reflexivity.
    + apply bool_decide_eq_false in Hr. intros [= <- <-].
      exists [], [], response,
        (orEmpty (OpenAI.message_content (OpenAI.choice_message choice))), script.
      cbn. rewrite app_nil_r.
      repeat split; [constructor|]. exists choice, others. repeat split; assumption.
Qed.

Lemma google_chat_returns script modelName opts resp
    (s s' : Machine Google.Request (list Google.Content)) :
  Google.chat script modelName opts s = (Ok resp, s') →
  ∃ hops calls final rest,
    script = hops ++ final :: rest
    ∧ Forall2 googleHopAnnounces hops calls
    ∧ googleTerminal final
    ∧ resp_content resp = Google.text final
    ∧ resp_toolCalls resp = infosOf (invocations s) (concat calls)
    ∧ invocations s' = invocations s ++ concat calls.
Proof.
  revert s resp s'. induction script as [|response script IH]; intros s resp s'.
  - cbn. run_monad. destruct (local s); discriminate.
  - cbn [Google.chat]. run_monad.
    destruct (local s) as [|first thread] eqn:El; [discriminate|]. cbn.
    destruct (Google.functionCalls response) as [[|toolCall toolCalls]|] eqn:Efc.
    + intros [= <- <-]. exists [], [], response, script. cbn. rewrite app_nil_r.
      repeat split; [constructor|]. right. exact Efc.
    + match goal with |- context [Google.chatToolCalls ?l ?s1] =>
        destruct (google_chatToolCalls_ok l s1) as (results & E); rewrite E end.
      unfold Google.firstCandidateParts.
      destruct (Google.candidates response) as [[|candidate others]|] eqn:Ecand;
        run_monad; try discriminate.
      match goal with |- context [Google.chat script modelName opts ?s2] =>
        destruct (Google.chat script modelName opts s2) as [[completion|e] s3] eqn:E2 end;
        [|discriminate].
      destruct (IH _ _ _ E2)
        as (hops & calls & final & rest & -> & HFh & Hfin & Hc & Ht & Hi3).
      cbn in Ht, Hi3. intros [= <- <-].
      exists (response :: hops), (googleCalls (toolCall :: toolCalls) :: calls), final, rest.
      split; [reflexivity|]. split.
      { constructor; [|exact HFh]. exists (toolCall :: toolCalls), candidate, others.
        repeat split; [exact Efc | discriminate | exact Ecand]. }
      split; [exact Hfin|]. split; [exact Hc|]. cbn [concat resp_toolCalls]. split.
      * rewrite Ht, infosOf_app. reflexivity.
      * rewrite Hi3, <- app_assoc. reflexivity.
    + intros [= <- <-]. exists [], [], response, script. cbn. rewrite app_nil_r.
      repeat split; [constructor|]. left. exact Efc.
Qed.

(** C6. The aggregate result of a turn holds the tool call records of all
    its hops, oldest hop first and each hop in the order the backend
    reported its calls, every record with the result the registry gave when
    the call ran. For each adapter: a script of tool hops followed by a
    final answer makes [chat] return such a result; and whenever [chat]
    returns, the script it consumed was of that form and the result is
    such. *)
Theorem aggregate_result_lists_all_tool_calls :
  (∀ self hops parsed final text rest model opts
     (s : Machine (gmap string OpenAI.ReqVal) (list LLmCompletionPayload)),
      Forall2 openaiHopAnnounces hops parsed →
      Forall plainUsage hops →
      openaiTerminal final text →
      ∃ resp s',
        OpenAI.chat self (hops ++ final :: rest) model opts s = (Ok resp, s')
        ∧ resp_toolCalls resp = infosOf (invocations s) (concat parsed)
        ∧ map (fun info => (info_name info, info_params info)) (resp_toolCalls resp)
          = concat parsed
        ∧ invocations s' = invocations s ++ concat parsed)
  ∧ (∀ self script model opts resp
       (s s' : Machine (gmap string OpenAI.ReqVal) (list LLmCompletionPayload)),
        OpenAI.chat self script model opts s = (Ok resp, s') →
        ∃ hops parsed final text rest,
          script = hops ++ final :: rest
          ∧ Forall2 openaiHopAnnounces hops parsed
          ∧ openaiTerminal final text
          ∧ resp_toolCalls resp = infosOf (invocations s) (concat parsed)
          ∧ map (fun info => (info_name info, info_params info)) (resp_toolCalls resp)
            = concat parsed
          ∧ invocations s' = invocations s ++ concat parsed)
  ∧ (∀ hops calls final rest modelName opts
       (s : Machine Google.Request (list Google.Content)),
        local s ≠ [] →
        Forall2 googleHopAnnounces hops calls →
        googleTerminal final →
        ∃ resp s',
          Google.chat (hops ++ final :: rest) modelName opts s = (Ok resp, s')
          ∧ resp_toolCalls resp = infosOf (invocations s) (concat calls)
          ∧ map (fun info => (info_name info, info_params info)) (resp_toolCalls resp)
            = concat calls
          ∧ invocations s' = invocations s ++ concat calls)
  ∧ (∀ script modelName opts resp
       (s s' : Machine Google.Request (list Google.Content)),
        Google.chat script modelName opts s = (Ok resp, s') →
        ∃ hops calls final rest,
          script = hops ++ final :: rest
          ∧ Forall2 googleHopAnnounces hops calls
          ∧ googleTerminal final
          ∧ resp_toolCalls resp = infosOf (invocations s) (concat calls)
          ∧ map (fun info => (info_name info, info_params info)) (resp_toolCalls resp)
            = concat calls
          ∧ invocations s' = invocations s ++ concat calls).
Proof.
  split; [|split; [|split]].
  - intros self hops parsed final text rest model opts s H1 H2 H3.
    destruct (openai_chat_turn self hops parsed final text rest model opts s H1 H2 H3)
      as (resp & s' & E & _ & Ht & _ & Hi).
    exists resp, s'. rewrite Ht, infosOf_calls. repeat split; assumption.
  - intros self script model opts resp s s' E.
    destruct (openai_chat_returns self script model opts resp s s' E)
      as (hops & parsed & final & text & rest & Es & HF & Hfin & _ & Ht & Hi).
    exists hops, parsed, final, text, rest. rewrite Ht, infosOf_calls.
    repeat split; assumption.
  - intros hops calls final rest modelName opts s H1 H2 H3.
    destruct (google_chat_turn hops calls final rest modelName opts s H1 H2 H3)
      as (resp & s' & E & _ & Ht & _ & Hi).
    exists resp, s'. rewrite Ht, infosOf_calls. repeat split; assumption.
  - intros script modelName opts resp s s' E.
    destruct (google_chat_returns script modelName opts resp s s' E)
      as (hops & calls & final & rest & Es & HF & Hfin & _ & Ht & Hi).
    exists hops, calls, final, rest. rewrite Ht, infosOf_calls.
    repeat split; assumption.
Qed.

(** Usage on Google: with tracking on and a final hop that reports usage,
    the turn returns the field-wise sum of the usages the hops report; with
    a final hop that reports none, the turn returns no usage at all. *)
Lemma google_usage_is_the_sum opts hops final counts p c :
  usageOn opts = true →
  map Google.usageMetadata hops = map (fun pc => Some (googleCounts pc.1 pc.2)) counts →
  Google.usageMetadata final = Some (googleCounts p c) →
  googleTurnUsage opts hops final
  = Some {| prompt_tokens := Some (Fin (sumZ (map fst counts) + p));
            completion_tokens := Some (Fin (sumZ (map snd counts) + c));
            total_tokens := None; prompt_tokens_details := None;
            completion_tokens_details := None |}.
Proof.
  intros Hon Hh Hf. unfold googleTurnUsage. rewrite Hon, Hf, Hh. f_equal.
  clear. induction counts as [|[p1 c1] counts IH]; cbn.
  - reflexivity.
  - rewrite IH. cbn. unfold Google.cumulateUsage. cbn.
    unfold sumZ. f_equal; f_equal; f_equal; lia.
Qed.

Lemma google_usage_lost_without_final_usage opts hops final :
  Google.usageMetadata final = None → googleTurnUsage opts hops final = None.
Proof.
  intros E. unfold googleTurnUsage. rewrite E. destruct (usageOn opts); reflexivity.
Qed.

(** Usage on OpenAI: the completion counter of the turn is the one of the
    final hop; the hops before it add to the prompt counter only. *)
Lemma openai_usage_keeps_final_completion_tokens (u : LlmUsage)
    (hops : list (option LlmUsage)) :
  completion_tokens (foldr openaiHopUsage u hops) = completion_tokens u.
Proof.
  induction hops as [|[ru|] hops IH]; cbn; [reflexivity | exact IH | exact IH].
Qed.
End ChatLoop.

(** C2 on the OpenAI adapter: two hops with usages (10, 5) and (20, 7) and
    tracking on return 30 prompt tokens and 7 completion tokens, where the
    field-wise sum has 12. *)
Lemma openai_chat_loses_completion_tokens :
  resp_usage <$>
    returned (OpenAI.chat (RT := Toy.runtime) OpenAI.OpenAIEngine
                [Toy.openaiToolHop "{}" (Some (Toy.usageOfCounts 10 5));
                 Toy.openaiAnswer "sunny" (Some (Toy.usageOfCounts 20 7))]
                "gpt-4o" Toy.tracking (Toy.openaiStart []))
  = Some (Some (Toy.usageOfCounts 30 7)).
Proof. vm_compute. reflexivity. Qed.

(* ===================================================================== *)
(** ** The streaming path of the OpenAI adapter *)
(* ===================================================================== *)

Section OpenAIStream.
Context {RT : Runtime} (self : OpenAI.Engine).

Lemma accumulate_without_delta chunk (s : OpenAIState) :
  toolCallDelta chunk = None →
  OpenAI.accumulateToolCall chunk s = (Ok tt, s).
Proof.
  unfold toolCallDelta, OpenAI.accumulateToolCall. intros E.
  destruct (head (OpenAI.chunk_choices chunk) ?. OpenAI.delta ?. OpenAI.delta_tool_calls)
    as [[|tool_call others]|]; cbn in E |- *; try reflexivity.
  rewrite E. reflexivity.
Qed.

(** Accumulating a delta touches the accumulator and may yield one tool
    status; the thread, the logs and the completion flag stay. *)
Lemma accumulate_frame chunk (s : OpenAIState) :
  let s1 := (OpenAI.accumulateToolCall chunk s).2 in
  OpenAI.ctx_thread (local s1) = OpenAI.ctx_thread (local s)
  ∧ OpenAI.ctx_opts (local s1) = OpenAI.ctx_opts (local s)
  ∧ OpenAI.ctx_model (local s1) = OpenAI.ctx_model (local s)
  ∧ OpenAI.ctx_done (local s1) = OpenAI.ctx_done (local s)
  ∧ requests s1 = requests s
  ∧ invocations s1 = invocations s
  ∧ ∃ events, yielded s1 = yielded s ++ events
              ∧ Forall (fun e => isContent e = false ∧ isUsage e = false) events.
Proof.
  assert (Hnil : ∀ l : list LlmChunk, ∃ events, l = l ++ events
            ∧ Forall (fun e => isContent e = false ∧ isUsage e = false) events).
  { intros l. exists []. rewrite app_nil_r. split; [reflexivity|constructor]. }
  unfold OpenAI.accumulateToolCall.
  destruct (head (OpenAI.chunk_choices chunk) ?. OpenAI.delta ?. OpenAI.delta_tool_calls)
    as [[|tool_call others]|]; cbn; try (repeat split; apply Hnil).
  destruct (tcm_function tool_call) as [fn|]; cbn; try (repeat split; apply Hnil).
  destruct (truthyOpt truthyStr (tcm_id tool_call)); run_monad.
  - destruct (existsb _ _); cbn; try (repeat split; apply Hnil).
    repeat split. eexists. split; [reflexivity|].
    repeat constructor.
  - destruct (last (OpenAI.ctx_toolCalls (local s))) as [toolCall|]; cbn;
      try (repeat split; apply Hnil).
    destruct (last (tc_message toolCall)) as [m|]; cbn;
      try (repeat split; apply Hnil).
    destruct (tcm_function m); cbn; repeat split; apply Hnil.
Qed.

Lemma openai_plain_chunk chunk (s : OpenAIState) :
  toolCallDelta chunk = None →
  endsContent (finishReasonOf chunk) = false →
  OpenAI.ctx_toolCalls (local s) = [] →
  OpenAI.ctx_done (local s) = false →
  ∃ events,
    OpenAI.nativeChunkToLlmChunk self chunk s = (Ok tt, withEvents s events)
    ∧ Forall quiet events.
Proof.
  intros Hd He Htc Hdone. unfold OpenAI.nativeChunkToLlmChunk.
  unfold bind at 1. rewrite (accumulate_without_delta chunk s Hd).
  unfold endsContent, finishReasonOf in He.
  run_monad. rewrite Htc, He, andb_false_r. cbn.
  destruct (negb (length (OpenAI.chunk_choices chunk) =? 0)%nat && _),
    (negb (length (OpenAI.chunk_choices chunk) =? 0)%nat && _); cbn;
    rewrite Hdone, andb_false_r; destruct (OpenAI.chunk_usage chunk);
    give_events s; repeat constructor.
Qed.

Lemma endsContent_has_choice chunk :
  endsContent (finishReasonOf chunk) = true → OpenAI.chunk_choices chunk ≠ [].
Proof.
  unfold endsContent, finishReasonOf. intros He Hnil. rewrite Hnil in He.
  vm_compute in He. discriminate He.
Qed.

Lemma openai_final_chunk chunk (s : OpenAIState) :
  toolCallDelta chunk = None →
  endsContent (finishReasonOf chunk) = true →
  OpenAI.ctx_toolCalls (local s) = [] →
  ∃ events,
    OpenAI.nativeChunkToLlmChunk self chunk s
    = (Ok tt, {| local := OpenAI.set_done true (local s); requests := requests s;
                 invocations := invocations s;
                 yielded := yielded s ++ events |})
    ∧ terminalShape events (usageOn (OpenAI.ctx_opts (local s)))
        (OpenAI.chunk_usage chunk).
Proof.
  intros Hd He Htc. pose proof (endsContent_has_choice chunk He) as Hc.
  unfold OpenAI.nativeChunkToLlmChunk.
  unfold bind at 1. rewrite (accumulate_without_delta chunk s Hd).
  unfold endsContent, finishReasonOf in He.
  run_monad. rewrite Htc, He, andb_false_r. cbn.
  destruct (OpenAI.chunk_choices chunk) as [|choice others] eqn:Ech; [congruence|].
  cbn. rewrite orb_true_r.
  set (reasoning := truthyOpt truthyStr _).
  destruct reasoning; cbn; rewrite andb_true_r;
    destruct (OpenAI.chunk_usage chunk) as [u|];
    try destruct (usageOn (OpenAI.ctx_opts (local s))) eqn:Eu; cbn;
    (eexists; split; [rewrite <- ?app_assoc; reflexivity|]);
    unfold terminalShape.
  all: try (eexists [ReasoningChunk _ true], _, [UsageChunk u];
            split; [reflexivity|]; split; [repeat constructor|];
            right; split; [reflexivity|]; exists u; split; reflexivity).
  all: try (eexists [ReasoningChunk _ true], _, [];
            split; [reflexivity|]; split; [repeat constructor|];
            left; reflexivity).
  all: try (eexists [], _, [UsageChunk u];
            split; [reflexivity|]; split; [repeat constructor|];
            right; split; [reflexivity|]; exists u; split; reflexivity).
  all: try (eexists [], _, [];
            split; [reflexivity|]; split; [repeat constructor|];
            left; reflexivity).
Qed.

Lemma terminalShape_after_quiet quietEvents events tracking supplied :
  Forall quiet quietEvents →
  terminalShape events tracking supplied →
  terminalShape (quietEvents ++ events) tracking supplied.
Proof.
  intros Hq (before & text & after & -> & Hb & Ha).
  exists (quietEvents ++ before), text, after.
  rewrite <- app_assoc. split; [reflexivity|]. split; [|exact Ha].
  apply Forall_app. split; assumption.
Qed.

Lemma openai_quiet_turn before final (s : OpenAIState) :
  Forall openaiPlainChunk before →
  openaiFinalChunk final →
  OpenAI.ctx_toolCalls (local s) = [] →
  OpenAI.ctx_done (local s) = false →
  ∃ s' events,
    OpenAI.translateChunks self (before ++ [final]) s = (Ok tt, s')
    ∧ yielded s' = yielded s ++ events
    ∧ terminalShape events (usageOn (OpenAI.ctx_opts (local s)))
        (OpenAI.chunk_usage final).
Proof.
  intros Hb [Hd He]. revert s.
  induction Hb as [|chunk before [Hcd Hce] Hb IH]; intros s Htc Hdone.
  - destruct (openai_final_chunk final s Hd He Htc) as (events & E & Hs).
    unfold OpenAI.translateChunks. cbn [app forEach]. unfold bind at 1.
    rewrite E. eexists _, events. split; [reflexivity|]. split; [reflexivity|exact Hs].
  - destruct (openai_plain_chunk chunk s Hcd Hce Htc Hdone) as (ev1 & E & Hq).
    destruct (IH (withEvents s ev1) Htc Hdone) as (s' & events & E' & Hy & Hs).
    unfold OpenAI.translateChunks in *. cbn [app forEach]. unfold bind at 1.
    rewrite E. change (forEach (before ++ [final]) (OpenAI.nativeChunkToLlmChunk self)
                         (withEvents s ev1) = (Ok tt, s')) in E'.
    exists s', (ev1 ++ events). split; [exact E'|]. split.
    + rewrite Hy. cbn. rewrite app_assoc. reflexivity.
    + apply terminalShape_after_quiet; assumption.
Qed.
End OpenAIStream.

(* ===================================================================== *)
(** ** The streaming path of the Google adapter *)
(* ===================================================================== *)

Section GoogleStream.
Context {RT : Runtime}.

Lemma google_text_chunk chunk done (s : GoogleState) :
  noFunctionCalls chunk →
  googleFinished chunk = Some done →
  Google.nativeChunkToLlmChunk chunk s
  = (Ok tt, withEvents s (googleTextEvents (Google.ctx_opts (local s)) chunk done)).
Proof.
  intros Hn Hf. unfold Google.nativeChunkToLlmChunk, googleFinished, googleTextEvents in *.
  assert (E : ∀ X (a : Google.FunctionCall → list Google.FunctionCall → X) (b : X),
             match Google.functionCalls chunk with
             | Some (toolCall :: toolCalls) => a toolCall toolCalls
             | _ => b
             end = b).
  { intros X a b. destruct Hn as [-> | ->]; reflexivity. }
  rewrite E. clear E.
  destruct (Google.candidates chunk) as [[|candidate others]|];
    try discriminate Hf; injection Hf as <-; run_monad;
    destruct (Google.usageMetadata chunk) as [m|]; cbn;
    try destruct (_ && _); unfold withEvents; cbn;
    rewrite <- ?app_assoc; reflexivity.
Qed.

Lemma google_quiet_turn before final (s : GoogleState) :
  Forall googlePlainChunk before →
  googleFinalChunk final →
  ∃ s' events,
    Google.translateChunks (before ++ [final]) s = (Ok tt, s')
    ∧ yielded s' = yielded s ++ events
    ∧ terminalShape events (usageOn (Google.ctx_opts (local s)))
        (Google.usageOf <$> Google.usageMetadata final).
Proof.
  intros Hb [Hn Hf]. revert s.
  induction Hb as [|chunk before [Hcn Hcf] Hb IH]; intros s.
  - unfold Google.translateChunks. cbn [app forEach]. unfold bind at 1.
    rewrite (google_text_chunk final true s Hn Hf).
    eexists _, _. split; [reflexivity|]. split; [reflexivity|].
    unfold googleTextEvents. exists [], (Google.text final). eexists.
    split; [reflexivity|]. split; [constructor|].
    destruct (Google.usageMetadata final) as [m|]; [|left; reflexivity].
    cbn. destruct (usageOn _); [|left; reflexivity].
    right. split; [reflexivity|]. eexists. split; reflexivity.
  - destruct (IH (withEvents s (googleTextEvents (Google.ctx_opts (local s)) chunk false)))
      as (s' & events & E' & Hy & Hs).
    unfold Google.translateChunks in *. cbn [app forEach]. unfold bind at 1.
    rewrite (google_text_chunk chunk false s Hcn Hcf).
    change (forEach (before ++ [final]) Google.nativeChunkToLlmChunk
              (withEvents s (googleTextEvents (Google.ctx_opts (local s)) chunk false))
            = (Ok tt, s')) in E'.
    exists s', (googleTextEvents (Google.ctx_opts (local s)) chunk false ++ events).
    split; [exact E'|]. split.
    + rewrite Hy. unfold withEvents. cbn [yielded].
      rewrite <- app_assoc. reflexivity.
    + apply terminalShape_after_quiet; [|exact Hs].
      unfold googleTextEvents. cbn.
      destruct (Google.usageMetadata chunk); repeat constructor.
Qed.
End GoogleStream.

(** What the shape says in counts: one final content event, at most one
    usage event. *)
Lemma terminalShape_counts events tracking supplied :
  terminalShape events tracking supplied →
  length (List.filter isDoneContent events) = 1
  ∧ (length (List.filter isUsage events) <= 1)%nat.
Proof.
  intros (before & text & after & -> & Hb & Ha).
  assert (E1 : List.filter isDoneContent before = []
             ∧ List.filter isUsage before = []).
  { clear Ha. induction Hb as [|e before [H1 H2] Hb [IH1 IH2]]; [split; reflexivity|].
    cbn. rewrite H1, H2. split; assumption. }
  destruct E1 as [E1 E2].
  rewrite !List.filter_app, E1, E2. cbn.
  destruct Ha as [-> | (_ & u & _ & ->)]; cbn; lia.
Qed.

(** C3. A streamed turn without tool calls that ends with the finish signal
    yields exactly one final content event and at most one usage event:
    before the final content event there is no usage event; after it comes
    nothing, or the single usage event, and that only with tracking on and
    usage supplied by the backend on that chunk. The OpenAI context starts
    as [stream] creates it: nothing accumulated, not done. *)
Theorem quiet_turn_ends_with_one_final_content :
  ∀ (RT : Runtime),
    (∀ self before final (s : OpenAIState),
        Forall openaiPlainChunk before →
        openaiFinalChunk final →
        OpenAI.ctx_toolCalls (local s) = [] →
        OpenAI.ctx_done (local s) = false →
        ∃ s' events,
          OpenAI.translateChunks self (before ++ [final]) s = (Ok tt, s')
          ∧ yielded s' = yielded s ++ events
          ∧ terminalShape events (usageOn (OpenAI.ctx_opts (local s)))
              (OpenAI.chunk_usage final)
          ∧ length (List.filter isDoneContent events) = 1
          ∧ (length (List.filter isUsage events) <= 1)%nat)
    ∧ (∀ before final (s : GoogleState),
          Forall googlePlainChunk before →
          googleFinalChunk final →
          ∃ s' events,
            Google.translateChunks (before ++ [final]) s = (Ok tt, s')
            ∧ yielded s' = yielded s ++ events
            ∧ terminalShape events (usageOn (Google.ctx_opts (local s)))
                (Google.usageOf <$> Google.usageMetadata final)
            ∧ length (List.filter isDoneContent events) = 1
            ∧ (length (List.filter isUsage events) <= 1)%nat).
Proof.
  intros RT. split.
  - intros self before final s H1 H2 H3 H4.
    destruct (openai_quiet_turn self before final s H1 H2 H3 H4)
      as (s' & events & E & Hy & Hs).
    exists s', events. repeat split; try assumption;
      apply (terminalShape_counts _ _ _ Hs).
  - intros before final s H1 H2.
    destruct (google_quiet_turn before final s H1 H2) as (s' & events & E & Hy & Hs).
    exists s', events. repeat split; try assumption;
      apply (terminalShape_counts _ _ _ Hs).
Qed.

(* ===================================================================== *)
(** ** The accumulator of in-flight tool calls *)
(* ===================================================================== *)

Section Accumulator.
Context {RT : Runtime} (self : OpenAI.Engine).

Lemma appendToFirst_ids id v l :
  map tc_id (OpenAI.appendToFirst id v l) = map tc_id l.
Proof.
  induction l as [|tc l IH]; cbn; [reflexivity|].
  destruct (String.eqb (tc_id tc) id); cbn; [reflexivity|].
  rewrite IH. reflexivity.
Qed.

Lemma setLast_ids (x tc : LlmToolCall) l :
  last l = Some tc → tc_id x = tc_id tc →
  map tc_id (OpenAI.setLast x l) = map tc_id l.
Proof.
  intros Hl Hx. unfold OpenAI.setLast.
  destruct (last_Some l tc) as [Hsome _]. destruct (Hsome Hl) as [l' ->].
  rewrite removelast_last, !map_app. cbn. rewrite Hx. reflexivity.
Qed.

Lemma last_setLast {A} (x : A) l : last (OpenAI.setLast x l) = Some x.
Proof. unfold OpenAI.setLast. apply last_snoc. Qed.

Lemma existsb_id_false id (l : list LlmToolCall) :
  existsb (fun tc => String.eqb (tc_id tc) id) l = false → id ∉ map tc_id l.
Proof.
  induction l as [|tc l IH]; cbn; intros E.
  - apply not_elem_of_nil.
  - apply orb_false_iff in E. destruct E as [E1 E2].
    apply not_elem_of_cons. split; [|exact (IH E2)].
    apply String.eqb_neq in E1. congruence.
Qed.

Local Arguments OpenAI.setLast : simpl never.

Lemma accumulate_ids chunk (s : OpenAIState) :
  idsDistinct (OpenAI.ctx_toolCalls (local s)) →
  idsDistinct (OpenAI.ctx_toolCalls (local (OpenAI.accumulateToolCall chunk s).2)).
Proof.
  unfold idsDistinct. intros Hs. unfold OpenAI.accumulateToolCall.
  destruct (head (OpenAI.chunk_choices chunk) ?. OpenAI.delta ?. OpenAI.delta_tool_calls)
    as [[|tool_call others]|]; cbn; try exact Hs.
  destruct (tcm_function tool_call) as [fn|]; cbn; try exact Hs.
  destruct (truthyOpt truthyStr (tcm_id tool_call)); run_monad.
  - destruct (existsb _ _) eqn:Ex; cbn.
    + rewrite appendToFirst_ids. exact Hs.
    + rewrite map_app. cbn. apply NoDup_app. split; [exact Hs|]. split.
      * intros x Hx Hx'. apply list_elem_of_singleton in Hx'. subst x.
        revert Hx. apply existsb_id_false, Ex.
      * apply NoDup_singleton.
  - destruct (last (OpenAI.ctx_toolCalls (local s))) as [toolCall|] eqn:El; cbn;
      try exact Hs.
    destruct (last (tc_message toolCall)) as [m|]; cbn;
      [destruct (tcm_function m); cbn|];
      repeat (erewrite setLast_ids;
              [| first [exact El | apply last_setLast] | reflexivity]);
      exact Hs.
Qed.

Lemma streamToolCall_keeps_toolCalls toolCall (s : OpenAIState) :
  OpenAI.ctx_toolCalls (local (OpenAI.streamToolCall toolCall s).2)
  = OpenAI.ctx_toolCalls (local s).
Proof.
  unfold OpenAI.streamToolCall, OpenAI.parseArgs.
  destruct (JSON_parse (tc_args toolCall)); run_monad; reflexivity.
Qed.

Lemma streamToolCalls_keep_toolCalls toolCalls (s : OpenAIState) :
  OpenAI.ctx_toolCalls (local (forEach toolCalls OpenAI.streamToolCall s).2)
  = OpenAI.ctx_toolCalls (local s).
Proof.
  revert s. induction toolCalls as [|toolCall toolCalls IH]; intros s; cbn [forEach].
  - reflexivity.
  - unfold bind. pose proof (streamToolCall_keeps_toolCalls toolCall s) as E.
    destruct (OpenAI.streamToolCall toolCall s) as [[[]|e] s1]; cbn in E |- *.
    + rewrite IH. exact E.
    + exact E.
Qed.

Lemma nativeChunk_ids chunk (s : OpenAIState) :
  idsDistinct (OpenAI.ctx_toolCalls (local s)) →
  idsDistinct (OpenAI.ctx_toolCalls (local (OpenAI.nativeChunkToLlmChunk self chunk s).2)).
Proof.
  intros Hs. apply (accumulate_ids chunk) in Hs.
  unfold OpenAI.nativeChunkToLlmChunk. unfold bind at 1.
  destruct (OpenAI.accumulateToolCall chunk s) as [[[]|e] s1]; cbn in Hs |- *;
    [|exact Hs].
  unfold getLocal, gets. unfold bind at 1.
  destruct (_ && _).
  - unfold bind at 1.
    pose proof (streamToolCalls_keep_toolCalls (OpenAI.ctx_toolCalls (local s1)) s1) as E.
    destruct (forEach _ _ s1) as [[[]|e] s2]; cbn in E |- *.
    + run_monad. apply NoDup_nil_2.
    + rewrite E. exact Hs.
  - run_monad.
    repeat match goal with
           | |- context [if ?b then _ else _] => destruct b; cbn
           | |- context [match ?o with Some _ => _ | None => _ end] => destruct o; cbn
           end; exact Hs.
Qed.

Lemma translateChunks_ids chunks (s : OpenAIState) :
  idsDistinct (OpenAI.ctx_toolCalls (local s)) →
  idsDistinct (OpenAI.ctx_toolCalls (local (OpenAI.translateChunks self chunks s).2)).
Proof.
  unfold OpenAI.translateChunks. revert s.
  induction chunks as [|chunk chunks IH]; intros s Hs; cbn [forEach].
  - exact Hs.
  - unfold bind. pose proof (nativeChunk_ids chunk s Hs) as H1.
    destruct (OpenAI.nativeChunkToLlmChunk self chunk s) as [[[]|e] s1]; cbn in H1 |- *.
    + apply IH, H1.
    + exact H1.
Qed.

Lemma google_saved_ids calls (s : GoogleState) :
  map tc_id (Google.ctx_toolCalls (local (Google.saveToolCalls calls s).2))
  = map Google.fc_name calls.
Proof. cbn. rewrite map_map. reflexivity. Qed.

(** The context [stream] hands to the chunk translation: the request is
    issued, nothing is accumulated, and on OpenAI the turn is not done. *)
Lemma openai_stream_starts_clean model thread opts (s : OpenAIState) :
  ∃ s',
    OpenAI.stream self model thread opts s = (Ok (length (requests s)), s')
    ∧ OpenAI.ctx_toolCalls (local s') = []
    ∧ OpenAI.ctx_done (local s') = false
    ∧ OpenAI.ctx_thread (local s')
      = OpenAI.buildPayload self (selectModel model thread opts) thread opts.
Proof. eexists. split; [reflexivity|]. repeat split. Qed.

Lemma google_stream_starts_clean modelName first thread opts (s : GoogleState) :
  ∃ s',
    Google.stream modelName (first :: thread) opts s = (Ok (length (requests s)), s')
    ∧ Google.ctx_toolCalls (local s') = []
    ∧ Google.ctx_content (local s')
      = Google.threadToHistory (first :: thread)
          (selectModel modelName (first :: thread) opts) opts.
Proof. eexists. split; [reflexivity|]. repeat split. Qed.

(** C4, as the code has it. Issuing a request empties the accumulator, on
    both adapters. On OpenAI the ids of the accumulated records stay
    pairwise distinct through every chunk of the attempt. On Google the
    id of a record is the name of the function called, so the ids are
    the names the chunk reports, in order. *)
Theorem accumulator_reset_and_ids :
  (∀ s : GoogleState, ∃ s',
      Google.doStream s = (Ok (length (requests s)), s')
      ∧ Google.ctx_toolCalls (local s') = []
      ∧ length (requests s') = S (length (requests s)))
  ∧ (∀ s : OpenAIState, ∃ s',
        OpenAI.doStream self s = (Ok (length (requests s)), s')
        ∧ OpenAI.ctx_toolCalls (local s') = []
        ∧ length (requests s') = S (length (requests s)))
  ∧ (∀ chunks (s : OpenAIState),
        idsDistinct (OpenAI.ctx_toolCalls (local (OpenAI.doStream self s).2))
        ∧ idsDistinct
            (OpenAI.ctx_toolCalls
               (local (OpenAI.translateChunks self chunks (OpenAI.doStream self s).2).2)))
  ∧ (∀ calls (s : GoogleState),
        map tc_id (Google.ctx_toolCalls (local (Google.saveToolCalls calls s).2))
        = map Google.fc_name calls).
Proof.
  repeat split.
  - intros s. eexists. split; [reflexivity|]. split; [reflexivity|].
    cbn. rewrite length_app. cbn. lia.
  - intros s. eexists. split; [reflexivity|]. split; [reflexivity|].
    cbn. rewrite length_app. cbn. lia.
  - apply NoDup_nil_2.
  - apply translateChunks_ids. apply NoDup_nil_2.
  - intros calls s. apply google_saved_ids.
Qed.
End Accumulator.

(** C4, as stated, fails on Google: a chunk that calls the same function
    twice leaves two records with the same id in the accumulator. *)
Lemma google_ids_repeat_the_function_name :
  ¬ (∀ (RT : Runtime) (calls : list Google.FunctionCall)
       (s : Machine Google.Request Google.GoogleStreamingContext),
        idsDistinct (Google.ctx_toolCalls (local (Google.saveToolCalls calls s).2))).
Proof.
  intros claim.
  specialize (claim Toy.runtime
                [ {| Google.fc_name := "get_weather"; Google.fc_args := JStr "Lyon" |};
                  {| Google.fc_name := "get_weather"; Google.fc_args := JStr "Paris" |} ]
                {| local := {| Google.ctx_model := Google.getModel (RT := Toy.runtime)
                                                     "gemini-1.5-pro" None noOpts;
                               Google.ctx_content := []; Google.ctx_opts := noOpts;
                               Google.ctx_toolCalls := [] |};
                   requests := []; invocations := []; yielded := [] |}).
  cbn in claim. unfold idsDistinct in claim. cbn in claim.
  apply NoDup_cons in claim. destruct claim as [Hin _].
  apply Hin. left.
Qed.

(* ===================================================================== *)
(** ** Tool execution on the streaming path *)
(* ===================================================================== *)

Section StreamTools.
Context {RT : Runtime} (self : OpenAI.Engine).

Lemma forEach_app {S A} (l1 l2 : list A) (body : A → M S unit) (s : S) :
  forEach (l1 ++ l2) body s
  = match forEach l1 body s with
    | (Ok _, s1) => forEach l2 body s1
    | (Throw e, s1) => (Throw e, s1)
    end.
Proof.
  revert s. induction l1 as [|x l1 IH]; intros s; cbn [app forEach].
  - reflexivity.
  - unfold bind. destruct (body x s) as [[[]|e] s1]; [apply IH|reflexivity].
Qed.

Lemma openaiToolMessages_cons toolCall toolCalls result results :
  openaiToolMessages (toolCall :: toolCalls) (result :: results)
  = OpenAI.toolCallMessage (tc_message toolCall)
    :: OpenAI.toolResponseMessage (tc_id toolCall) (tc_function toolCall)
         (JSON_stringify result)
    :: openaiToolMessages toolCalls results.
Proof. reflexivity. Qed.

Local Arguments openaiToolMessages : simpl never.
Local Arguments toolResults : simpl never.

Lemma toolResults_cons history n a calls :
  toolResults history ((n, a) :: calls)
  = toolResult history n a :: toolResults (history ++ [(n, a)]) calls.
Proof. reflexivity. Qed.

Lemma openai_streamToolCalls_ok toolCalls parsed (s : OpenAIState) :
  Forall2 recordParsesTo toolCalls parsed →
  ∃ events,
    forEach toolCalls OpenAI.streamToolCall s
    = (Ok tt,
       {| local := OpenAI.set_thread
                     (OpenAI.ctx_thread (local s)
                      ++ openaiToolMessages toolCalls
                           (toolResults (invocations s) parsed))
                     (local s);
          requests := requests s;
          invocations := invocations s ++ parsed;
          yielded := yielded s ++ events |})
    ∧ Forall notContent events.
Proof.
  intros HF. revert s.
  induction HF as [|toolCall [n a] toolCalls parsed [Hn Hp] HF IH]; intros s.
  - exists []. split; [|constructor]. cbn. rewrite !app_nil_r.
    destruct s as [[] ? ? ?]; reflexivity.
  - cbn in Hn, Hp. subst n. cbn [forEach]. unfold bind at 1.
    unfold OpenAI.streamToolCall at 1. unfold OpenAI.parseArgs.
    rewrite Hp. run_monad.
    match goal with |- context [forEach toolCalls OpenAI.streamToolCall ?s1] =>
      destruct (IH s1) as (events & E & Hq); rewrite E end.
    eexists (_ :: _ :: events). split.
    + cbn. rewrite toolResults_cons, openaiToolMessages_cons.
      unfold OpenAI.set_thread. cbn. rewrite <- !app_assoc. reflexivity.
    + repeat constructor. exact Hq.
Qed.

Lemma openai_streamToolCalls_fail before bad after parsed (s : OpenAIState) :
  Forall2 recordParsesTo before parsed →
  JSON_parse (tc_args bad) = None →
  ∃ s',
    forEach (before ++ bad :: after) OpenAI.streamToolCall s
    = (Throw (InvalidJsonArgs (tc_function bad) (tc_args bad)), s')
    ∧ invocations s' = invocations s ++ parsed
    ∧ requests s' = requests s
    ∧ Forall notContent (drop (length (yielded s)) (yielded s')).
Proof.
  intros HF Hbad. rewrite forEach_app.
  destruct (openai_streamToolCalls_ok before parsed s HF) as (events & E & Hq).
  rewrite E. cbn [forEach]. unfold bind at 1.
  unfold OpenAI.streamToolCall, OpenAI.parseArgs. rewrite Hbad. run_monad.
  eexists. split; [reflexivity|]. cbn. repeat split.
  rewrite drop_app_length. exact Hq.
Qed.

Lemma nonempty_length {A} (l : list A) :
  l ≠ [] → negb (Nat.eqb (length l) 0) = true.
Proof. destruct l; [congruence|reflexivity]. Qed.

Lemma notContent_of_quiet events :
  Forall (fun e => isContent e = false ∧ isUsage e = false) events →
  Forall notContent events.
Proof. intros Hq. eapply Forall_impl; [exact Hq|]. intros e [He _]. exact He. Qed.

Lemma openai_tool_calls_complete chunk (s s1 : OpenAIState) parsed :
  OpenAI.accumulateToolCall chunk s = (Ok tt, s1) →
  closesToolCalls (finishReasonOf chunk) = true →
  OpenAI.ctx_toolCalls (local s1) ≠ [] →
  Forall2 recordParsesTo (OpenAI.ctx_toolCalls (local s1)) parsed →
  ∃ s' events,
    OpenAI.nativeChunkToLlmChunk self chunk s = (Ok tt, s')
    ∧ invocations s' = invocations s ++ parsed
    ∧ OpenAI.ctx_thread (local s')
      = OpenAI.ctx_thread (local s)
        ++ openaiToolMessages (OpenAI.ctx_toolCalls (local s1))
             (toolResults (invocations s) parsed)
    ∧ OpenAI.ctx_toolCalls (local s') = []
    ∧ requests s' = requests s ++ [OpenAI.streamRequest self (local s')]
    ∧ yielded s' = yielded s ++ events ++ [StreamChunk (length (requests s))]
    ∧ Forall notContent events.
Proof.
  intros E Hc Hne HF.
  pose proof (accumulate_frame chunk s) as Hframe. rewrite E in Hframe.
  cbn in Hframe. destruct Hframe as (Ht & _ & _ & _ & Hr & Hi & ev1 & Hy & Hq).
  destruct (openai_streamToolCalls_ok (OpenAI.ctx_toolCalls (local s1)) parsed s1 HF)
    as (ev2 & E2 & Hq2).
  unfold OpenAI.nativeChunkToLlmChunk. unfold bind at 1. rewrite E.
  unfold getLocal, gets. unfold bind at 1.
  unfold closesToolCalls, finishReasonOf in Hc.
  rewrite Hc, (nonempty_length _ Hne). cbn [andb].
  unfold bind at 1. rewrite E2. run_monad.
  eexists _, (ev1 ++ ev2). split; [reflexivity|]. cbn.
  rewrite Hi, Ht, Hr, Hy, <- !app_assoc. repeat split.
  apply Forall_app. split; [apply notContent_of_quiet, Hq | exact Hq2].
Qed.

Lemma openai_tool_call_arguments_invalid chunk (s s1 : OpenAIState)
    before bad after parsed :
  OpenAI.accumulateToolCall chunk s = (Ok tt, s1) →
  closesToolCalls (finishReasonOf chunk) = true →
  OpenAI.ctx_toolCalls (local s1) = before ++ bad :: after →
  Forall2 recordParsesTo before parsed →
  JSON_parse (tc_args bad) = None →
  ∃ s',
    OpenAI.nativeChunkToLlmChunk self chunk s
    = (Throw (InvalidJsonArgs (tc_function bad) (tc_args bad)), s')
    ∧ invocations s' = invocations s ++ parsed
    ∧ requests s' = requests s.
Proof.
  intros E Hc Htc HF Hbad.
  pose proof (accumulate_frame chunk s) as Hframe. rewrite E in Hframe.
  cbn in Hframe. destruct Hframe as (_ & _ & _ & _ & Hr & Hi & _).
  destruct (openai_streamToolCalls_fail before bad after parsed s1 HF Hbad)
    as (s' & E2 & Hi2 & Hr2 & _).
  unfold OpenAI.nativeChunkToLlmChunk. unfold bind at 1. rewrite E.
  unfold getLocal, gets. unfold bind at 1.
  unfold closesToolCalls, finishReasonOf in Hc.
  rewrite Hc, Htc, nonempty_length by (destruct before; discriminate). cbn [andb].
  unfold bind at 1. rewrite E2.
  exists s'. split; [reflexivity|]. rewrite Hi2, Hr2, Hi, Hr. split; reflexivity.
Qed.

Lemma openai_chatToolCalls_fail before bad after parsed
    (s : Machine (gmap string OpenAI.ReqVal) (list LLmCompletionPayload)) :
  Forall2 parsesTo before parsed →
  JSON_parse (OpenAI.call_arguments bad) = None →
  ∃ s',
    OpenAI.chatToolCalls (before ++ bad :: after) s
    = (Throw (InvalidJsonArgs (OpenAI.call_name bad) (OpenAI.call_arguments bad)), s')
    ∧ invocations s' = invocations s ++ parsed
    ∧ requests s' = requests s.
Proof.
  intros HF Hbad. revert s.
  induction HF as [|call [n a] before parsed [Hn Hp] HF IH]; intros s.
  - cbn [app OpenAI.chatToolCalls]. unfold bind at 1.
    unfold OpenAI.chatToolCall, OpenAI.parseArgs. rewrite Hbad. run_monad.
    eexists. split; [reflexivity|]. rewrite app_nil_r. split; reflexivity.
  - cbn in Hn, Hp. subst n. cbn [app OpenAI.chatToolCalls]. unfold bind at 1.
    unfold OpenAI.chatToolCall at 1. unfold OpenAI.parseArgs. rewrite Hp. run_monad.
    match goal with |- context [OpenAI.chatToolCalls _ ?s1] =>
      destruct (IH s1) as (s' & E & Hi & Hr); rewrite E end.
    exists s'. split; [reflexivity|]. cbn in Hi, Hr.
    rewrite Hi, Hr, <- app_assoc. split; reflexivity.
Qed.

Lemma openai_chat_arguments_invalid response choice others before bad after parsed
    rest model opts
    (s : Machine (gmap string OpenAI.ReqVal) (list LLmCompletionPayload)) :
  OpenAI.choices response = choice :: others →
  OpenAI.choice_finish_reason choice = Some "tool_calls" →
  OpenAI.message_tool_calls (OpenAI.choice_message choice)
  = Some (before ++ bad :: after) →
  Forall2 parsesTo before parsed →
  JSON_parse (OpenAI.call_arguments bad) = None →
  ∃ s',
    OpenAI.chat self (response :: rest) model opts s
    = (Throw (InvalidJsonArgs (OpenAI.call_name bad) (OpenAI.call_arguments bad)), s')
    ∧ invocations s' = invocations s ++ parsed
    ∧ requests s' = requests s ++ [OpenAI.chatRequest self model (local s) opts].
Proof.
  intros Ec Hr Etc HF Hbad.
  cbn [OpenAI.chat]. run_monad. rewrite Ec. cbn.
  rewrite bool_decide_eq_true_2 by exact Hr. rewrite Etc.
  match goal with |- context [OpenAI.chatToolCalls _ ?s1] =>
    destruct (openai_chatToolCalls_fail before bad after parsed s1 HF Hbad)
      as (s' & E & Hi & Hrq); rewrite E end.
  exists s'. split; [reflexivity|]. split; assumption.
Qed.

Local Arguments googleToolResponses : simpl never.

Lemma google_streamToolCalls_ok records parsed (s : GoogleState) :
  Forall2 recordParsesTo records parsed →
  ∃ events,
    Google.streamToolCalls records s
    = (Ok (googleToolResponses parsed (toolResults (invocations s) parsed)),
       {| local := local s; requests := requests s;
          invocations := invocations s ++ parsed;
          yielded := yielded s ++ events |})
    ∧ Forall notContent events.
Proof.
  intros HF. revert s.
  induction HF as [|record [n a] records parsed [Hn Hp] HF IH]; intros s.
  - exists []. split; [|constructor]. cbn. rewrite !app_nil_r.
    destruct s; reflexivity.
  - cbn in Hn, Hp. subst n. cbn [Google.streamToolCalls]. rewrite Hp. run_monad.
    match goal with |- context [Google.streamToolCalls records ?s1] =>
      destruct (IH s1) as (events & E & Hq); rewrite E end.
    eexists (_ :: _ :: _ :: events). split.
    + cbn. rewrite <- !app_assoc. reflexivity.
    + repeat constructor. exact Hq.
Qed.

Lemma google_streamToolCalls_fail before bad after parsed (s : GoogleState) :
  Forall2 recordParsesTo before parsed →
  JSON_parse (tc_args bad) = None →
  ∃ s',
    Google.streamToolCalls (before ++ bad :: after) s
    = (Throw (SyntaxError (tc_args bad)), s')
    ∧ invocations s' = invocations s ++ parsed
    ∧ requests s' = requests s.
Proof.
  intros HF Hbad. revert s.
  induction HF as [|record [n a] before parsed [Hn Hp] HF IH]; intros s.
  - cbn [app Google.streamToolCalls]. rewrite Hbad. run_monad.
    eexists. split; [reflexivity|]. cbn. rewrite app_nil_r. split; reflexivity.
  - cbn in Hn, Hp. subst n. cbn [app Google.streamToolCalls]. rewrite Hp. run_monad.
    match goal with |- context [Google.streamToolCalls _ ?s1] =>
      destruct (IH s1) as (s' & E & Hi & Hr); rewrite E end.
    exists s'. split; [reflexivity|]. cbn in Hi, Hr.
    rewrite Hi, Hr, <- app_assoc. split; reflexivity.
Qed.

Lemma google_function_calls_complete chunk calls candidate others parsed
    (s : GoogleState) :
  Google.functionCalls chunk = Some calls →
  calls ≠ [] →
  Google.candidates chunk = Some (candidate :: others) →
  Forall2 recordParsesTo (map Google.toolCallRecord calls) parsed →
  ∃ s' events,
    Google.nativeChunkToLlmChunk chunk s = (Ok tt, s')
    ∧ invocations s' = invocations s ++ parsed
    ∧ Google.ctx_content (local s')
      = Google.ctx_content (local s)
        ++ [ {| Google.content_role := "assistant";
                Google.parts := Google.candidate_parts candidate |};
             {| Google.content_role := "tool";
                Google.parts := googleToolResponses parsed
                                  (toolResults (invocations s) parsed) |} ]
    ∧ Google.ctx_toolCalls (local s') = []
    ∧ requests s'
      = requests s
        ++ [ {| Google.req_model := Google.ctx_model (local s);
                Google.contents := Google.ctx_content (local s');
                Google.generationConfig :=
                  Google.getGenerationConfig (Google.ctx_opts (local s));
                Google.req_stream := true |} ]
    ∧ yielded s' = yielded s ++ events ++ [StreamChunk (length (requests s))]
    ∧ Forall notContent events.
Proof.
  intros Efc Hne Ecand HF.
  unfold Google.nativeChunkToLlmChunk. rewrite Efc.
  destruct calls as [|toolCall toolCalls]; [congruence|].
  unfold Google.saveToolCalls. unfold modifyLocal, modify, getLocal, gets.
  unfold bind at 1. unfold bind at 1. cbn [local Google.ctx_toolCalls Google.set_toolCalls].
  unfold bind at 1.
  match goal with |- context [Google.streamToolCalls _ ?s1] =>
    destruct (google_streamToolCalls_ok _ parsed s1 HF) as (events & E & Hq);
      rewrite E end.
  unfold Google.firstCandidateParts. rewrite Ecand. run_monad.
  eexists _, events. split; [reflexivity|]. cbn.
  rewrite <- !app_assoc. repeat split. exact Hq.
Qed.

Lemma google_function_call_arguments_invalid chunk before bad after parsed
    (s : GoogleState) :
  Google.functionCalls chunk = Some (before ++ bad :: after) →
  Forall2 recordParsesTo (map Google.toolCallRecord before) parsed →
  JSON_parse (JSON_stringify (Google.fc_args bad)) = None →
  ∃ s',
    Google.nativeChunkToLlmChunk chunk s
    = (Throw (SyntaxError (JSON_stringify (Google.fc_args bad))), s')
    ∧ invocations s' = invocations s ++ parsed
    ∧ requests s' = requests s.
Proof.
  intros Efc HF Hbad.
  unfold Google.nativeChunkToLlmChunk. rewrite Efc.
  destruct (before ++ bad :: after) as [|toolCall toolCalls] eqn:Eapp;
    [destruct before; discriminate|]. rewrite <- Eapp. clear Eapp.
  unfold Google.saveToolCalls. unfold modifyLocal, modify, getLocal, gets.
  unfold bind at 1. unfold bind at 1. cbn [local Google.ctx_toolCalls Google.set_toolCalls].
  unfold bind at 1. rewrite map_app. cbn [map].
  match goal with |- context [Google.streamToolCalls _ ?s1] =>
    destruct (google_streamToolCalls_fail (map Google.toolCallRecord before)
                (Google.toolCallRecord bad) (map Google.toolCallRecord after)
                parsed s1 HF Hbad) as (s' & E & Hi & Hr);
      rewrite E end.
  exists s'. split; [reflexivity|]. split; assumption.
Qed.
End StreamTools.

(** C8. Arguments that fail to parse are fatal to the call: the adapter
    throws (the invalid-arguments error on OpenAI, the parse error itself
    on the Google stream path), the calls before it are the only ones
    invoked, and nothing is sent again: [chat] has issued its one request,
    the stream path opens no new stream. *)
Theorem unparsable_arguments_are_fatal :
  ∀ (RT : Runtime),
    (∀ self response choice others before bad after parsed rest model opts
       (s : Machine (gmap string OpenAI.ReqVal) (list LLmCompletionPayload)),
        OpenAI.choices response = choice :: others →
        OpenAI.choice_finish_reason choice = Some "tool_calls" →
        OpenAI.message_tool_calls (OpenAI.choice_message choice)
        = Some (before ++ bad :: after) →
        Forall2 parsesTo before parsed →
        JSON_parse (OpenAI.call_arguments bad) = None →
        ∃ s',
          OpenAI.chat self (response :: rest) model opts s
          = (Throw (InvalidJsonArgs (OpenAI.call_name bad) (OpenAI.call_arguments bad)),
             s')
          ∧ invocations s' = invocations s ++ parsed
          ∧ requests s' = requests s ++ [OpenAI.chatRequest self model (local s) opts])
    ∧ (∀ self chunk (s s1 : OpenAIState) before bad after parsed,
          OpenAI.accumulateToolCall chunk s = (Ok tt, s1) →
          closesToolCalls (finishReasonOf chunk) = true →
          OpenAI.ctx_toolCalls (local s1) = before ++ bad :: after →
          Forall2 recordParsesTo before parsed →
          JSON_parse (tc_args bad) = None →
          ∃ s',
            OpenAI.nativeChunkToLlmChunk self chunk s
            = (Throw (InvalidJsonArgs (tc_function bad) (tc_args bad)), s')
            ∧ invocations s' = invocations s ++ parsed
            ∧ requests s' = requests s)
    ∧ (∀ chunk before bad after parsed (s : GoogleState),
          Google.functionCalls chunk = Some (before ++ bad :: after) →
          Forall2 recordParsesTo (map Google.toolCallRecord before) parsed →
          JSON_parse (JSON_stringify (Google.fc_args bad)) = None →
          ∃ s',
            Google.nativeChunkToLlmChunk chunk s
            = (Throw (SyntaxError (JSON_stringify (Google.fc_args bad))), s')
            ∧ invocations s' = invocations s ++ parsed
            ∧ requests s' = requests s).
Proof.
  intros RT. split; [|split].
  - intros self response choice others before bad after parsed rest model opts s.
    apply openai_chat_arguments_invalid.
  - intros self chunk s s1 before bad after parsed.
    apply openai_tool_call_arguments_invalid.
  - intros chunk before bad after parsed s.
    apply google_function_call_arguments_invalid.
Qed.

Lemma quiet_turn_ends_with_one_final_content_witness :
  ∃ s' events,
    OpenAI.translateChunks (RT := Toy.runtime) OpenAI.OpenAIEngine
      ([Toy.contentChunk "su" None None; Toy.contentChunk "nny" None None]
       ++ [Toy.contentChunk "" (Some "stop") (Some (Toy.usageOfCounts 20 7))])
      (Toy.streamStart []) = (Ok tt, s')
    ∧ yielded s' = yielded (Toy.streamStart []) ++ events
    ∧ terminalShape events true (Some (Toy.usageOfCounts 20 7))
    ∧ length (List.filter isDoneContent events) = 1
    ∧ (length (List.filter isUsage events) <= 1)%nat.
Proof.
  apply (proj1 (quiet_turn_ends_with_one_final_content Toy.runtime)
           OpenAI.OpenAIEngine
           [Toy.contentChunk "su" None None; Toy.contentChunk "nny" None None]
           (Toy.contentChunk "" (Some "stop") (Some (Toy.usageOfCounts 20 7)))
           (Toy.streamStart [])).
  - repeat constructor.
  - split; reflexivity.
  - reflexivity.
  - reflexivity.
Defined.

Lemma aggregate_result_lists_all_tool_calls_witness :
  ∃ resp s',
    OpenAI.chat (RT := Toy.runtime) OpenAI.OpenAIEngine
      ([Toy.openaiToolHop "{}" None] ++ Toy.openaiAnswer "sunny" None :: [])
      "gpt-4o" noOpts (Toy.openaiStart []) = (Ok resp, s')
    ∧ resp_toolCalls resp
      = infosOf (RT := Toy.runtime) [] (concat [[("get_weather", JObj [])]])
    ∧ map (fun info => (info_name info, info_params info)) (resp_toolCalls resp)
      = concat [[("get_weather", JObj [])]]
    ∧ invocations s' = [] ++ concat [[("get_weather", JObj [])]].
Proof.
  apply (proj1 (aggregate_result_lists_all_tool_calls (RT := Toy.runtime))
           OpenAI.OpenAIEngine [Toy.openaiToolHop "{}" None]
           [[("get_weather", JObj [])]] (Toy.openaiAnswer "sunny" None) "sunny" []
           "gpt-4o" noOpts (Toy.openaiStart [])).
  - constructor; [|constructor].
    exists (Toy.toolChoice "{}"), [], [Toy.weatherCall "{}"].
    repeat split. constructor; [split; reflexivity|constructor].
  - repeat constructor.
  - exists (List.hd (Toy.toolChoice "") (OpenAI.choices (Toy.openaiAnswer "sunny" None))), [].
    repeat split. discriminate.
Defined.

Lemma unparsable_arguments_are_fatal_witness :
  ∃ s',
    OpenAI.chat (RT := Toy.runtime) OpenAI.OpenAIEngine
      (Toy.openaiToolHop "{oops" None :: [Toy.openaiAnswer "sunny" None])
      "gpt-4o" noOpts (Toy.openaiStart [])
    = (Throw (InvalidJsonArgs "get_weather" "{oops"), s')
    ∧ invocations s' = [] ++ []
    ∧ requests s'
      = [] ++ [OpenAI.chatRequest (RT := Toy.runtime) OpenAI.OpenAIEngine
                 "gpt-4o" [] noOpts].
Proof.
  apply (proj1 (unparsable_arguments_are_fatal Toy.runtime)
           OpenAI.OpenAIEngine (Toy.openaiToolHop "{oops" None)
           (Toy.toolChoice "{oops") [] [] (Toy.weatherCall "{oops") [] []
           [Toy.openaiAnswer "sunny" None] "gpt-4o" noOpts (Toy.openaiStart [])).
  - reflexivity.
  - reflexivity.
  - reflexivity.
  - constructor.
  - reflexivity.
Defined.

(* ===================================================================== *)
(** ** The scenarios of the specification, run on the small runtime *)
(* ===================================================================== *)

(** Scenario A: a system message and a question, no tool call. *)
Example scenario_A_google :
  returned (Google.complete (RT := Toy.runtime)
              [Toy.googleAnswer "4" (Some "STOP") None] "gemini-1.5-pro"
              Toy.thread noOpts (Toy.googleStart []))
  = Some {| resp_content := "4"; resp_toolCalls := []; resp_usage := None |}.
Proof. vm_compute. reflexivity. Qed.

(** Scenario B on Google: the two calls of the hop come back in order, and
    the usage of the two hops is summed field by field. *)
Example scenario_B_google :
  returned (Google.complete (RT := Toy.runtime)
              [Toy.googleToolHop (Some (googleCounts 10 5));
               Toy.googleAnswer "sunny" (Some "STOP") (Some (googleCounts 20 7))]
              "gemini-1.5-pro" Toy.thread Toy.tracking (Toy.googleStart []))
  = Some {| resp_content := "sunny";
            resp_toolCalls :=
              [ {| info_name := "get_weather"; info_params := JObj [];
                   info_result := JStr "result of get_weather" |};
                {| info_name := "get_weather"; info_params := JArr [];
                   info_result := JStr "result of get_weather" |} ];
            resp_usage := Some (Toy.usageOfCounts 30 12) |}.
Proof. vm_compute. reflexivity. Qed.

(** Scenario C on OpenAI: chunks with done false, false, true. *)
Example scenario_C_openai :
  yielded (OpenAI.translateChunks (RT := Toy.runtime) OpenAI.OpenAIEngine
             [Toy.contentChunk "su" None None; Toy.contentChunk "nny" None None;
              Toy.contentChunk "" (Some "stop") (Some (Toy.usageOfCounts 20 7))]
             (Toy.streamStart [])).2
  = [ContentChunk "su" false; ContentChunk "nny" false; ContentChunk "" true;
     UsageChunk (Toy.usageOfCounts 20 7)].
Proof. vm_compute. reflexivity. Qed.

(** Scenario C on Google. *)
Example scenario_C_google :
  yielded (Google.translateChunks (RT := Toy.runtime)
             [Toy.googleAnswer "su" None None; Toy.googleAnswer "nny" None None;
              Toy.googleAnswer "" (Some "STOP") (Some (googleCounts 20 7))]
             Toy.googleStreamStart).2
  = [ContentChunk "su" false; ContentChunk "nny" false; ContentChunk "" true;
     UsageChunk (Toy.usageOfCounts 20 7)].
Proof. vm_compute. reflexivity. Qed.

(** A Google chunk with function calls: the tools run, the stream switches,
    and the accumulator, which held two records with the same id while the
    tools ran, is empty again. *)
Example google_stream_switch :
  let s' := (Google.nativeChunkToLlmChunk (RT := Toy.runtime)
               (Toy.googleToolHop None) Toy.googleStreamStart).2 in
  last (yielded s') = Some (StreamChunk 0)
  ∧ invocations s' = [("get_weather", JObj []); ("get_weather", JArr [])]
  ∧ length (requests s') = 1
  ∧ Google.ctx_toolCalls (local s') = []
  ∧ map tc_id (map (Google.toolCallRecord (RT := Toy.runtime)) [Toy.lyon; Toy.paris])
    = ["get_weather"; "get_weather"].
Proof. vm_compute. repeat split. Qed.

(* ===================================================================== *)
(** ** Model listing *)
(* ===================================================================== *)

Lemma dedupe_spec names models :
  NoDup (map GoogleModels.model_name (GoogleModels.dedupe names models))
  ∧ (∀ x, x ∈ map GoogleModels.model_name (GoogleModels.dedupe names models) →
          x ∉ names)
  ∧ (∀ m, m ∈ GoogleModels.dedupe names models → m ∈ models)
  ∧ (∀ m, m ∈ models →
          GoogleModels.model_name m ∈ names
          ∨ GoogleModels.model_name m
            ∈ map GoogleModels.model_name (GoogleModels.dedupe names models)).
Proof.
  revert names. induction models as [|model rest IH]; intros names; cbn.
  - repeat split; [constructor| | |]; intros ? H; inversion H.
  - unfold GoogleModels.seen. case_bool_decide as Hseen.
    + destruct (IH names) as (Hd & Hn & Hs & Hc). repeat split; auto.
      * intros m Hm. right. auto.
      * intros m Hm. apply elem_of_cons in Hm as [->|Hm]; auto.
    + destruct (IH (names ++ [GoogleModels.model_name model])) as (Hd & Hn & Hs & Hc).
      cbn. repeat split.
      * constructor; [|exact Hd]. intros Hin. apply Hn in Hin.
        apply Hin, elem_of_app. right. apply list_elem_of_singleton. reflexivity.
      * intros x Hx. apply elem_of_cons in Hx as [->|Hx]; [exact Hseen|].
        intros Hin. apply (Hn x Hx), elem_of_app. left. exact Hin.
      * intros m Hm. apply elem_of_cons in Hm as [->|Hm]; [left|right; auto].
      * intros m Hm. apply elem_of_cons in Hm as [->|Hm].
        -- right. left.
        -- destruct (Hc m Hm) as [Hin|Hin]; [|right; right; exact Hin].
           apply elem_of_app in Hin as [Hin|Hin]; [left; exact Hin|].
           apply list_elem_of_singleton in Hin. right. rewrite Hin. left.
Qed.

Lemma collect_ok models collected :
  GoogleModels.collect models = Ok collected →
  Forall2 googleListed
    (List.filter (fun a => negb (GoogleModels.skipped a)) models) collected.
Proof.
  revert collected. induction models as [|a rest IH]; intros collected; cbn.
  - intros [= <-]. constructor.
  - destruct (GoogleModels.skipped a) eqn:Hs; cbn; [apply IH|].
    destruct (GoogleModels.api_name a) as [n|] eqn:Hn; [|discriminate].
    destruct (GoogleModels.collect rest) as [more|] eqn:Hr; [|discriminate].
    intros [= <-]. constructor; [|apply IH; reflexivity].
    split; [exact Hs|]. exists n. split; [exact Hn|reflexivity].
Qed.

Lemma collect_app_ok models1 models2 collected :
  GoogleModels.collect (models1 ++ models2) = Ok collected →
  ∃ c1 c2, GoogleModels.collect models1 = Ok c1
           ∧ GoogleModels.collect models2 = Ok c2
           ∧ collected = c1 ++ c2.
Proof.
  revert collected. induction models1 as [|a rest IH]; intros collected; cbn.
  - intros H. exists [], collected. auto.
  - destruct (GoogleModels.skipped a); [apply IH|].
    destruct (GoogleModels.api_name a) as [n|]; [|discriminate].
    destruct (GoogleModels.collect (rest ++ models2)) as [more|] eqn:Hr; [|discriminate].
    intros [= <-]. destruct (IH more eq_refl) as (c1 & c2 & -> & H2 & ->).
    eexists _, c2. repeat split. exact H2.
Qed.

Lemma collect_nameless models a :
  a ∈ models → GoogleModels.skipped a = false → GoogleModels.api_name a = None →
  GoogleModels.collect models = Throw TypeError.
Proof.
  intros Hin Hs Hn. induction models as [|b rest IH]; [inversion Hin|].
  cbn. apply elem_of_cons in Hin as [<-|Hin].
  - rewrite Hs, Hn. reflexivity.
  - rewrite (IH Hin). destruct (GoogleModels.skipped b); [reflexivity|].
    destruct (GoogleModels.api_name b); reflexivity.
Qed.

Lemma dedupe_keeps_first names before m after :
  GoogleModels.model_name m ∉ names →
  GoogleModels.model_name m ∉ map GoogleModels.model_name before →
  m ∈ GoogleModels.dedupe names (before ++ m :: after).
Proof.
  revert names. induction before as [|x before IH]; intros names Hn Hb; cbn.
  - unfold GoogleModels.seen. rewrite bool_decide_eq_false_2 by exact Hn. left.
  - cbn in Hb. apply not_elem_of_cons in Hb as [Hx Hb].
    destruct (GoogleModels.seen names (GoogleModels.model_name x)).
    + apply IH; assumption.
    + right. apply IH; [|assumption].
      intros Hin. apply elem_of_app in Hin as [Hin|Hin]; [auto|].
      apply list_elem_of_singleton in Hin. auto.
Qed.

(** X1. Whenever [getModels] of the Google adapter returns, no two entries
    of the list share a display name, every entry is the listing of an
    entry of the endpoint that passed the filter, and, with an API key, the
    display name of every entry that passed the filter is represented. *)
Theorem google_models_have_distinct_names (apiKey : option string)
    (models : list GoogleModels.ApiModel) (result : list GoogleModels.Model) :
  GoogleModels.getModels apiKey models = Ok result →
  NoDup (map GoogleModels.model_name result)
  ∧ Forall (fun m => ∃ a, a ∈ models ∧ googleListed a m) result
  ∧ (truthyOpt truthyStr apiKey = true →
     ∀ a, a ∈ models → GoogleModels.skipped a = false →
          GoogleModels.api_displayName a ∈ map GoogleModels.model_name result).
Proof.
  unfold GoogleModels.getModels.
  destruct (truthyOpt truthyStr apiKey); cbn.
  - destruct (GoogleModels.collect models) as [collected|] eqn:Hc; [|discriminate].
    intros [= <-]. apply collect_ok in Hc.
    destruct (dedupe_spec [] (rev collected)) as (Hd & _ & Hs & Hall).
    split; [exact Hd|]. split.
    + apply Forall_forall. intros m Hm. apply Hs in Hm.
      apply list_elem_of_In, in_rev, list_elem_of_In in Hm.
      apply list_elem_of_lookup in Hm as [i Hi].
      destruct (Forall2_lookup_r _ _ _ _ _ Hc Hi) as (a & Ha & Hl).
      exists a. split; [|exact Hl].
      apply list_elem_of_lookup_2, list_elem_of_In, filter_In in Ha as [Ha _].
      apply list_elem_of_In. exact Ha.
    + intros _ a Ha Hskip.
      assert (Hf : a ∈ List.filter (fun a => negb (GoogleModels.skipped a)) models).
      { apply list_elem_of_In, filter_In. split; [apply list_elem_of_In; exact Ha|].
        rewrite Hskip. reflexivity. }
      apply list_elem_of_lookup in Hf as [i Hi].
      destruct (Forall2_lookup_l _ _ _ _ _ Hc Hi) as (m & Hm & Hl).
      assert (Hin : m ∈ rev collected).
      { apply list_elem_of_In. rewrite <- in_rev. apply list_elem_of_In.
        eapply list_elem_of_lookup_2. exact Hm. }
      destruct (Hall m Hin) as [Hnil|Hin']; [inversion Hnil|].
      destruct Hl as (_ & n & _ & ->). exact Hin'.
  - intros [= <-]. split; [constructor|]. split; [constructor|]. discriminate.
Qed.

(** X2. Of several entries with one display name, [getModels] of the
    Google adapter returns the one the endpoint listed last: an entry that
    passes the filter is in the result when no later entry that passes it
    has the same display name. *)
Theorem google_models_last_listed_wins (apiKey : option string)
    (before after : list GoogleModels.ApiModel) (a : GoogleModels.ApiModel)
    (m : GoogleModels.Model) (result : list GoogleModels.Model) :
  truthyOpt truthyStr apiKey = true →
  GoogleModels.getModels apiKey (before ++ a :: after) = Ok result →
  googleListed a m →
  (∀ b, b ∈ after → GoogleModels.skipped b = false →
        GoogleModels.api_displayName b ≠ GoogleModels.api_displayName a) →
  m ∈ result.
Proof.
  intros Hkey Hget Hl Hlater. unfold GoogleModels.getModels in Hget.
  rewrite Hkey in Hget. cbn in Hget.
  destruct (GoogleModels.collect (before ++ a :: after)) as [collected|] eqn:Hc;
    [|discriminate].
  injection Hget as <-.
  apply collect_app_ok in Hc as (c1 & c2 & _ & H2 & ->).
  destruct Hl as (Hskip & n & Hn & ->).
  cbn in H2. rewrite Hskip, Hn in H2.
  destruct (GoogleModels.collect after) as [ca|] eqn:Ha; [|discriminate].
  injection H2 as <-. apply collect_ok in Ha.
  rewrite rev_app_distr. cbn. rewrite <- app_assoc. cbn.
  apply dedupe_keeps_first; cbn; [apply not_elem_of_nil|].
  intros Hin. apply list_elem_of_In, in_map_iff in Hin as (x & Hx & Hin).
  apply in_rev, list_elem_of_In in Hin.
  apply list_elem_of_lookup in Hin as [i Hi].
  destruct (Forall2_lookup_r _ _ _ _ _ Ha Hi) as (b & Hb & Hlb).
  apply list_elem_of_lookup_2, list_elem_of_In, filter_In in Hb as [Hb Hsb].
  destruct Hlb as (Hskipb & nb & _ & ->). cbn in Hx.
  apply (Hlater b); [apply list_elem_of_In; exact Hb|exact Hskipb|].
  exact Hx.
Qed.

(** X3. [getModels] of the Google adapter has no error handler: one entry
    of the endpoint that passes the filter but has no name makes the whole
    listing fail, whatever the other entries are. *)
Theorem google_models_nameless_entry_fails (apiKey : option string)
    (models : list GoogleModels.ApiModel) (a : GoogleModels.ApiModel) :
  truthyOpt truthyStr apiKey = true →
  a ∈ models → GoogleModels.skipped a = false → GoogleModels.api_name a = None →
  GoogleModels.getModels apiKey models = Throw TypeError.
Proof.
  intros Hkey Hin Hs Hn. unfold GoogleModels.getModels.
  rewrite Hkey. cbn. rewrite (collect_nameless models a Hin Hs Hn). reflexivity.
Qed.

Lemma beforeDash_input input rest :
  dashFree input = true →
  OpenRouter.beforeDash (input ++ String (Ascii.ascii_of_nat 45) rest) = input.
Proof.
  induction input as [|c input IH]; intros H; [reflexivity|].
  cbn [dashFree] in H. apply andb_true_iff in H as [Hc H].
  change (OpenRouter.beforeDash (String c input +:+ String (Ascii.ascii_of_nat 45) rest))
    with (if Ascii.eqb c (Ascii.ascii_of_nat 45) then EmptyString
          else String c (OpenRouter.beforeDash
                           (input +:+ String (Ascii.ascii_of_nat 45) rest))).
  destruct (Ascii.eqb c (Ascii.ascii_of_nat 45)); [discriminate Hc|].
  rewrite (IH H). reflexivity.
Qed.

Lemma listsImages_modalityModel id input output :
  dashFree input = true →
  OpenRouter.listsImages (modalityModel id input output) = includes input "+image".
Proof.
  intros H. unfold OpenRouter.listsImages, modalityModel. cbn -[includes].
  change ("->" ++ output)%string with (String (Ascii.ascii_of_nat 45) (">" ++ output)).
  rewrite (beforeDash_input _ _ H). reflexivity.
Qed.

(** X4. [filterVisionModels] of the OpenRouter adapter reads the input side
    of the modality only: a model whose modality is [input->output] is
    listed exactly when [input] names [+image], so the output modalities
    never make a model a vision model; the ids come out in the order of the
    models. *)
Theorem openrouter_vision_models_by_input (id input output1 output2 : string)
    (rest : list OpenRouter.Model) :
  dashFree input = true →
  OpenRouter.filterVisionModels (modalityModel id input output1 :: rest)
  = (if includes input "+image" then [id] else [])
    ++ OpenRouter.filterVisionModels rest
  ∧ OpenRouter.filterVisionModels (modalityModel id input output1 :: rest)
    = OpenRouter.filterVisionModels (modalityModel id input output2 :: rest)
  ∧ sublist (OpenRouter.filterVisionModels rest) (map OpenRouter.model_id rest).
Proof.
  intros H. unfold OpenRouter.filterVisionModels. cbn [List.filter].
  rewrite !(listsImages_modalityModel _ _ _ H).
  split; [destruct (includes input "+image"); reflexivity|].
  split; [destruct (includes input "+image"); reflexivity|].
  induction rest as [|m rest IH]; cbn; [constructor|].
  destruct (OpenRouter.listsImages m); cbn; [apply sublist_skip|apply sublist_cons];
    exact IH.
Qed.

Lemma google_models_have_distinct_names_witness :
  ∃ result,
    GoogleModels.getModels (Some "key") Sample.endpoint = Ok result
    ∧ map GoogleModels.model_id result = ["gemini-1.5-pro-latest"]
    ∧ NoDup (map GoogleModels.model_name result)
    ∧ Forall (fun m => ∃ a, a ∈ Sample.endpoint ∧ googleListed a m) result
    ∧ (truthyOpt truthyStr (Some "key") = true →
       ∀ a, a ∈ Sample.endpoint → GoogleModels.skipped a = false →
            GoogleModels.api_displayName a ∈ map GoogleModels.model_name result).
Proof.
  eexists. split; [vm_compute; reflexivity|]. split; [reflexivity|].
  apply (google_models_have_distinct_names (Some "key") Sample.endpoint).
  reflexivity.
Defined.

Lemma google_models_last_listed_wins_witness :
  {| GoogleModels.model_id := "gemini-1.5-pro-latest";
     GoogleModels.model_name := Some "Gemini 1.5 Pro";
     GoogleModels.model_meta :=
       Sample.apiModel "models/gemini-1.5-pro-latest" "Gemini 1.5 Pro" None |}
  ∈ [ {| GoogleModels.model_id := "gemini-1.5-pro-latest";
         GoogleModels.model_name := Some "Gemini 1.5 Pro";
         GoogleModels.model_meta :=
           Sample.apiModel "models/gemini-1.5-pro-latest" "Gemini 1.5 Pro" None |} ].
Proof.
  apply (google_models_last_listed_wins (Some "key")
           (take 2 Sample.endpoint) (drop 3 Sample.endpoint)
           (Sample.apiModel "models/gemini-1.5-pro-latest" "Gemini 1.5 Pro" None)).
  - reflexivity.
  - vm_compute. reflexivity.
  - split; [reflexivity|]. eexists. split; reflexivity.
  - intros b Hb Hs. apply list_elem_of_singleton in Hb. subst b. discriminate.
Defined.

Lemma google_models_nameless_entry_fails_witness :
  GoogleModels.getModels (Some "key") (Sample.endpoint ++ [Sample.nameless])
  = Throw TypeError.
Proof.
  apply (google_models_nameless_entry_fails (Some "key")
           (Sample.endpoint ++ [Sample.nameless]) Sample.nameless).
  - reflexivity.
  - apply elem_of_app. right. left.
  - reflexivity.
  - reflexivity.
Defined.

Lemma openrouter_vision_models_by_input_witness :
  OpenRouter.filterVisionModels [modalityModel "painter" "text" "text+image"] = []
  ∧ OpenRouter.filterVisionModels [modalityModel "reader" "text+image" "text"]
    = ["reader"].
Proof.
  split.
  - apply (proj1 (openrouter_vision_models_by_input "painter" "text" "text+image"
                    "text" [] eq_refl)).
  - apply (proj1 (openrouter_vision_models_by_input "reader" "text+image" "text"
                    "text" [] eq_refl)).
Defined.

(* ===================================================================== *)
(** ** The thread and the logs only grow *)
(* ===================================================================== *)

Section Growth.
Context {RT : Runtime} {Req Local T : Type} (threadOf : Local → list T).

Lemma grows_refl (s : Machine Req Local) : grows threadOf s s.
Proof. repeat split; reflexivity. Qed.

Lemma grows_trans (s1 s2 s3 : Machine Req Local) :
  grows threadOf s1 s2 → grows threadOf s2 s3 → grows threadOf s1 s3.
Proof.
  intros (H1 & H2 & H3 & H4) (K1 & K2 & K3 & K4).
  repeat split; etrans; eassumption.
Qed.

Lemma growing_ret {A} (a : A) : @growing Req Local T A threadOf (ret a).
Proof. intros s. apply grows_refl. Qed.

Lemma growing_throw {A} e : @growing Req Local T A threadOf (throw e).
Proof. intros s. apply grows_refl. Qed.

Lemma growing_getLocal : growing threadOf (@getLocal Req Local).
Proof. intros s. apply grows_refl. Qed.

Lemma growing_bind {A B} (m : M (Machine Req Local) A) (k : A → M (Machine Req Local) B) :
  growing threadOf m → (∀ a, growing threadOf (k a)) → growing threadOf (bind m k).
Proof.
  intros Hm Hk s. unfold bind. pose proof (Hm s) as H.
  destruct (m s) as [[a|e] s1]; cbn in H |- *; [|exact H].
  eapply grows_trans; [exact H|apply Hk].
Qed.

Lemma growing_modifyLocal (f : Local → Local) :
  (∀ c, threadOf c `prefix_of` threadOf (f c)) →
  growing threadOf (@modifyLocal Req Local f).
Proof. intros H s. repeat split; cbn; [apply H|reflexivity..]. Qed.

Lemma growing_yield c : growing threadOf (@yield Req Local c).
Proof.
  intros s. repeat split; cbn; try reflexivity. apply prefix_app_r. reflexivity.
Qed.

Lemma growing_issue r : growing threadOf (@issue Req Local r).
Proof.
  intros s. repeat split; cbn; try reflexivity. apply prefix_app_r. reflexivity.
Qed.

Lemma growing_callTool n a : growing threadOf (@callTool Req Local RT n a).
Proof.
  intros s. repeat split; cbn; try reflexivity. apply prefix_app_r. reflexivity.
Qed.

Lemma growing_forEach {A} (l : list A) (body : A → M (Machine Req Local) unit) :
  (∀ x, growing threadOf (body x)) → growing threadOf (forEach l body).
Proof.
  intros H. induction l as [|x l IH]; cbn [forEach].
  - apply growing_ret.
  - apply growing_bind; [apply H|intros _; exact IH].
Qed.

End Growth.

(** Takes a computation apart down to the operations on the state. *)
Ltac growing_step :=
  lazymatch goal with
  | |- growing _ (bind _ _) => apply growing_bind; [|intros ?]
  | |- growing _ (ret _) => apply growing_ret
  | |- growing _ (throw _) => apply growing_throw
  | |- growing _ getLocal => apply growing_getLocal
  | |- growing _ (modifyLocal _) =>
      apply growing_modifyLocal; intros ?; cbn;
      first [reflexivity | apply prefix_app_r; reflexivity]
  | |- growing _ (yield _) => apply growing_yield
  | |- growing _ (issue _) => apply growing_issue
  | |- growing _ (callTool _ _) => apply growing_callTool
  | |- growing _ (forEach _ _) => apply growing_forEach; intros ?
  | |- growing _ (match ?x with _ => _ end) => destruct x
  end.

Section GrowthOfTheAdapters.
Context {RT : Runtime}.

Lemma openai_cumulateUsage_growing {Req Local T} (threadOf : Local → list T) ru cu :
  growing threadOf (@OpenAI.cumulateUsage (Machine Req Local) ru cu).
Proof.
  intros s. rewrite openai_cumulateUsage_state. apply grows_refl.
Qed.

Lemma openai_chatToolCalls_growing toolCalls :
  growing id (OpenAI.chatToolCalls toolCalls).
Proof.
  induction toolCalls as [|toolCall toolCalls IH]; cbn [OpenAI.chatToolCalls].
  - apply growing_ret.
  - apply growing_bind; [|intros info; apply growing_bind;
                           [exact IH|intros; apply growing_ret]].
    unfold OpenAI.chatToolCall, OpenAI.parseArgs. repeat growing_step.
Qed.

Lemma openai_chat_growing self script model opts :
  growing id (OpenAI.chat self script model opts).
Proof.
  induction script as [|response script IH]; cbn [OpenAI.chat]; cbv zeta;
    repeat growing_step;
    first [ apply openai_chatToolCalls_growing | exact IH
          | apply openai_cumulateUsage_growing ].
Qed.

Lemma google_chatToolCalls_growing toolCalls :
  growing id (Google.chatToolCalls toolCalls).
Proof.
  induction toolCalls as [|toolCall toolCalls IH]; cbn [Google.chatToolCalls];
    repeat growing_step; exact IH.
Qed.

Lemma google_chat_growing script modelName opts :
  growing id (Google.chat script modelName opts).
Proof.
  induction script as [|response script IH]; cbn [Google.chat]; cbv zeta;
    unfold Google.firstCandidateParts; repeat growing_step;
    first [ apply google_chatToolCalls_growing | exact IH ].
Qed.

Lemma openai_nativeChunk_growing self chunk :
  growing OpenAI.ctx_thread (OpenAI.nativeChunkToLlmChunk self chunk).
Proof.
  unfold OpenAI.nativeChunkToLlmChunk, OpenAI.accumulateToolCall, OpenAI.doStream,
    OpenAI.streamToolCall, OpenAI.parseArgs; cbv zeta.
  repeat growing_step.
Qed.

Lemma google_streamToolCalls_growing toolCalls :
  growing Google.ctx_content (Google.streamToolCalls toolCalls).
Proof.
  induction toolCalls as [|toolCall toolCalls IH]; cbn [Google.streamToolCalls];
    repeat growing_step; exact IH.
Qed.

Lemma google_nativeChunk_growing chunk :
  growing Google.ctx_content (Google.nativeChunkToLlmChunk chunk).
Proof.
  unfold Google.nativeChunkToLlmChunk, Google.saveToolCalls, Google.doStream,
    Google.firstCandidateParts; cbv zeta.
  repeat growing_step; apply google_streamToolCalls_growing.
Qed.

End GrowthOfTheAdapters.

(** X5. A call never takes back what it wrote, whatever its outcome,
    exceptions included: [chat] of both adapters leaves the thread array it
    was given as a prefix of the thread it ends with, the chunk translation
    of both adapters does the same with the thread of the streaming
    context, and the requests issued, the tools invoked and the events
    yielded before the call are a prefix of those after it. *)
Theorem thread_is_append_only :
  ∀ (RT : Runtime),
    (∀ self script model opts
       (s : Machine (gmap string OpenAI.ReqVal) (list LLmCompletionPayload)),
        grows id s (OpenAI.chat self script model opts s).2)
    ∧ (∀ script modelName opts (s : Machine Google.Request (list Google.Content)),
          grows id s (Google.chat script modelName opts s).2)
    ∧ (∀ self chunks (s : OpenAIState),
          grows OpenAI.ctx_thread s (OpenAI.translateChunks self chunks s).2)
    ∧ (∀ chunks (s : GoogleState),
          grows Google.ctx_content s (Google.translateChunks chunks s).2).
Proof.
  intros RT. split; [|split; [|split]].
  - intros self script model opts. apply openai_chat_growing.
  - intros script modelName opts. apply google_chat_growing.
  - intros self chunks. apply growing_forEach. intros chunk.
    apply openai_nativeChunk_growing.
  - intros chunks. apply growing_forEach. intros chunk.
    apply google_nativeChunk_growing.
Qed.

(* ===================================================================== *)
(** ** The requests and the thread of a turn *)
(* ===================================================================== *)

Section TurnTrace.
Context {RT : Runtime}.

Lemma openai_chatToolCalls_trace toolCalls infos
    (s s' : Machine (gmap string OpenAI.ReqVal) (list LLmCompletionPayload)) :
  OpenAI.chatToolCalls toolCalls s = (Ok infos, s') →
  ∃ parsed,
    Forall2 parsesTo toolCalls parsed
    ∧ invocations s' = invocations s ++ parsed
    ∧ requests s' = requests s
    ∧ local s'
      = local s ++ openaiToolResponses toolCalls (toolResults (invocations s) parsed).
Proof.
  revert s infos s'. induction toolCalls as [|toolCall toolCalls IH]; intros s infos s'.
  - cbn. intros [= <- <-]. exists []. rewrite !app_nil_r. repeat split. constructor.
  - cbn [OpenAI.chatToolCalls]. unfold bind at 1.
    unfold OpenAI.chatToolCall at 1. unfold OpenAI.parseArgs.
    destruct (JSON_parse (OpenAI.call_arguments toolCall)) as [args|] eqn:Hp;
      run_monad; [|discriminate].
    match goal with |- context [OpenAI.chatToolCalls toolCalls ?s1] =>
      destruct (OpenAI.chatToolCalls toolCalls s1) as [[more|e] s2] eqn:E end;
      [|discriminate].
    intros [= <- <-]. destruct (IH _ _ _ E) as (parsed & HF & Hi & Hr & Hl).
    exists ((OpenAI.call_name toolCall, args) :: parsed). cbn in Hi, Hr, Hl.
    split; [|split; [|split]].
    + constructor; [split; [reflexivity|exact Hp]|exact HF].
    + rewrite Hi, <- app_assoc. reflexivity.
    + exact Hr.
    + rewrite Hl, <- app_assoc. reflexivity.
Qed.

Lemma last_turn_threads {A} (x y : A) (l : list A) :
  last l = Some y → last (x :: l) = Some y.
Proof. destruct l; [discriminate|]. intros H. exact H. Qed.

Lemma openai_chat_trace self script model opts resp
    (s s' : Machine (gmap string OpenAI.ReqVal) (list LLmCompletionPayload)) :
  OpenAI.chat self script model opts s = (Ok resp, s') →
  ∃ hops parsed final text rest,
    script = hops ++ final :: rest
    ∧ Forall2 openaiHopAnnounces hops parsed
    ∧ openaiTerminal final text
    ∧ requests s'
      = requests s
        ++ map (fun thread => OpenAI.chatRequest self model thread opts)
             (openaiTurnThreads (invocations s) (local s) hops parsed)
    ∧ last (openaiTurnThreads (invocations s) (local s) hops parsed) = Some (local s').
Proof.
  revert s resp s'. induction script as [|response script IH]; intros s resp s'.
  - cbn. run_monad. discriminate.
  - cbn [OpenAI.chat]. run_monad.
    destruct (OpenAI.choices response) as [|choice others] eqn:Ec; cbn; [discriminate|].
    destruct (bool_decide (OpenAI.choice_finish_reason choice = Some "tool_calls")) eqn:Hr.
    + apply bool_decide_eq_true in Hr.
      destruct (OpenAI.message_tool_calls (OpenAI.choice_message choice))
        as [toolCalls|] eqn:Etc; [|discriminate].
      match goal with |- context [OpenAI.chatToolCalls toolCalls ?s1] =>
        destruct (OpenAI.chatToolCalls toolCalls s1) as [[infos|e] s2] eqn:E1 end;
        [|discriminate].
      destruct (OpenAI.chat self script model opts s2) as [[completion|e] s3] eqn:E2;
        [|discriminate].
      destruct (openai_chatToolCalls_trace _ _ _ _ E1) as (calls & HF & Hi & Hq & Hl).
      destruct (IH _ _ _ E2)
        as (hops & parsed & final & text & rest & -> & HFh & Hfin & Hreq & Hlast).
      cbn in Hi, Hq, Hl. intros Eres.
      assert (Hres : s' = s3).
      { destruct (OpenAI.completion_usage response) as [ru|],
          (resp_usage completion) as [cu|]; try destruct (usageOn opts);
          cbn in Eres; try (injection Eres as <- <-; reflexivity).
        pose proof (openai_cumulateUsage_state ru cu s3) as Hst.
        destruct (OpenAI.cumulateUsage ru cu s3) as [[u|e] s4]; cbn in Hst, Eres;
          [|discriminate]. injection Eres as <- <-. exact Hst. }
      subst s'.
      assert (Hthread : local s2
                        = local s ++ openaiHopMessages response
                                       (toolResults (invocations s) calls)).
      { rewrite Hl. unfold openaiHopMessages. rewrite Ec. cbn. rewrite Etc. cbn.
        rewrite <- app_assoc. reflexivity. }
      exists (response :: hops), (calls :: parsed), final, text, rest.
      split; [reflexivity|]. split.
      { constructor; [|exact HFh]. exists choice, others, toolCalls. repeat split; assumption. }
      split; [exact Hfin|]. cbn [openaiTurnThreads map].
      rewrite <- Hthread, <- Hi. split.
      * rewrite Hreq, Hq, <- app_assoc. reflexivity.
      * apply last_turn_threads. exact Hlast.
    + apply bool_decide_eq_false in Hr. intros [= <- <-].
      exists [], [], response,
        (orEmpty (OpenAI.message_content (OpenAI.choice_message choice))), script.
      cbn. repeat split; [constructor|]. exists choice, others. repeat split; assumption.
Qed.

Lemma google_chatToolCalls_results toolCalls
    (s : Machine Google.Request (list Google.Content)) :
  Google.chatToolCalls toolCalls s
  = (Ok (googleResponseParts (googleCalls toolCalls)
           (toolResults (invocations s) (googleCalls toolCalls)),
         infosOf (invocations s) (googleCalls toolCalls)),
     {| local := local s; requests := requests s;
        invocations := invocations s ++ googleCalls toolCalls;
        yielded := yielded s |}).
Proof.
  revert s. induction toolCalls as [|toolCall toolCalls IH]; intros s.
  - cbn. unfold ret. rewrite app_nil_r. destruct s; reflexivity.
  - cbn [Google.chatToolCalls]. run_monad. rewrite IH. cbn.
    rewrite infosOf_cons, <- app_assoc. reflexivity.
Qed.

Local Arguments Google.chatToolCalls : simpl never.
Local Arguments googleCalls : simpl never.

Lemma google_chat_trace script modelName opts resp
    (s s' : Machine Google.Request (list Google.Content)) :
  Google.chat script modelName opts s = (Ok resp, s') →
  ∃ hops calls final rest,
    script = hops ++ final :: rest
    ∧ Forall2 googleHopAnnounces hops calls
    ∧ googleTerminal final
    ∧ requests s'
      = requests s
        ++ map (googleChatRequest modelName opts)
             (googleTurnThreads (invocations s) (local s) hops calls)
    ∧ last (googleTurnThreads (invocations s) (local s) hops calls) = Some (local s').
Proof.
  revert s resp s'. induction script as [|response script IH]; intros s resp s'.
  - cbn. run_monad. destruct (local s); discriminate.
  - cbn [Google.chat]. run_monad.
    destruct (local s) as [|first thread] eqn:El; [discriminate|]. cbn.
    destruct (Google.functionCalls response) as [[|toolCall toolCalls]|] eqn:Efc.
    + intros [= <- <-]. exists [], [], response, script. cbn. rewrite El.
      repeat split; [constructor|]. right. exact Efc.
    + rewrite google_chatToolCalls_results.
      unfold Google.firstCandidateParts.
      destruct (Google.candidates response) as [[|candidate others]|] eqn:Ecand;
        run_monad; try discriminate.
      match goal with |- context [Google.chat script modelName opts ?s2] =>
        destruct (Google.chat script modelName opts s2) as [[completion|e] s3] eqn:E2 end;
        [|discriminate].
      destruct (IH _ _ _ E2)
        as (hops & calls & final & rest & -> & HFh & Hfin & Hreq & Hlast).
      cbn in Hreq, Hlast. intros [= <- <-].
      exists (response :: hops), (googleCalls (toolCall :: toolCalls) :: calls), final, rest.
      split; [reflexivity|]. split.
      { constructor; [|exact HFh]. exists (toolCall :: toolCalls), candidate, others.
        repeat split; [exact Efc | discriminate | exact Ecand]. }
      split; [exact Hfin|]. cbn [googleTurnThreads map].
      unfold googleHopContents. rewrite Ecand, Efc.
      fold (googleCalls (toolCall :: toolCalls)).
      rewrite El in Hreq, Hlast.
      rewrite <- (app_assoc _ [_] [_]) in Hreq, Hlast. split.
      * rewrite Hreq, <- app_assoc. reflexivity.
      * apply last_turn_threads. exact Hlast.
    + intros [= <- <-]. exists [], [], response, script. cbn. rewrite El.
      repeat split; [constructor|]. left. exact Efc.
Qed.

Lemma length_openaiTurnThreads history thread hops parsed :
  length hops = length parsed →
  length (openaiTurnThreads history thread hops parsed) = S (length hops).
Proof.
  revert history thread parsed. induction hops as [|hop hops IH];
    intros history thread [|calls parsed]; cbn; try discriminate; [reflexivity|].
  intros [= H]. rewrite (IH _ _ _ H). reflexivity.
Qed.

Lemma length_googleTurnThreads history thread hops calls :
  length hops = length calls →
  length (googleTurnThreads history thread hops calls) = S (length hops).
Proof.
  revert history thread calls. induction hops as [|hop hops IH];
    intros history thread [|called calls]; cbn; try discriminate; [reflexivity|].
  intros [= H]. rewrite (IH _ _ _ H). reflexivity.
Qed.

End TurnTrace.

(** X6. Whenever [chat] of the OpenAI adapter returns, the backend was
    asked once per tool hop and once for the final answer; every request
    was built for the same model and options and carries the whole thread
    so far: the thread the call started from, then after each hop the
    assistant message of the hop followed by one tool response per call
    under the id of the call. The thread the call leaves behind is the one
    of its last request. *)
Theorem openai_chat_resends_the_growing_thread :
  ∀ (RT : Runtime) self script model opts resp
    (s s' : Machine (gmap string OpenAI.ReqVal) (list LLmCompletionPayload)),
    OpenAI.chat self script model opts s = (Ok resp, s') →
    ∃ hops parsed final text rest,
      script = hops ++ final :: rest
      ∧ Forall2 openaiHopAnnounces hops parsed
      ∧ openaiTerminal final text
      ∧ requests s'
        = requests s
          ++ map (fun thread => OpenAI.chatRequest self model thread opts)
               (openaiTurnThreads (invocations s) (local s) hops parsed)
      ∧ length (requests s') = length (requests s) + S (length hops)
      ∧ last (openaiTurnThreads (invocations s) (local s) hops parsed)
        = Some (local s').
Proof.
  intros RT self script model opts resp s s' E.
  destruct (openai_chat_trace self script model opts resp s s' E)
    as (hops & parsed & final & text & rest & Es & HF & Hfin & Hreq & Hlast).
  exists hops, parsed, final, text, rest. repeat split; try assumption.
  rewrite Hreq, length_app, length_map, length_openaiTurnThreads; [reflexivity|].
  eapply Forall2_length. exact HF.
Qed.

(** X7. The same for [chat] of the Google adapter: one request per tool hop
    and one for the final answer, none of them streamed and none with a
    system instruction; after each hop the thread holds the parts that
    announced the calls, under the role [assistant], and the function
    responses, under the role [tool]. *)
Theorem google_chat_resends_the_growing_thread :
  ∀ (RT : Runtime) script modelName opts resp
    (s s' : Machine Google.Request (list Google.Content)),
    Google.chat script modelName opts s = (Ok resp, s') →
    ∃ hops calls final rest,
      script = hops ++ final :: rest
      ∧ Forall2 googleHopAnnounces hops calls
      ∧ googleTerminal final
      ∧ requests s'
        = requests s
          ++ map (googleChatRequest modelName opts)
               (googleTurnThreads (invocations s) (local s) hops calls)
      ∧ length (requests s') = length (requests s) + S (length hops)
      ∧ last (googleTurnThreads (invocations s) (local s) hops calls)
        = Some (local s')
      ∧ Forall (fun request =>
                  Google.systemInstruction (Google.req_model request) = None
                  ∧ Google.req_stream request = false)
          (drop (length (requests s)) (requests s')).
Proof.
  intros RT script modelName opts resp s s' E.
  destruct (google_chat_trace script modelName opts resp s s' E)
    as (hops & calls & final & rest & Es & HF & Hfin & Hreq & Hlast).
  exists hops, calls, final, rest. repeat split; try assumption.
  - rewrite Hreq, length_app, length_map, length_googleTurnThreads; [reflexivity|].
    eapply Forall2_length. exact HF.
  - rewrite Hreq, drop_app_length. apply Forall_forall. intros request Hin.
    apply list_elem_of_In, in_map_iff in Hin as (thread & <- & _). cbn.
    destruct (Google.supportsInstructions modelName); split; reflexivity.
Qed.

Lemma openai_chat_resends_the_growing_thread_witness :
  ∃ resp s',
    OpenAI.chat (RT := Toy.runtime) OpenAI.OpenAIEngine
      [Toy.openaiToolHop "{}" None; Toy.openaiAnswer "sunny" None]
      "gpt-4o" noOpts (Toy.openaiStart []) = (Ok resp, s')
    ∧ ∃ hops parsed final text rest,
        [Toy.openaiToolHop "{}" None; Toy.openaiAnswer "sunny" None]
        = hops ++ final :: rest
        ∧ Forall2 (openaiHopAnnounces (RT := Toy.runtime)) hops parsed
        ∧ openaiTerminal final text
        ∧ requests s'
          = requests (Toy.openaiStart [])
            ++ map (fun thread =>
                      OpenAI.chatRequest (RT := Toy.runtime) OpenAI.OpenAIEngine
                        "gpt-4o" thread noOpts)
                 (openaiTurnThreads (RT := Toy.runtime)
                    (invocations (Toy.openaiStart [])) (local (Toy.openaiStart []))
                    hops parsed)
        ∧ length (requests s') = length (requests (Toy.openaiStart [])) + S (length hops)
        ∧ last (openaiTurnThreads (RT := Toy.runtime)
                  (invocations (Toy.openaiStart [])) (local (Toy.openaiStart []))
                  hops parsed)
          = Some (local s').
Proof.
  eexists _, _. split; [vm_compute; reflexivity|].
  eapply (openai_chat_resends_the_growing_thread Toy.runtime OpenAI.OpenAIEngine
            [Toy.openaiToolHop "{}" None; Toy.openaiAnswer "sunny" None]
            "gpt-4o" noOpts _ (Toy.openaiStart [])).
  vm_compute. reflexivity.
Defined.

Lemma google_chat_resends_the_growing_thread_witness :
  ∃ resp s',
    Google.chat (RT := Toy.runtime)
      [Toy.googleToolHop None; Toy.googleAnswer "sunny" (Some "STOP") None]
      "gemini-1.5-pro" noOpts
      (Toy.googleStart
         (Google.threadToHistory (RT := Toy.runtime) Toy.thread "gemini-1.5-pro" noOpts))
    = (Ok resp, s')
    ∧ map Google.content_role (local s') = ["user"; "assistant"; "tool"]
    ∧ ∃ hops calls final rest,
        [Toy.googleToolHop None; Toy.googleAnswer "sunny" (Some "STOP") None]
        = hops ++ final :: rest
        ∧ Forall2 googleHopAnnounces hops calls
        ∧ googleTerminal final
        ∧ requests s'
          = [] ++ map (googleChatRequest (RT := Toy.runtime) "gemini-1.5-pro" noOpts)
                    (googleTurnThreads (RT := Toy.runtime) []
                       (Google.threadToHistory (RT := Toy.runtime) Toy.thread
                          "gemini-1.5-pro" noOpts)
                       hops calls)
        ∧ length (requests s') = 0 + S (length hops)
        ∧ last (googleTurnThreads (RT := Toy.runtime) []
                  (Google.threadToHistory (RT := Toy.runtime) Toy.thread "gemini-1.5-pro" noOpts)
                  hops calls)
          = Some (local s')
        ∧ Forall (fun request =>
                    Google.systemInstruction (Google.req_model request) = None
                    ∧ Google.req_stream request = false)
            (drop 0 (requests s')).
Proof.
  eexists _, _. split; [vm_compute; reflexivity|]. split; [reflexivity|].
  eapply (google_chat_resends_the_growing_thread Toy.runtime
            [Toy.googleToolHop None; Toy.googleAnswer "sunny" (Some "STOP") None]
            "gemini-1.5-pro" noOpts _
            (Toy.googleStart
               (Google.threadToHistory (RT := Toy.runtime) Toy.thread
                  "gemini-1.5-pro" noOpts))).
  vm_compute. reflexivity.
Defined.

(* ===================================================================== *)
(** ** Usage of a turn *)
(* ===================================================================== *)

Section TurnUsage.
Context {RT : Runtime}.

Lemma dropTotal_total u :
  truthyOpt truthyNumber (total_tokens (OpenAI.dropTotal u)) = false.
Proof.
  unfold OpenAI.dropTotal.
  destruct (truthyOpt truthyNumber (total_tokens u)) eqn:E; [reflexivity|exact E].
Qed.

Lemma openai_cumulateUsage_total {S} ru cu u (s s' : S) :
  OpenAI.cumulateUsage ru cu s = (Ok u, s') → total_tokens u = total_tokens cu.
Proof.
  unfold OpenAI.cumulateUsage, bind.
  repeat match goal with
         | |- context [OpenAI.addDetail ?v ?m ?g ?st ?s0] =>
             destruct (OpenAI.addDetail v m g st s0) as [[?|?] ?]
         end; cbn; intros H; inversion H; reflexivity.
Qed.

Lemma openai_chat_usage self script model opts resp
    (s s' : Machine (gmap string OpenAI.ReqVal) (list LLmCompletionPayload)) :
  OpenAI.chat self script model opts s = (Ok resp, s') →
  (usageOn opts = false → resp_usage resp = None)
  ∧ ∀ u, resp_usage resp = Some u → truthyOpt truthyNumber (total_tokens u) = false.
Proof.
  revert s resp s'. induction script as [|response script IH]; intros s resp s'.
  - cbn. run_monad. discriminate.
  - cbn [OpenAI.chat]. run_monad.
    destruct (OpenAI.choices response) as [|choice others] eqn:Ec; cbn; [discriminate|].
    destruct (bool_decide (OpenAI.choice_finish_reason choice = Some "tool_calls")).
    + destruct (OpenAI.message_tool_calls (OpenAI.choice_message choice))
        as [toolCalls|]; [|discriminate].
      match goal with |- context [OpenAI.chatToolCalls toolCalls ?s1] =>
        destruct (OpenAI.chatToolCalls toolCalls s1) as [[infos|e] s2] end;
        [|discriminate].
      destruct (OpenAI.chat self script model opts s2) as [[completion|e] s3] eqn:E2;
        [|discriminate].
      destruct (IH _ _ _ E2) as [Hoff Htot].
      destruct (OpenAI.completion_usage response) as [ru|],
        (resp_usage completion) as [cu|] eqn:Ecu; cbn.
      * destruct (usageOn opts) eqn:Hon; cbn.
        -- destruct (OpenAI.cumulateUsage ru cu s3) as [[u|e] s4] eqn:Eu; cbn;
             [|discriminate]. intros [= <- <-]. cbn. split; [discriminate|].
           intros u' [= <-]. rewrite (openai_cumulateUsage_total _ _ _ _ _ Eu).
           apply Htot. reflexivity.
        -- discriminate (Hoff eq_refl).
      * intros [= <- <-]. cbn. split; [reflexivity|discriminate].
      * intros [= <- <-]. cbn. split; [exact Hoff|exact Htot].
      * intros [= <- <-]. cbn. split; [reflexivity|discriminate].
    + intros [= <- <-]. cbn. destruct (usageOn opts); [|split; [reflexivity|discriminate]].
      split; [discriminate|]. intros u.
      destruct (OpenAI.completion_usage response); cbn; [|discriminate].
      intros [= <-]. apply dropTotal_total.
Qed.

Local Arguments Google.chatToolCalls : simpl never.

Lemma google_chat_usage script modelName opts resp
    (s s' : Machine Google.Request (list Google.Content)) :
  Google.chat script modelName opts s = (Ok resp, s') →
  (usageOn opts = false → resp_usage resp = None)
  ∧ ∀ u, resp_usage resp = Some u →
         total_tokens u = None ∧ prompt_tokens_details u = None
         ∧ completion_tokens_details u = None.
Proof.
  revert s resp s'. induction script as [|response script IH]; intros s resp s'.
  - cbn. run_monad. destruct (local s); discriminate.
  - cbn [Google.chat]. run_monad.
    destruct (local s) as [|first thread] eqn:El; [discriminate|]. cbn.
    assert (Hterm : ∀ r : LlmResponse,
               r = {| resp_content := Google.text response; resp_toolCalls := [];
                      resp_usage := if usageOn opts
                                    then Google.usageOf <$> Google.usageMetadata response
                                    else None |} →
               (usageOn opts = false → resp_usage r = None)
               ∧ ∀ u, resp_usage r = Some u →
                      total_tokens u = None ∧ prompt_tokens_details u = None
                      ∧ completion_tokens_details u = None).
    { intros r ->. cbn. destruct (usageOn opts); [|split; [reflexivity|discriminate]].
      split; [discriminate|]. intros u.
      destruct (Google.usageMetadata response); cbn; [|discriminate].
      intros [= <-]. repeat split. }
    destruct (Google.functionCalls response) as [[|toolCall toolCalls]|] eqn:Efc.
    + intros [= <- <-]. apply Hterm. reflexivity.
    + match goal with |- context [Google.chatToolCalls ?l ?s1] =>
        rewrite (google_chatToolCalls_results l s1) end.
      unfold Google.firstCandidateParts.
      destruct (Google.candidates response) as [[|candidate others]|];
        run_monad; try discriminate.
      match goal with |- context [Google.chat script modelName opts ?s2] =>
        destruct (Google.chat script modelName opts s2) as [[completion|e] s3] eqn:E2 end;
        [|discriminate].
      destruct (IH _ _ _ E2) as [Hoff Htot]. intros [= <- <-]. cbn.
      destruct (Google.usageMetadata response) as [m|],
        (resp_usage completion) as [cu|] eqn:Ecu; cbn.
      * destruct (usageOn opts) eqn:Hon; [|discriminate (Hoff eq_refl)].
        split; [discriminate|]. intros u [= <-]. cbn. apply Htot. reflexivity.
      * split; [reflexivity|discriminate].
      * split; [exact Hoff|exact Htot].
      * split; [reflexivity|discriminate].
    + intros [= <- <-]. apply Hterm. reflexivity.
Qed.

End TurnUsage.

(** X8. The usage of a turn is reported only when asked for: with usage
    tracking off, [chat] of both adapters returns no usage, whatever the
    hops report. The usage the OpenAI [chat] returns never holds a total
    that counts as set (the total of the backend is not part of the
    result); the usage the Google [chat] returns holds the two counters
    only. *)
Theorem usage_is_reported_only_when_tracked :
  ∀ (RT : Runtime),
    (∀ self script model opts resp
       (s s' : Machine (gmap string OpenAI.ReqVal) (list LLmCompletionPayload)),
        OpenAI.chat self script model opts s = (Ok resp, s') →
        (usageOn opts = false → resp_usage resp = None)
        ∧ ∀ u, resp_usage resp = Some u →
               truthyOpt truthyNumber (total_tokens u) = false)
    ∧ (∀ script modelName opts resp
         (s s' : Machine Google.Request (list Google.Content)),
          Google.chat script modelName opts s = (Ok resp, s') →
          (usageOn opts = false → resp_usage resp = None)
          ∧ ∀ u, resp_usage resp = Some u →
                 total_tokens u = None ∧ prompt_tokens_details u = None
                 ∧ completion_tokens_details u = None).
Proof.
  intros RT. split.
  - intros self script model opts resp s s'. apply openai_chat_usage.
  - intros script modelName opts resp s s'. apply google_chat_usage.
Qed.

(* ===================================================================== *)
(** ** What a request holds *)
(* ===================================================================== *)

Section RequestKeys.
Context {RT : Runtime} (self : OpenAI.Engine).

Lemma completionOpts_custom model opts (k : string) v :
  customValue opts k = Some v → OpenAI.getCompletionOpts model opts !! k = Some v.
Proof.
  intros H. unfold OpenAI.getCompletionOpts. cbv zeta.
  rewrite lookup_spread, lookup_custom, H. reflexivity.
Qed.

Lemma functionCallingOptions_tools model opts :
  toolsInjected (OpenAIAdapter self) model opts = true →
  OpenAI.getFunctionCallingOptions self model opts !! "tools"
  = Some (OpenAI.RTools availableTools)
  ∧ OpenAI.getFunctionCallingOptions self model opts !! "tool_choice"
    = Some (OpenAI.RJson (JStr "auto")).
Proof.
  unfold toolsInjected, OpenAI.getFunctionCallingOptions.
  repeat match goal with |- context [if ?b then _ else _] => destruct b end;
    intros H; try (by simplify_map_eq);
    apply bool_decide_eq_true in H; destruct H as [x H]; by simplify_map_eq.
Qed.

Lemma completionOpts_numeric model opts o v :
  truthyNum v = true → numericSupported model o = true →
  customValue opts (numericKey o) = None →
  OpenAI.getCompletionOpts model (setNumeric o (Some v) opts) !! numericKey o
  = Some (OpenAI.RJson (JNum v)).
Proof.
  intros Hv Hs Hc. unfold OpenAI.getCompletionOpts. cbv zeta.
  rewrite !lookup_spread, lookup_custom.
  assert (Hc' : customValue (setNumeric o (Some v) opts) (numericKey o) = None)
    by (destruct o; exact Hc).
  rewrite Hc'. clear Hc Hc'.
  destruct o; cbn in Hs |- *; rewrite ?Hs, ?Hv; cbn;
    repeat first
      [ rewrite lookup_numField_other by (intros; by simplify_map_eq)
      | rewrite lookup_strField_other by (intros; by simplify_map_eq) ];
    by simplify_map_eq.
Qed.

End RequestKeys.

(** X9. What wins under a key of an OpenAI request. A streaming request
    always asks for a stream and states whether usage is wanted, whatever
    the custom options say. Apart from the two tool keys, a key of the
    custom options reaches the [chat] request with its custom value, also
    when the key is [model] or [messages]; without such custom keys the
    request holds the model and the thread it was built for. When the
    adapter injects the tools, the tool keys hold the registered tools and
    the choice [auto]. *)
Theorem openai_request_key_precedence :
  ∀ (RT : Runtime) (self : OpenAI.Engine),
    (∀ context,
        OpenAI.streamRequest self context !! "stream" = Some (OpenAI.RJson (JBool true))
        ∧ OpenAI.streamRequest self context !! "stream_options"
          = Some (OpenAI.RJson
                    (JObj [("include_usage",
                            JBool (usageOn (OpenAI.ctx_opts context)))])))
    ∧ (∀ model thread opts (k : string) v,
          customValue opts k = Some v → k ≠ "tools" → k ≠ "tool_choice" →
          OpenAI.chatRequest self model thread opts !! k = Some v)
    ∧ (∀ model thread opts,
          customValue opts "model" = None → customValue opts "messages" = None →
          OpenAI.chatRequest self model thread opts !! "model"
          = Some (OpenAI.RJson (JStr model))
          ∧ OpenAI.chatRequest self model thread opts !! "messages"
            = Some (OpenAI.RMessages thread))
    ∧ (∀ model thread opts,
          toolsInjected (OpenAIAdapter self) model opts = true →
          OpenAI.chatRequest self model thread opts !! "tools"
          = Some (OpenAI.RTools availableTools)
          ∧ OpenAI.chatRequest self model thread opts !! "tool_choice"
            = Some (OpenAI.RJson (JStr "auto"))).
Proof.
  intros RT self. split; [|split; [|split]].
  - intros context. unfold OpenAI.streamRequest. rewrite !lookup_spread.
    split; by simplify_map_eq.
  - intros model thread opts k v Hc H1 H2. unfold OpenAI.chatRequest.
    rewrite !lookup_spread, lookup_functionCallingOptions by assumption.
    rewrite (completionOpts_custom model opts k v Hc). reflexivity.
  - intros model thread opts Hm Ht. unfold OpenAI.chatRequest.
    rewrite !lookup_spread, !lookup_functionCallingOptions by discriminate.
    unfold OpenAI.getCompletionOpts. cbv zeta.
    rewrite !lookup_spread, !lookup_custom, Hm, Ht.
    repeat first
      [ rewrite lookup_numField_other by (intros; by simplify_map_eq)
      | rewrite lookup_strField_other by (intros; by simplify_map_eq) ].
    split; by simplify_map_eq.
  - intros model thread opts H. unfold OpenAI.chatRequest.
    rewrite !lookup_spread.
    destruct (functionCallingOptions_tools self model opts H) as [-> ->].
    split; reflexivity.
Qed.

(** X10. A numeric option that is set and not zero reaches the backend.
    On the Google adapter, which has no capability gate, the generation
    config exists and holds the value in the field of the option. On the
    OpenAI adapter the request of [chat] and the streaming request hold it
    under the key of the option, provided the model supports the option and
    the custom options do not name the key. *)
Theorem nonzero_numeric_option_is_sent (RT : Runtime) (o : NumericOption) (v : Q)
    (opts : LlmCompletionOpts) :
  truthyNum v = true →
  (∃ config,
      Google.getGenerationConfig (setNumeric o (Some v) opts) = Some config
      ∧ googleField o config = Some v)
  ∧ (∀ self model thread,
        numericSupported model o = true →
        customValue opts (numericKey o) = None →
        OpenAI.chatRequest self model thread (setNumeric o (Some v) opts) !! numericKey o
        = Some (OpenAI.RJson (JNum v)))
  ∧ (∀ self (context : OpenAI.OpenAIStreamingContext),
        numericSupported (OpenAI.ctx_model context) o = true →
        OpenAI.ctx_opts context = setNumeric o (Some v) opts →
        customValue opts (numericKey o) = None →
        OpenAI.streamRequest self context !! numericKey o
        = Some (OpenAI.RJson (JNum v))).
Proof.
  intros Hv. split; [|split].
  - unfold Google.getGenerationConfig. cbv zeta.
    destruct o; cbn; rewrite Hv;
      repeat match goal with
             | |- context [Google.ifTruthy ?x] => destruct (Google.ifTruthy x)
             end;
      eexists; split; reflexivity.
  - intros self model thread Hs Hc. unfold OpenAI.chatRequest.
    rewrite !lookup_spread.
    rewrite lookup_functionCallingOptions by (destruct o; discriminate).
    rewrite (completionOpts_numeric model opts o v Hv Hs Hc). reflexivity.
  - intros self context Hs Ho Hc. unfold OpenAI.streamRequest.
    rewrite !lookup_spread.
    rewrite lookup_insert_ne, lookup_singleton_ne by (destruct o; discriminate).
    rewrite lookup_functionCallingOptions by (destruct o; discriminate).
    rewrite Ho, (completionOpts_numeric _ opts o v Hv Hs Hc). reflexivity.
Qed.

Lemma nonzero_numeric_option_is_sent_witness :
  (∃ config,
      Google.getGenerationConfig (setNumeric NTemperature (Some (7 # 10)) noOpts)
      = Some config
      ∧ googleField NTemperature config = Some (7 # 10))
  ∧ OpenAI.chatRequest (RT := Toy.runtime) OpenAI.OpenAIEngine "gpt-4o" []
      (setNumeric NTemperature (Some (7 # 10)) noOpts) !! "temperature"
    = Some (OpenAI.RJson (JNum (7 # 10))).
Proof.
  destruct (nonzero_numeric_option_is_sent Toy.runtime NTemperature (7 # 10) noOpts
              eq_refl) as (Hg & Hc & _).
  split; [exact Hg|].
  apply (Hc OpenAI.OpenAIEngine "gpt-4o" []); reflexivity.
Defined.

(* ===================================================================== *)
(** ** Further chunks of the OpenAI stream *)
(* ===================================================================== *)

Section OpenAIChunks.
Context {RT : Runtime} (self : OpenAI.Engine).

Lemma openai_usage_only_chunk chunk (s : OpenAIState) :
  OpenAI.chunk_choices chunk = [] →
  OpenAI.nativeChunkToLlmChunk self chunk s
  = (Ok tt, withEvents s (openaiUsageEvents (local s) chunk)).
Proof.
  intros Ec. unfold OpenAI.nativeChunkToLlmChunk, OpenAI.accumulateToolCall,
    openaiUsageEvents.
  rewrite Ec. cbn [head chain orEmpty]. run_monad.
  change (list_includes ["tool_calls"; "function_call"; "stop"] "") with false.
  change (list_includes ["stop"; "length"; "content_filter"; "eos"] "") with false.
  cbn. unfold withEvents.
  destruct (OpenAI.chunk_usage chunk) as [u|]; cbn;
    [destruct (usageOn _ && OpenAI.ctx_done _); cbn|];
    rewrite ?app_nil_r; destruct s; reflexivity.
Qed.

Lemma firstToolCall_inv chunk tool_call :
  firstToolCall chunk = Some tool_call →
  ∃ others,
    head (OpenAI.chunk_choices chunk) ?. OpenAI.delta ?. OpenAI.delta_tool_calls
    = Some (tool_call :: others).
Proof.
  unfold firstToolCall.
  destruct (head (OpenAI.chunk_choices chunk) ?. OpenAI.delta ?. OpenAI.delta_tool_calls)
    as [[|first others]|]; cbn; try discriminate.
  intros [= ->]. exists others. reflexivity.
Qed.

Lemma openai_orphan_fragment chunk tool_call piece (s : OpenAIState) :
  firstToolCall chunk = Some tool_call →
  isFragment tool_call piece →
  OpenAI.ctx_toolCalls (local s) = [] →
  OpenAI.nativeChunkToLlmChunk self chunk s = (Throw TypeError, s).
Proof.
  intros Hf (Hid & fn & Hfn & _) Hnil.
  destruct (firstToolCall_inv chunk tool_call Hf) as [others E].
  unfold OpenAI.nativeChunkToLlmChunk, OpenAI.accumulateToolCall.
  rewrite E, Hfn, Hid. run_monad. rewrite Hnil. reflexivity.
Qed.

Lemma cut_off_reasons reason :
  reason ∈ ["length"; "content_filter"; "eos"] →
  endsContent reason = true ∧ closesToolCalls reason = false.
Proof.
  intros H. set_unfold. destruct H as [->|[->|[->|[]]]]; split; reflexivity.
Qed.

Lemma openai_cut_off_chunk chunk (s : OpenAIState) :
  toolCallDelta chunk = None →
  finishReasonOf chunk ∈ ["length"; "content_filter"; "eos"] →
  ∃ events,
    OpenAI.nativeChunkToLlmChunk self chunk s
    = (Ok tt, {| local := OpenAI.set_done true (local s); requests := requests s;
                 invocations := invocations s;
                 yielded := yielded s ++ events |})
    ∧ terminalShape events (usageOn (OpenAI.ctx_opts (local s)))
        (OpenAI.chunk_usage chunk).
Proof.
  intros Hd Hr. destruct (cut_off_reasons _ Hr) as [He Hcl].
  pose proof (endsContent_has_choice chunk He) as Hc.
  unfold OpenAI.nativeChunkToLlmChunk.
  unfold bind at 1. rewrite (accumulate_without_delta chunk s Hd).
  unfold endsContent, closesToolCalls, finishReasonOf in He, Hcl.
  run_monad. rewrite Hcl, He. cbn.
  destruct (OpenAI.chunk_choices chunk) as [|choice others] eqn:Ech; [congruence|].
  cbn. rewrite orb_true_r.
  set (reasoning := truthyOpt truthyStr _).
  destruct reasoning; cbn; rewrite andb_true_r;
    destruct (OpenAI.chunk_usage chunk) as [u|];
    try destruct (usageOn (OpenAI.ctx_opts (local s))) eqn:Eu; cbn;
    (eexists; split; [rewrite <- ?app_assoc; reflexivity|]);
    unfold terminalShape.
  all: try (eexists [ReasoningChunk _ true], _, [UsageChunk u];
            split; [reflexivity|]; split; [repeat constructor|];
            right; split; [reflexivity|]; exists u; split; reflexivity).
  all: try (eexists [ReasoningChunk _ true], _, [];
            split; [reflexivity|]; split; [repeat constructor|];
            left; reflexivity).
  all: try (eexists [], _, [UsageChunk u];
            split; [reflexivity|]; split; [repeat constructor|];
            right; split; [reflexivity|]; exists u; split; reflexivity).
  all: try (eexists [], _, [];
            split; [reflexivity|]; split; [repeat constructor|];
            left; reflexivity).
Qed.

Lemma toolDeltaChunk_first chunk tool_call :
  toolDeltaChunk chunk tool_call →
  head (OpenAI.chunk_choices chunk) ?. OpenAI.delta ?. OpenAI.delta_tool_calls
  = Some [tool_call].
Proof.
  intros (choice & others & d & Ec & Ed & Et & _). rewrite Ec. cbn.
  rewrite Ed. cbn. exact Et.
Qed.

(** A chunk that only brings a tool-call delta is translated by the
    accumulation alone. *)
Lemma nativeChunk_toolDelta chunk tool_call (s : OpenAIState) :
  toolDeltaChunk chunk tool_call →
  OpenAI.nativeChunkToLlmChunk self chunk s = OpenAI.accumulateToolCall chunk s.
Proof.
  intros (choice & others & d & Ec & Ed & Et & Hcontent & Hreasoning & Hcl & He & Hu).
  unfold OpenAI.nativeChunkToLlmChunk. unfold bind at 1.
  destruct (OpenAI.accumulateToolCall chunk s) as [[[]|e] s1]; [|reflexivity].
  unfold closesToolCalls, endsContent, finishReasonOf in Hcl, He.
  run_monad. rewrite Hcl, He, Hu, Ec. cbn. rewrite Ed. cbn.
  rewrite Hcontent, Hreasoning. cbn. reflexivity.
Qed.

Lemma existsb_id_absent id (l : list LlmToolCall) :
  id ∉ map tc_id l → existsb (fun tc => String.eqb (tc_id tc) id) l = false.
Proof.
  induction l as [|tc l IH]; cbn; [reflexivity|].
  intros H. apply not_elem_of_cons in H as [Hne H]. rewrite (IH H), orb_false_r.
  apply String.eqb_neq. congruence.
Qed.

Lemma setLast_snoc {A} (x y : A) l : OpenAI.setLast x (l ++ [y]) = l ++ [x].
Proof. unfold OpenAI.setLast. rewrite removelast_last. reflexivity. Qed.

Lemma accumulate_opening chunk id index fnName a0 (s : OpenAIState) :
  toolDeltaChunk chunk
    {| tcm_id := Some id; tcm_index := index;
       tcm_function := Some {| fn_name := fnName; fn_arguments := a0 |} |} →
  truthyStr id = true →
  id ∉ map tc_id (OpenAI.ctx_toolCalls (local s)) →
  OpenAI.accumulateToolCall chunk s
  = (Ok tt,
     {| local := OpenAI.set_toolCalls
                   (OpenAI.ctx_toolCalls (local s)
                    ++ [pendingCall id fnName (orEmpty a0) a0]) (local s);
        requests := requests s; invocations := invocations s;
        yielded := yielded s
                   ++ [ToolStatusChunk (orEmpty fnName)
                         (getToolPreparationDescription (orEmpty fnName))] |}).
Proof.
  intros Hchunk Hid Hnew. unfold OpenAI.accumulateToolCall.
  rewrite (toolDeltaChunk_first _ _ Hchunk). cbn [tcm_function tcm_id truthyOpt].
  rewrite Hid. run_monad. rewrite (existsb_id_absent _ _ Hnew). reflexivity.
Qed.

Local Arguments OpenAI.setLast : simpl never.

Lemma accumulate_fragment chunk piece pending id fnName args shown (s : OpenAIState) :
  fragmentChunk chunk piece →
  OpenAI.ctx_toolCalls (local s) = pending ++ [pendingCall id fnName args shown] →
  OpenAI.accumulateToolCall chunk s
  = (Ok tt,
     {| local := OpenAI.set_toolCalls
                   (pending ++ [pendingCall id fnName (appendJs args piece)
                                  (Some (appendJs args piece))]) (local s);
        requests := requests s; invocations := invocations s;
        yielded := yielded s |}).
Proof.
  intros (tool_call & Hchunk & Hid & fn & Hfn & Hpiece) Htc.
  unfold OpenAI.accumulateToolCall.
  rewrite (toolDeltaChunk_first _ _ Hchunk), Hfn, Hid. run_monad.
  rewrite Htc, last_snoc. cbn. rewrite Htc, !setLast_snoc, Hpiece.
  reflexivity.
Qed.

Lemma openai_fragments fragments pieces pending id fnName args shown (s : OpenAIState) :
  Forall2 fragmentChunk fragments pieces →
  OpenAI.ctx_toolCalls (local s) = pending ++ [pendingCall id fnName args shown] →
  OpenAI.translateChunks self fragments s
  = (Ok tt,
     {| local := OpenAI.set_toolCalls
                   (pending
                    ++ [pendingCall id fnName (foldl appendJs args pieces)
                          (match pieces with
                           | [] => shown
                           | _ :: _ => Some (foldl appendJs args pieces)
                           end)]) (local s);
        requests := requests s; invocations := invocations s;
        yielded := yielded s |}).
Proof.
  intros HF. revert args shown s.
  induction HF as [|chunk piece fragments pieces Hchunk HF IH]; intros args shown s Htc.
  - cbn. unfold ret. rewrite <- Htc. destruct s as [[] ? ? ?]; reflexivity.
  - unfold OpenAI.translateChunks in IH |- *. cbn [forEach]. unfold bind.
    destruct Hchunk as (tool_call & Hchunk & Hfrag).
    rewrite (nativeChunk_toolDelta _ _ _ Hchunk).
    rewrite (accumulate_fragment chunk piece pending id fnName args shown s
               (ex_intro _ tool_call (conj Hchunk Hfrag)) Htc).
    rewrite (IH (appendJs args piece) (Some (appendJs args piece))) by reflexivity.
    cbn. destruct pieces; reflexivity.
Qed.

Lemma openai_streamToolCalls_events toolCalls parsed (s : OpenAIState) :
  Forall2 recordParsesTo toolCalls parsed →
  yielded (forEach toolCalls OpenAI.streamToolCall s).2
  = yielded s
    ++ concat (zip_with openaiCallEvents parsed (toolResults (invocations s) parsed)).
Proof.
  intros HF. revert s.
  induction HF as [|toolCall [n a] toolCalls parsed [Hn Hp] HF IH]; intros s.
  - cbn. rewrite app_nil_r. reflexivity.
  - cbn in Hn, Hp. subst n. cbn [forEach]. unfold bind at 1.
    unfold OpenAI.streamToolCall at 1. unfold OpenAI.parseArgs.
    rewrite Hp. run_monad. rewrite IH. cbn. rewrite <- !app_assoc. reflexivity.
Qed.

Lemma openai_closing_events chunk (s s1 : OpenAIState) parsed :
  OpenAI.accumulateToolCall chunk s = (Ok tt, s1) →
  closesToolCalls (finishReasonOf chunk) = true →
  OpenAI.ctx_toolCalls (local s1) ≠ [] →
  Forall2 recordParsesTo (OpenAI.ctx_toolCalls (local s1)) parsed →
  yielded (OpenAI.nativeChunkToLlmChunk self chunk s).2
  = yielded s1
    ++ concat (zip_with openaiCallEvents parsed (toolResults (invocations s) parsed))
    ++ [StreamChunk (length (requests s))].
Proof.
  intros E Hc Hne HF.
  pose proof (accumulate_frame chunk s) as Hframe. rewrite E in Hframe.
  cbn in Hframe. destruct Hframe as (_ & _ & _ & _ & Hr & Hi & _).
  pose proof (openai_streamToolCalls_events _ _ s1 HF) as Hev.
  destruct (openai_streamToolCalls_ok (OpenAI.ctx_toolCalls (local s1)) parsed s1 HF)
    as (ev2 & E2 & _).
  rewrite E2 in Hev. cbn in Hev.
  unfold OpenAI.nativeChunkToLlmChunk. unfold bind at 1. rewrite E.
  unfold getLocal, gets. unfold bind at 1.
  unfold closesToolCalls, finishReasonOf in Hc.
  rewrite Hc, (nonempty_length _ Hne). cbn [andb].
  unfold bind at 1. rewrite E2. run_monad.
  rewrite Hev, Hi, Hr, <- !app_assoc. reflexivity.
Qed.

End OpenAIChunks.

Section GoogleChunks.
Context {RT : Runtime}.

Lemma google_streamToolCalls_events records parsed (s : GoogleState) :
  Forall2 recordParsesTo records parsed →
  yielded (Google.streamToolCalls records s).2
  = yielded s
    ++ concat (zip_with googleCallEvents parsed (toolResults (invocations s) parsed)).
Proof.
  intros HF. revert s.
  induction HF as [|record [n a] records parsed [Hn Hp] HF IH]; intros s.
  - cbn. rewrite app_nil_r. reflexivity.
  - cbn in Hn, Hp. subst n. cbn [Google.streamToolCalls]. rewrite Hp. run_monad.
    match goal with |- context [Google.streamToolCalls records ?s1] =>
      pose proof (IH s1) as Hev;
      destruct (google_streamToolCalls_ok records parsed s1 HF) as (events & E & _)
    end.
    rewrite E in Hev |- *. cbn in Hev |- *. rewrite Hev, <- !app_assoc. reflexivity.
Qed.

Lemma google_closing_events chunk calls candidate others parsed (s : GoogleState) :
  Google.functionCalls chunk = Some calls →
  calls ≠ [] →
  Google.candidates chunk = Some (candidate :: others) →
  Forall2 recordParsesTo (map Google.toolCallRecord calls) parsed →
  yielded (Google.nativeChunkToLlmChunk chunk s).2
  = yielded s
    ++ concat (zip_with googleCallEvents parsed (toolResults (invocations s) parsed))
    ++ [StreamChunk (length (requests s))].
Proof.
  intros Efc Hne Ecand HF.
  unfold Google.nativeChunkToLlmChunk. rewrite Efc.
  destruct calls as [|toolCall toolCalls]; [congruence|].
  unfold Google.saveToolCalls. unfold modifyLocal, modify, getLocal, gets.
  unfold bind at 1. unfold bind at 1. cbn [local Google.ctx_toolCalls Google.set_toolCalls].
  unfold bind at 1.
  match goal with |- context [Google.streamToolCalls _ ?s1] =>
    pose proof (google_streamToolCalls_events _ parsed s1 HF) as Hev;
    destruct (google_streamToolCalls_ok _ parsed s1 HF) as (events & E & _)
  end.
  rewrite E in Hev |- *. cbn in Hev.
  unfold Google.firstCandidateParts. rewrite Ecand. run_monad.
  rewrite Hev, <- !app_assoc. reflexivity.
Qed.

End GoogleChunks.

(** X11. On the OpenAI stream, the arguments of a tool call that arrive in
    pieces are put together in order: after the chunk that opens the call
    (an id not seen in this backend call) and any number of fragments
    without id, the accumulator holds one more record, whose arguments are
    the opening arguments followed by the pieces (a fragment without
    arguments adds the text [undefined]); once a fragment arrived, the
    announcement kept for the thread shows the same arguments. Only the
    opening chunk yields an event, the preparation status of the tool; no
    request is issued and no tool runs. *)
Theorem openai_argument_fragments_are_concatenated :
  ∀ (RT : Runtime) self opening fragments pieces id index fnName a0 (s : OpenAIState),
    toolDeltaChunk opening
      {| tcm_id := Some id; tcm_index := index;
         tcm_function := Some {| fn_name := fnName; fn_arguments := a0 |} |} →
    truthyStr id = true →
    id ∉ map tc_id (OpenAI.ctx_toolCalls (local s)) →
    Forall2 fragmentChunk fragments pieces →
    OpenAI.translateChunks self (opening :: fragments) s
    = (Ok tt,
       {| local := OpenAI.set_toolCalls
                     (OpenAI.ctx_toolCalls (local s)
                      ++ [pendingCall id fnName (foldl appendJs (orEmpty a0) pieces)
                            (match pieces with
                             | [] => a0
                             | _ :: _ => Some (foldl appendJs (orEmpty a0) pieces)
                             end)]) (local s);
          requests := requests s; invocations := invocations s;
          yielded := yielded s
                     ++ [ToolStatusChunk (orEmpty fnName)
                           (getToolPreparationDescription (orEmpty fnName))] |}).
Proof.
  intros RT self opening fragments pieces id index fnName a0 s Hopen Hid Hnew HF.
  unfold OpenAI.translateChunks. cbn [forEach]. unfold bind.
  rewrite (nativeChunk_toolDelta _ _ _ _ Hopen).
  rewrite (accumulate_opening _ _ _ _ _ _ Hopen Hid Hnew).
  fold (OpenAI.translateChunks self fragments).
  rewrite (openai_fragments self fragments pieces (OpenAI.ctx_toolCalls (local s))
             id fnName (orEmpty a0) a0 _ HF) by reflexivity.
  reflexivity.
Qed.

(** X12. A fragment without id that arrives while the accumulator is empty
    has no record to extend: the translation of the chunk fails with a type
    error and leaves the state as it was. *)
Theorem openai_fragment_without_open_call_fails :
  ∀ (RT : Runtime) self chunk tool_call piece (s : OpenAIState),
    firstToolCall chunk = Some tool_call →
    isFragment tool_call piece →
    OpenAI.ctx_toolCalls (local s) = [] →
    OpenAI.nativeChunkToLlmChunk self chunk s = (Throw TypeError, s).
Proof. intros RT. apply openai_orphan_fragment. Qed.

(** X13. A turn the backend cuts off never runs the pending tool calls:
    on a chunk whose finish reason is [length], [content_filter] or [eos]
    the OpenAI chunk translation yields the final content event, marks the
    context done and leaves the accumulator, the thread, the requests and
    the tool invocations as they were, whatever the accumulator holds. *)
Theorem openai_cut_off_turn_runs_no_tool :
  ∀ (RT : Runtime) self chunk (s : OpenAIState),
    toolCallDelta chunk = None →
    finishReasonOf chunk ∈ ["length"; "content_filter"; "eos"] →
    ∃ events,
      OpenAI.nativeChunkToLlmChunk self chunk s
      = (Ok tt, {| local := OpenAI.set_done true (local s); requests := requests s;
                   invocations := invocations s;
                   yielded := yielded s ++ events |})
      ∧ terminalShape events (usageOn (OpenAI.ctx_opts (local s)))
          (OpenAI.chunk_usage chunk).
Proof. intros RT. apply openai_cut_off_chunk. Qed.

(** X14. A chunk without choices, the form in which the OpenAI backend
    sends the usage after the finish signal, changes nothing but the
    events: it yields the usage it carries when usage tracking is on and
    the finish signal was seen on this context before, and nothing
    otherwise. *)
Theorem openai_usage_chunk_after_the_finish :
  ∀ (RT : Runtime) self chunk (s : OpenAIState),
    OpenAI.chunk_choices chunk = [] →
    OpenAI.nativeChunkToLlmChunk self chunk s
    = (Ok tt, withEvents s (openaiUsageEvents (local s) chunk)).
Proof. intros RT. apply openai_usage_only_chunk. Qed.

(** X15. The events of the tool calls come in the order of the calls. On
    the Google stream a chunk with function calls yields, per call, the
    preparation status, the running status and the result, and then the
    switch to the new stream. On the OpenAI stream the chunk that closes
    the tool calls yields, after what its own delta yields, the running
    status and the result per call, and then the switch. *)
Theorem tool_events_follow_the_calls :
  ∀ (RT : Runtime),
    (∀ chunk calls candidate others parsed (s : GoogleState),
        Google.functionCalls chunk = Some calls →
        calls ≠ [] →
        Google.candidates chunk = Some (candidate :: others) →
        Forall2 recordParsesTo (map Google.toolCallRecord calls) parsed →
        yielded (Google.nativeChunkToLlmChunk chunk s).2
        = yielded s
          ++ concat (zip_with googleCallEvents parsed
                       (toolResults (invocations s) parsed))
          ++ [StreamChunk (length (requests s))])
    ∧ (∀ self chunk (s s1 : OpenAIState) parsed,
          OpenAI.accumulateToolCall chunk s = (Ok tt, s1) →
          closesToolCalls (finishReasonOf chunk) = true →
          OpenAI.ctx_toolCalls (local s1) ≠ [] →
          Forall2 recordParsesTo (OpenAI.ctx_toolCalls (local s1)) parsed →
          yielded (OpenAI.nativeChunkToLlmChunk self chunk s).2
          = yielded s1
            ++ concat (zip_with openaiCallEvents parsed
                         (toolResults (invocations s) parsed))
            ++ [StreamChunk (length (requests s))]).
Proof.
  intros RT. split.
  - intros chunk calls candidate others parsed s. apply google_closing_events.
  - intros self chunk s s1 parsed. apply openai_closing_events.
Qed.

Lemma openai_argument_fragments_are_concatenated_witness :
  OpenAI.translateChunks (RT := Toy.runtime) OpenAI.OpenAIEngine
    (Sample.toolDelta (Some "call_1") (Some "get_weather") (Some "")
     :: [Sample.toolDelta None None (Some "{"); Sample.toolDelta None None (Some "}")])
    (Toy.streamStart [])
  = (Ok tt,
     {| local := OpenAI.set_toolCalls
                   ([] ++ [pendingCall "call_1" (Some "get_weather") "{}" (Some "{}")])
                   (local (Toy.streamStart []));
        requests := []; invocations := [];
        yielded := [] ++ [ToolStatusChunk "get_weather" "preparing get_weather"] |}).
Proof.
  apply (openai_argument_fragments_are_concatenated Toy.runtime OpenAI.OpenAIEngine
           (Sample.toolDelta (Some "call_1") (Some "get_weather") (Some ""))
           [Sample.toolDelta None None (Some "{"); Sample.toolDelta None None (Some "}")]
           [Some "{"; Some "}"] "call_1" (Some 0%nat) (Some "get_weather") (Some "")
           (Toy.streamStart [])).
  - eexists _, _, _. repeat split.
  - reflexivity.
  - apply not_elem_of_nil.
  - repeat constructor; eexists; (split; [eexists _, _, _; repeat split|]);
      (split; [reflexivity|]); eexists; split; reflexivity.
Defined.

Lemma openai_fragment_without_open_call_fails_witness :
  OpenAI.nativeChunkToLlmChunk (RT := Toy.runtime) OpenAI.OpenAIEngine
    (Sample.toolDelta None None (Some "{")) (Toy.streamStart [])
  = (Throw TypeError, Toy.streamStart []).
Proof.
  eapply (openai_fragment_without_open_call_fails Toy.runtime OpenAI.OpenAIEngine
            (Sample.toolDelta None None (Some "{")) _ (Some "{") (Toy.streamStart [])).
  - reflexivity.
  - split; [reflexivity|]. eexists. split; reflexivity.
  - reflexivity.
Defined.

Lemma openai_cut_off_turn_runs_no_tool_witness :
  ∃ events,
    OpenAI.nativeChunkToLlmChunk (RT := Toy.runtime) OpenAI.OpenAIEngine
      (Toy.contentChunk "" (Some "length") None)
      (Toy.streamStart [Toy.weatherRecord "{}"])
    = (Ok tt,
       {| local := OpenAI.set_done true (local (Toy.streamStart [Toy.weatherRecord "{}"]));
          requests := []; invocations := []; yielded := [] ++ events |})
    ∧ terminalShape events true None.
Proof.
  apply (openai_cut_off_turn_runs_no_tool Toy.runtime OpenAI.OpenAIEngine
           (Toy.contentChunk "" (Some "length") None)
           (Toy.streamStart [Toy.weatherRecord "{}"])).
  - reflexivity.
  - set_solver.
Defined.

Lemma openai_usage_chunk_after_the_finish_witness :
  OpenAI.nativeChunkToLlmChunk (RT := Toy.runtime) OpenAI.OpenAIEngine
    (Sample.usageOnly (Toy.usageOfCounts 20 7)) Sample.finished
  = (Ok tt, withEvents Sample.finished [UsageChunk (Toy.usageOfCounts 20 7)]).
Proof.
  apply (openai_usage_chunk_after_the_finish Toy.runtime OpenAI.OpenAIEngine
           (Sample.usageOnly (Toy.usageOfCounts 20 7)) Sample.finished).
  reflexivity.
Defined.

Lemma tool_events_follow_the_calls_witness :
  yielded (Google.nativeChunkToLlmChunk (RT := Toy.runtime)
             (Toy.googleToolHop None) Toy.googleStreamStart).2
  = [] ++ concat (zip_with (googleCallEvents (RT := Toy.runtime))
                    [("get_weather", JObj []); ("get_weather", JArr [])]
                    (toolResults (RT := Toy.runtime) []
                       [("get_weather", JObj []); ("get_weather", JArr [])]))
       ++ [StreamChunk 0].
Proof.
  eapply (proj1 (tool_events_follow_the_calls Toy.runtime) (Toy.googleToolHop None)
            [Toy.lyon; Toy.paris] _ [] _ Toy.googleStreamStart).
  - reflexivity.
  - discriminate.
  - reflexivity.
  - repeat constructor.
Defined.

(* ===================================================================== *)
(** ** The first message, the declarations, the models without system role *)
(* ===================================================================== *)

Section Instructions.
Context {RT : Runtime}.

Lemma google_history_skips_the_first first first' rest model opts :
  Google.supportsInstructions model = true →
  Google.threadToHistory (first :: rest) model opts
  = Google.threadToHistory (first' :: rest) model opts.
Proof. intros H. unfold Google.threadToHistory. rewrite H. reflexivity. Qed.

Lemma truthyStr_nonempty t : truthyStr t = true ↔ t ≠ "".
Proof.
  unfold truthyStr. destruct (String.eqb_spec t ""); cbn; split; congruence.
Qed.

Lemma declEntry_follows paramSchema :
  entryFollows paramSchema (Google.declEntry paramSchema).
Proof.
  unfold entryFollows, Google.declEntry.
  destruct (bool_decide _ || bool_decide _) eqn:Harray; cbn.
  - split; [reflexivity|]. split.
    { apply orb_true_iff in Harray as [H|H]; apply bool_decide_eq_true in H; auto. }
    split; [reflexivity|]. split; [reflexivity|].
    destruct (param_items paramSchema ?. items_type) as [t|]; cbn.
    + destruct (truthyStr t) eqn:E.
      * apply truthyStr_nonempty in E. split; [exact E|]. split.
        -- intros t' [= <-] _. reflexivity.
        -- intros [H|[= ->]]; [discriminate|congruence].
      * split; [discriminate|]. split.
        -- intros t' [= <-] Hne. apply truthyStr_nonempty in Hne. congruence.
        -- reflexivity.
    + split; [discriminate|]. split; [discriminate|reflexivity].
  - split; [reflexivity|].
    apply orb_false_iff in Harray as [H1 H2].
    apply bool_decide_eq_false in H1, H2. split; [exact H1|]. split; [|reflexivity].
    destruct (param_items paramSchema); [|reflexivity]. destruct H2. eexists. reflexivity.
Qed.

Lemma functionDeclaration_declares tool :
  declares tool (Google.functionDeclaration tool).
Proof.
  unfold declares, Google.functionDeclaration. cbn.
  fold (toolProperties tool). fold (toolRequired tool).
  split; [reflexivity|]. split; [reflexivity|].
  destruct (toolProperties tool) as [|property others] eqn:E; [reflexivity|].
  cbn [length Nat.eqb negb]. split; [discriminate|]. split; [|reflexivity].
  generalize (property :: others). clear. intros props.
  induction props as [|[paramName paramSchema] props IH]; cbn; constructor;
    [split; [reflexivity|apply declEntry_follows]|exact IH].
Qed.

End Instructions.

Section Sending.
Context {RT : Runtime} {Req Local : Type} (n : nat) (P : Req → Prop).

Lemma sending_ret {A} (a : A) : @sending Req Local A n P (ret a).
Proof. intros s H. exact H. Qed.

Lemma sending_throw {A} e : @sending Req Local A n P (throw e).
Proof. intros s H. exact H. Qed.

Lemma sending_getLocal : sending n P (@getLocal Req Local).
Proof. intros s H. exact H. Qed.

Lemma sending_bind {A B} (m : M (Machine Req Local) A) (k : A → M (Machine Req Local) B) :
  sending n P m → (∀ a, sending n P (k a)) → sending n P (bind m k).
Proof.
  intros Hm Hk s H. unfold bind. pose proof (Hm s H) as H1.
  destruct (m s) as [[a|e] s1]; cbn in H1 |- *; [apply Hk; exact H1|exact H1].
Qed.

Lemma sending_modifyLocal f : sending n P (@modifyLocal Req Local f).
Proof. intros s H. exact H. Qed.

Lemma sending_yield c : sending n P (@yield Req Local c).
Proof. intros s H. exact H. Qed.

Lemma sending_callTool name args : sending n P (@callTool Req Local RT name args).
Proof. intros s H. exact H. Qed.

Lemma sending_issue r : P r → sending n P (@issue Req Local r).
Proof.
  intros Hr s H. unfold requestsSatisfy in *. cbn. rewrite drop_app.
  apply Forall_app. split; [exact H|].
  destruct (n - length (requests s))%nat; cbn; [repeat constructor; exact Hr|].
  rewrite drop_nil. constructor.
Qed.

Lemma sending_forEach {A} (l : list A) (body : A → M (Machine Req Local) unit) :
  (∀ x, sending n P (body x)) → sending n P (forEach l body).
Proof.
  intros H. induction l as [|x l IH]; cbn [forEach].
  - apply sending_ret.
  - apply sending_bind; [apply H|intros _; exact IH].
Qed.

Lemma sending_from_here {A} (m : M (Machine Req Local) A) (s : Machine Req Local) :
  n = length (requests s) → sending n P m → Forall P (drop n (requests (m s).2)).
Proof.
  intros -> H. apply H. unfold requestsSatisfy. rewrite drop_all. constructor.
Qed.

End Sending.

Ltac sending_step :=
  lazymatch goal with
  | |- sending _ _ (bind _ _) => apply sending_bind; [|intros ?]
  | |- sending _ _ (ret _) => apply sending_ret
  | |- sending _ _ (throw _) => apply sending_throw
  | |- sending _ _ getLocal => apply sending_getLocal
  | |- sending _ _ (modifyLocal _) => apply sending_modifyLocal
  | |- sending _ _ (yield _) => apply sending_yield
  | |- sending _ _ (callTool _ _) => apply sending_callTool
  | |- sending _ _ (forEach _ _) => apply sending_forEach; intros ?
  | |- sending _ _ (match ?x with _ => _ end) => destruct x
  end.

Section SendingOfTheAdapters.
Context {RT : Runtime}.

Lemma google_chatToolCalls_sending n P toolCalls :
  sending n P (Google.chatToolCalls toolCalls).
Proof.
  induction toolCalls as [|toolCall toolCalls IH]; cbn [Google.chatToolCalls];
    repeat sending_step; exact IH.
Qed.

Lemma google_chat_sending n script modelName opts :
  sending n
    (fun request => Google.systemInstruction (Google.req_model request) = None
                    ∧ Google.req_stream request = false)
    (Google.chat script modelName opts).
Proof.
  induction script as [|response script IH]; cbn [Google.chat]; cbv zeta;
    unfold Google.firstCandidateParts; repeat sending_step;
    first [ apply google_chatToolCalls_sending | exact IH
          | apply sending_issue; cbn;
            destruct (Google.supportsInstructions modelName); split; reflexivity ].
Qed.

End SendingOfTheAdapters.

(** X16. The non-streaming path of the Google adapter loses the
    instructions. For a model that supports instructions, [complete] does
    the same whatever the first message of the thread is: the first message
    is left out of the history, and no request of [complete], whatever its
    outcome, carries a system instruction. [stream] sends the model content
    of the first message as the system instruction, with the same
    history. *)
Theorem google_complete_ignores_the_first_message :
  ∀ (RT : Runtime) script model first first' rest opts
    (s : Machine Google.Request (list Google.Content)),
    Google.supportsInstructions model = true →
    Google.complete script model (first :: rest) opts s
    = Google.complete script model (first' :: rest) opts s
    ∧ Forall (fun request =>
                Google.systemInstruction (Google.req_model request) = None
                ∧ Google.req_stream request = false)
        (drop (length (requests s))
           (requests (Google.complete script model (first :: rest) opts s).2))
    ∧ ∀ (t : GoogleState),
        selectModel model (first :: rest) opts = model →
        ∃ t', Google.stream model (first :: rest) opts t = (Ok (length (requests t)), t')
              ∧ requests t'
                = requests t
                  ++ [ {| Google.req_model :=
                            Google.getModel model (Some (contentForModel first)) opts;
                          Google.contents :=
                            Google.threadToHistory (first' :: rest) model opts;
                          Google.generationConfig := Google.getGenerationConfig opts;
                          Google.req_stream := true |} ]
              ∧ Google.systemInstruction
                  (Google.getModel model (Some (contentForModel first)) opts)
                = Some (contentForModel first).
Proof.
  intros RT script model first first' rest opts s Hm. split; [|split].
  - unfold Google.complete.
    rewrite (google_history_skips_the_first first first' rest model opts Hm).
    reflexivity.
  - apply sending_from_here; [reflexivity|]. unfold Google.complete.
    apply sending_bind; [apply sending_modifyLocal|intros _].
    apply google_chat_sending.
  - intros t Hsel. eexists. split; [|split].
    + unfold Google.stream. rewrite Hsel. reflexivity.
    + cbn. rewrite (google_history_skips_the_first first first' rest model opts Hm).
      reflexivity.
    + cbn. rewrite Hm. reflexivity.
Qed.

Lemma google_complete_ignores_the_first_message_witness :
  Google.complete (RT := Toy.runtime) [Toy.googleAnswer "4" (Some "STOP") None]
    "gemini-1.5-pro" Toy.thread noOpts (Toy.googleStart [])
  = Google.complete (RT := Toy.runtime) [Toy.googleAnswer "4" (Some "STOP") None]
      "gemini-1.5-pro" (drop 1 Toy.thread ++ drop 1 Toy.thread) noOpts
      (Toy.googleStart []).
Proof.
  apply (google_complete_ignores_the_first_message Toy.runtime
           [Toy.googleAnswer "4" (Some "STOP") None] "gemini-1.5-pro"
           _ _ (drop 1 Toy.thread) noOpts (Toy.googleStart []) eq_refl).
Defined.

(** X17. The Google adapter needs a first message: [stream] of an empty
    thread and [chat] of an empty history fail with a type error before a
    request is issued, and leave the state as it was. The OpenAI adapter
    reads no first message: [stream] of an empty thread and [chat] on an
    empty thread send their request. *)
Theorem empty_thread_fails_on_google_only :
  ∀ (RT : Runtime),
    (∀ modelName opts (s : GoogleState),
        Google.stream modelName [] opts s = (Throw TypeError, s))
    ∧ (∀ script modelName opts (s : Machine Google.Request (list Google.Content)),
          local s = [] →
          Google.chat script modelName opts s = (Throw TypeError, s))
    ∧ (∀ self model opts (s : OpenAIState),
          ∃ s', OpenAI.stream self model [] opts s = (Ok (length (requests s)), s')
                ∧ length (requests s') = S (length (requests s)))
    ∧ (∀ self script model opts
         (s : Machine (gmap string OpenAI.ReqVal) (list LLmCompletionPayload)),
          local s = [] →
          take (S (length (requests s)))
            (requests (OpenAI.chat self script model opts s).2)
          = requests s ++ [OpenAI.chatRequest self model [] opts]).
Proof.
  intros RT. split; [|split; [|split]].
  - intros modelName opts s. reflexivity.
  - intros script modelName opts s Hl. destruct script; cbn [Google.chat];
      run_monad; rewrite Hl; reflexivity.
  - intros self model opts s. eexists. split; [reflexivity|].
    cbn. rewrite length_app. cbn. lia.
  - intros self script model opts s Hl.
    assert (Hreq : ∀ (m : M (Machine (gmap string OpenAI.ReqVal)
                               (list LLmCompletionPayload)) LlmResponse),
               growing id m →
               ∀ s1 : Machine (gmap string OpenAI.ReqVal) (list LLmCompletionPayload),
                 requests s1 = requests s ++ [OpenAI.chatRequest self model [] opts] →
                 take (S (length (requests s))) (requests (m s1).2)
                 = requests s ++ [OpenAI.chatRequest self model [] opts]).
    { intros m Hm s1 H1. destruct (Hm s1) as (_ & [added Hp] & _).
      rewrite Hp, H1.
      replace (S (length (requests s)))
        with (length (requests s ++ [OpenAI.chatRequest self model [] opts]))
        by (rewrite length_app; cbn; lia).
      rewrite take_app_length. reflexivity. }
    destruct script as [|response script]; cbn [OpenAI.chat]; unfold bind at 1;
      unfold getLocal, gets; rewrite Hl; unfold bind at 1; unfold issue.
    + apply (Hreq (throw BackendError)); [apply growing_throw|reflexivity].
    + match goal with |- take _ (requests (?m ?s1).2) = _ =>
        apply (Hreq m); [|reflexivity] end.
      cbv zeta. repeat growing_step;
        first [ apply openai_chatToolCalls_growing | apply openai_chat_growing
              | apply openai_cumulateUsage_growing ].
Qed.

(** X18. The function declarations the Google adapter injects follow the
    registered tools one by one: same name and description; parameters
    exactly when the tool declares a property, with the properties in
    their order, each under its name and with its description, and the
    required list; the schema entry of a scalar property keeps the type of
    the property and has no items; the entry of an array or of a property
    with items has no type, and items with the properties of the
    property's items and a type that is never empty, [string] unless the
    property's items name one. A tool without properties loses its
    required list. *)
Theorem google_declarations_follow_the_tools :
  ∀ (RT : Runtime) model instructions opts decls,
    Google.mp_tools (Google.getModel model instructions opts) = Some decls →
    Forall2 declares availableTools decls
    ∧ Google.toolConfig (Google.getModel model instructions opts) = Some Google.AUTO.
Proof.
  intros RT model instructions opts decls. unfold Google.getModel. cbn.
  destruct (_ && _ && _); [|discriminate]. intros [= <-]. split; [|reflexivity].
  induction availableTools as [|tool tools IH]; cbn; constructor;
    [apply functionDeclaration_declares|exact IH].
Qed.

Lemma google_declarations_follow_the_tools_witness :
  ∃ decls,
    Google.mp_tools (Google.getModel (RT := Toy.runtime) "gemini-1.5-pro" None
                       (set_tools (Some true) noOpts)) = Some decls
    ∧ Forall2 declares (availableTools (Runtime := Toy.runtime)) decls
    ∧ Google.toolConfig (Google.getModel (RT := Toy.runtime) "gemini-1.5-pro" None
                           (set_tools (Some true) noOpts)) = Some Google.AUTO.
Proof.
  eexists. split; [reflexivity|].
  apply (google_declarations_follow_the_tools Toy.runtime "gemini-1.5-pro" None
           (set_tools (Some true) noOpts) _ eq_refl).
Defined.

Section ModelsWithoutSystemRole.
Context {RT : Runtime} (self : OpenAI.Engine).

Lemma no_system_role_is_reasoning model :
  OpenAI.modelAcceptsSystemRole model = false → OpenAI.modelIsReasoning model = true.
Proof.
  unfold OpenAI.modelAcceptsSystemRole, OpenAI.modelIsReasoning, startsWith.
  destruct model as [|c model]; cbn -[Ascii.ascii_dec]; [discriminate|].
  destruct (Ascii.ascii_dec _ c); [|discriminate]. destruct model; reflexivity.
Qed.

Lemma no_system_role_no_sampling model (k : string) :
  OpenAI.modelAcceptsSystemRole model = false → k ∈ samplingKeys →
  ∃ o, modelSupports model o = false ∧ k ∈ requestKeys o.
Proof.
  intros Hm Hk. apply no_system_role_is_reasoning in Hm.
  unfold samplingKeys in Hk. set_unfold.
  destruct Hk as [->|[->|[->|[->|[]]]]];
    [exists Temperature|exists TopP|exists TopK|exists TopK];
    cbn; unfold OpenAI.modelSupportsTemperature, OpenAI.modelSupportsTopP,
           OpenAI.modelSupportsTopK; rewrite Hm; split; try reflexivity; set_solver.
Qed.

Lemma lookup_streamRequest_plain context (k : string) :
  customOpts (OpenAI.ctx_opts context) = None →
  k ∈ ["model"; "messages"] →
  OpenAI.streamRequest self context !! k
  = (<[ "messages" := OpenAI.RMessages (OpenAI.ctx_thread context) ]>
     {[ "model" := OpenAI.RJson (JStr (OpenAI.ctx_model context)) ]}
     : gmap string OpenAI.ReqVal) !! k.
Proof.
  intros Hc Hk. unfold OpenAI.streamRequest. rewrite !lookup_spread.
  assert (Hks : k ≠ "stream" ∧ k ≠ "stream_options" ∧ k ≠ "tools" ∧ k ≠ "tool_choice").
  { set_unfold. destruct Hk as [->|[->|[]]]; repeat split; discriminate. }
  destruct Hks as (H1 & H2 & H3 & H4).
  rewrite lookup_insert_ne, lookup_singleton_ne by congruence.
  rewrite lookup_functionCallingOptions by assumption.
  unfold OpenAI.getCompletionOpts. cbv zeta. rewrite !lookup_spread, Hc, lookup_empty.
  set_unfold. destruct Hk as [->|[->|[]]];
    repeat first
      [ rewrite lookup_numField_other by (intros; by simplify_map_eq)
      | rewrite lookup_strField_other by (intros; by simplify_map_eq) ];
    reflexivity.
Qed.

End ModelsWithoutSystemRole.

(** X19. A streaming request of the OpenAI adapter for a model that does
    not accept the system role. Such a model is a reasoning model, so with
    no custom options the request [stream] issues names the selected model,
    carries the payload without any system message, and holds none of the
    sampling keys (temperature, top_p, logprobs, top_logprobs), whatever
    the options ask for. *)
Theorem openai_stream_without_system_role :
  ∀ (RT : Runtime) self model thread opts (s : OpenAIState),
    OpenAI.modelAcceptsSystemRole (selectModel model thread opts) = false →
    customOpts opts = None →
    ∃ request payload s',
      OpenAI.stream self model thread opts s = (Ok (length (requests s)), s')
      ∧ requests s' = requests s ++ [request]
      ∧ request !! "model" = Some (OpenAI.RJson (JStr (selectModel model thread opts)))
      ∧ request !! "messages" = Some (OpenAI.RMessages payload)
      ∧ Forall (fun p => role p ≠ system) payload
      ∧ ∀ k : string, k ∈ samplingKeys → request !! k = None.
Proof.
  intros RT self model thread opts s Hm Hc.
  eexists _, _, _. split; [reflexivity|]. cbn [requests snd local].
  split; [reflexivity|]. split; [|split; [|split]].
  - rewrite lookup_streamRequest_plain by first [cbn; exact Hc | set_solver].
    by simplify_map_eq.
  - rewrite lookup_streamRequest_plain by first [cbn; exact Hc | set_solver].
    by simplify_map_eq.
  - cbn. unfold OpenAI.buildPayload. rewrite Hm. cbn [negb].
    apply Forall_forall. intros p Hp.
    apply list_elem_of_In, filter_In in Hp as [_ Hp]. intros E. rewrite E in Hp.
    discriminate.
  - intros k Hk.
    destruct (no_system_role_no_sampling _ k Hm Hk) as (o & Ho & Hko).
    rewrite (streamRequest_unsupported self _ o k) by (cbn; assumption).
    unfold customValue. cbn. rewrite Hc. reflexivity.
Qed.

Lemma openai_stream_without_system_role_witness :
  ∃ request payload s',
    OpenAI.stream (RT := Toy.runtime) OpenAI.OpenAIEngine "o1-mini" Toy.thread
      (set_temperature (Some (7 # 10)) noOpts) (Toy.streamStart [])
    = (Ok (length (requests (Toy.streamStart []))), s')
    ∧ requests s' = requests (Toy.streamStart []) ++ [request]
    ∧ request !! "model" = Some (OpenAI.RJson (JStr "o1-mini"))
    ∧ request !! "messages" = Some (OpenAI.RMessages payload)
    ∧ Forall (fun p => role p ≠ system) payload
    ∧ ∀ k : string, k ∈ samplingKeys → request !! k = None.
Proof.
  apply (openai_stream_without_system_role Toy.runtime OpenAI.OpenAIEngine "o1-mini"
           Toy.thread (set_temperature (Some (7 # 10)) noOpts) (Toy.streamStart []));
    reflexivity.
Defined.

Section OneMoreFragment.
Context {RT : Runtime} (self : OpenAI.Engine).

Lemma appendToFirst_found id v pending (toolCall : LlmToolCall) later :
  id ∉ map tc_id pending → tc_id toolCall = id →
  OpenAI.appendToFirst id v (pending ++ toolCall :: later)
  = pending
    ++ {| tc_id := tc_id toolCall; tc_message := tc_message toolCall;
          tc_function := tc_function toolCall;
          tc_args := appendJs (tc_args toolCall) v |} :: later.
Proof.
  intros Hp Hid. induction pending as [|first pending IH]; cbn.
  - rewrite Hid, String.eqb_refl. reflexivity.
  - cbn in Hp. apply not_elem_of_cons in Hp as [Hne Hp].
    destruct (String.eqb_spec (tc_id first) id) as [E|_]; [congruence|].
    rewrite (IH Hp). reflexivity.
Qed.

Lemma existsb_id_present id pending (toolCall : LlmToolCall) later :
  tc_id toolCall = id →
  existsb (fun tc => String.eqb (tc_id tc) id) (pending ++ toolCall :: later) = true.
Proof.
  intros Hid. rewrite existsb_app. cbn. rewrite Hid, String.eqb_refl.
  apply orb_true_r.
Qed.

End OneMoreFragment.

(** X20. On the OpenAI stream, a delta that repeats the id of a call under
    accumulation extends the arguments of that call but not the
    announcement kept for the thread, which goes on showing the arguments
    it had; nothing is yielded. (A fragment without id updates both, see
    X11.) *)
Theorem openai_fragments_with_id_keep_the_announcement :
  ∀ (RT : Runtime) self chunk id index deltaName piece pending later fnName args shown
    (s : OpenAIState),
    toolDeltaChunk chunk
      {| tcm_id := Some id; tcm_index := index;
         tcm_function := Some {| fn_name := deltaName; fn_arguments := piece |} |} →
    truthyStr id = true →
    OpenAI.ctx_toolCalls (local s) = pending ++ pendingCall id fnName args shown :: later →
    id ∉ map tc_id pending →
    OpenAI.nativeChunkToLlmChunk self chunk s
    = (Ok tt,
       {| local := OpenAI.set_toolCalls
                     (pending ++ pendingCall id fnName (appendJs args piece) shown
                        :: later) (local s);
          requests := requests s; invocations := invocations s;
          yielded := yielded s |}).
Proof.
  intros RT self chunk id index deltaName piece pending later fnName args shown s
    Hchunk Hid Htc Hnew.
  rewrite (nativeChunk_toolDelta _ _ _ _ Hchunk). unfold OpenAI.accumulateToolCall.
  rewrite (toolDeltaChunk_first _ _ Hchunk). cbn [tcm_function tcm_id truthyOpt].
  rewrite Hid. run_monad. rewrite Htc.
  rewrite (existsb_id_present id pending (pendingCall id fnName args shown) later
             eq_refl). cbn.
  rewrite Htc, (appendToFirst_found id _ pending (pendingCall id fnName args shown)
                  later Hnew eq_refl). reflexivity.
Qed.

Lemma openai_fragments_with_id_keep_the_announcement_witness :
  OpenAI.nativeChunkToLlmChunk (RT := Toy.runtime) OpenAI.OpenAIEngine
    (Sample.toolDelta (Some "call_1") None (Some "{}"))
    (Toy.streamStart [pendingCall "call_1" (Some "get_weather") "" (Some "")])
  = (Ok tt,
     {| local := OpenAI.set_toolCalls
                   ([] ++ pendingCall "call_1" (Some "get_weather") "{}" (Some "") :: [])
                   (local (Toy.streamStart
                             [pendingCall "call_1" (Some "get_weather") "" (Some "")]));
        requests := []; invocations := []; yielded := [] |}).
Proof.
  apply (openai_fragments_with_id_keep_the_announcement Toy.runtime OpenAI.OpenAIEngine
           (Sample.toolDelta (Some "call_1") None (Some "{}")) "call_1" (Some 0%nat)
           None (Some "{}") [] [] (Some "get_weather") "" (Some "")
           (Toy.streamStart [pendingCall "call_1" (Some "get_weather") "" (Some "")])).
  - eexists _, _, _. repeat split.
  - reflexivity.
  - reflexivity.
  - apply not_elem_of_nil.
Defined.

Section GoogleHop.
Context {RT : Runtime}.

Local Arguments Google.chatToolCalls : simpl never.
Local Arguments googleCalls : simpl never.

Lemma google_chat_hop_contents chunk calls candidate others modelName opts
    (c : Machine Google.Request (list Google.Content)) :
  Google.functionCalls chunk = Some calls →
  calls ≠ [] →
  Google.candidates chunk = Some (candidate :: others) →
  local c ≠ [] →
  invocations (Google.chat [chunk] modelName opts c).2
  = invocations c ++ googleCalls calls
  ∧ local (Google.chat [chunk] modelName opts c).2
    = local c ++ googleHopContents chunk (toolResults (invocations c) (googleCalls calls)).
Proof.
  intros Efc Hne Ecand Hl. cbn [Google.chat]. run_monad.
  destruct (local c) as [|first thread] eqn:El; [congruence|]. cbn.
  rewrite Efc. destruct calls as [|toolCall toolCalls]; [congruence|].
  rewrite google_chatToolCalls_results.
  unfold Google.firstCandidateParts. rewrite Ecand. run_monad. rewrite El. cbn.
  unfold googleHopContents. rewrite Ecand, Efc, <- app_assoc. split; reflexivity.
Qed.

End GoogleHop.

(** X21. The two paths of the Google adapter leave the same contents on
    the thread for a response with function calls: the parts that announce
    the calls under the role [assistant], then the function responses
    under the role [tool], from the same invocations. The stream path gets
    there through [JSON.parse(JSON.stringify(args))], so it needs the
    arguments to survive that round trip; [chat] passes them on as they
    are. *)
Theorem google_stream_and_chat_leave_the_same_contents :
  ∀ (RT : Runtime) chunk calls candidate others,
    Google.functionCalls chunk = Some calls →
    calls ≠ [] →
    Google.candidates chunk = Some (candidate :: others) →
    (∀ (s : GoogleState),
        Forall (fun call => JSON_parse (JSON_stringify (Google.fc_args call))
                            = Some (Google.fc_args call)) calls →
        ∃ s', Google.nativeChunkToLlmChunk chunk s = (Ok tt, s')
              ∧ invocations s' = invocations s ++ googleCalls calls
              ∧ Google.ctx_content (local s')
                = Google.ctx_content (local s)
                  ++ googleHopContents chunk
                       (toolResults (invocations s) (googleCalls calls)))
    ∧ (∀ modelName opts (c : Machine Google.Request (list Google.Content)),
          local c ≠ [] →
          let c' := (Google.chat [chunk] modelName opts c).2 in
          invocations c' = invocations c ++ googleCalls calls
          ∧ local c'
            = local c
              ++ googleHopContents chunk
                   (toolResults (invocations c) (googleCalls calls))).
Proof.
  intros RT chunk calls candidate others Efc Hne Ecand. split.
  - intros s Hround.
    assert (HF : Forall2 recordParsesTo (map Google.toolCallRecord calls)
                   (googleCalls calls)).
    { clear -Hround. induction Hround as [|call calls Hcall _ IH]; cbn;
        constructor; [split; [reflexivity|exact Hcall]|exact IH]. }
    destruct (google_function_calls_complete chunk calls candidate others
                (googleCalls calls) s Efc Hne Ecand HF)
      as (s' & events & E & Hi & Hcontent & _).
    exists s'. split; [exact E|]. split; [exact Hi|].
    rewrite Hcontent. unfold googleHopContents. rewrite Ecand, Efc. reflexivity.
  - intros modelName opts c Hl. cbv zeta.
    apply (google_chat_hop_contents chunk calls candidate others); assumption.
Qed.

Lemma google_stream_and_chat_leave_the_same_contents_witness :
  ∃ s', Google.nativeChunkToLlmChunk (RT := Toy.runtime) (Toy.googleToolHop None)
          Toy.googleStreamStart = (Ok tt, s')
        ∧ invocations s' = [] ++ googleCalls [Toy.lyon; Toy.paris]
        ∧ Google.ctx_content (local s')
          = [] ++ googleHopContents (Toy.googleToolHop None)
                    (toolResults (RT := Toy.runtime) []
                       (googleCalls [Toy.lyon; Toy.paris])).
Proof.
  apply (proj1 (google_stream_and_chat_leave_the_same_contents Toy.runtime
                  (Toy.googleToolHop None) [Toy.lyon; Toy.paris] _ []
                  eq_refl ltac:(discriminate) eq_refl) Toy.googleStreamStart).
  repeat constructor.
Defined.

(** A streamed OpenAI tool call from its opening to its execution: the
    arguments arrive in two pieces, the closing chunk runs the tool on
    their concatenation and the thread shows the same arguments. *)
Example openai_streamed_tool_call :
  let s' := (OpenAI.translateChunks (RT := Toy.runtime) OpenAI.OpenAIEngine
               [Sample.toolDelta (Some "call_1") (Some "get_weather") (Some "");
                Sample.toolDelta None None (Some "{");
                Sample.toolDelta None None (Some "}");
                Toy.toolCallsDone]
               (Toy.streamStart [])).2 in
  invocations s' = [("get_weather", JObj [])]
  ∧ OpenAI.ctx_thread (local s')
    = [ OpenAI.toolCallMessage
          [ {| tcm_id := Some "call_1"; tcm_index := None;
               tcm_function := Some {| fn_name := Some "get_weather";
                                       fn_arguments := Some "{}" |} |} ];
        OpenAI.toolResponseMessage "call_1" "get_weather" "{...}" ]
  ∧ yielded s'
    = [ ToolStatusChunk "get_weather" "preparing get_weather";
        ToolStatusChunk "get_weather" "running get_weather";
        ToolDoneChunk "get_weather" (JObj []) (JStr "result of get_weather");
        StreamChunk 0 ]
  ∧ OpenAI.ctx_toolCalls (local s') = [].
Proof. vm_compute. repeat split. Qed.

Section RequestsSent.
Context {RT : Runtime}.

(** The requests the adapters send are the ones the statements on the
    zero options are about. *)
Lemma requests_of_the_adapters :
  (∀ self model thread opts (s : OpenAIState),
      requests (OpenAI.stream self model thread opts s).2
      = requests s
        ++ [OpenAI.streamRequest self
              (openaiStreamContext (selectModel model thread opts)
                 (OpenAI.buildPayload self (selectModel model thread opts) thread opts)
                 opts)])
  ∧ (∀ self response script model opts
       (s : Machine (gmap string OpenAI.ReqVal) (list LLmCompletionPayload)),
        take (S (length (requests s)))
          (requests (OpenAI.chat self (response :: script) model opts s).2)
        = requests s ++ [OpenAI.chatRequest self model (local s) opts])
  ∧ (∀ modelName first rest opts (s : GoogleState),
        requests (Google.stream modelName (first :: rest) opts s).2
        = requests s
          ++ [googleRequest (selectModel modelName (first :: rest) opts)
                (Some (contentForModel first))
                (Google.threadToHistory (first :: rest)
                   (selectModel modelName (first :: rest) opts) opts)
                opts true])
  ∧ (∀ modelName opts thread,
        googleChatRequest modelName opts thread
        = googleRequest modelName None thread opts false).
Proof.
  split; [|split; [|split]]; try reflexivity.
  intros self response script model opts s.
  cbn [OpenAI.chat]. unfold bind at 1. unfold getLocal, gets. unfold bind at 1.
  unfold issue.
  match goal with |- take _ (requests (?m ?s1).2) = _ =>
    assert (Hm : growing id m); [|destruct (Hm s1) as (_ & [added Hp] & _)] end.
  { cbv zeta. repeat growing_step;
      first [ apply openai_chatToolCalls_growing | apply openai_chat_growing
            | apply openai_cumulateUsage_growing ]. }
  rewrite Hp. cbn [requests].
  replace (S (length (requests s)))
    with (length (requests s ++ [OpenAI.chatRequest self model (local s) opts]))
    by (rewrite length_app; cbn; lia).
  apply take_app_length.
Qed.

End RequestsSent.

(* ===================================================================== *)
(** ** The tool calls of a streamed OpenAI turn, from the chunks *)
(* ===================================================================== *)

Section StreamedCalls.
Context {RT : Runtime} (self : OpenAI.Engine).

Lemma openai_call_chunks chunks record (s : OpenAIState) :
  streamsCall chunks record →
  tc_id record ∉ map tc_id (OpenAI.ctx_toolCalls (local s)) →
  OpenAI.translateChunks self chunks s
  = (Ok tt,
     {| local := OpenAI.set_toolCalls (OpenAI.ctx_toolCalls (local s) ++ [record])
                   (local s);
        requests := requests s; invocations := invocations s;
        yielded := yielded s ++ [preparationEvent record] |}).
Proof.
  intros (opening & fragments & pieces & id & index & fnName & a0
          & -> & Hopen & Hid & HF & ->) Hnew.
  cbn [tc_id pendingCall] in Hnew.
  unfold OpenAI.translateChunks. cbn [forEach]. unfold bind.
  rewrite (nativeChunk_toolDelta _ _ _ _ Hopen).
  rewrite (accumulate_opening _ _ _ _ _ _ Hopen Hid Hnew).
  fold (OpenAI.translateChunks self fragments).
  rewrite (openai_fragments self fragments pieces (OpenAI.ctx_toolCalls (local s))
             id fnName (orEmpty a0) a0 _ HF) by reflexivity.
  reflexivity.
Qed.

Lemma openai_calls_accumulate chunkss records (s : OpenAIState) :
  Forall2 streamsCall chunkss records →
  NoDup (map tc_id (OpenAI.ctx_toolCalls (local s) ++ records)) →
  OpenAI.translateChunks self (concat chunkss) s
  = (Ok tt,
     {| local := OpenAI.set_toolCalls (OpenAI.ctx_toolCalls (local s) ++ records)
                   (local s);
        requests := requests s; invocations := invocations s;
        yielded := yielded s ++ map preparationEvent records |}).
Proof.
  intros HF. revert s.
  induction HF as [|chunks record chunkss records Hcall HF IH]; intros s Hids.
  - cbn. unfold ret. rewrite !app_nil_r. destruct s as [[] ? ? ?]; reflexivity.
  - cbn [concat]. unfold OpenAI.translateChunks in IH |- *. rewrite forEach_app.
    fold (OpenAI.translateChunks self chunks).
    rewrite (openai_call_chunks chunks record s Hcall).
    + rewrite IH.
      * cbn. rewrite <- !app_assoc. reflexivity.
      * cbn. rewrite <- app_assoc. exact Hids.
    + rewrite map_app in Hids. cbn in Hids.
      apply NoDup_app in Hids as (_ & Hdisjoint & _).
      intros Hin. apply (Hdisjoint _ Hin). left.
Qed.

(** From a fresh attempt, when every call is streamed in deltas of its own
    and the arguments parse, the closing chunk runs every call the backend
    reported, in the order reported, and switches the stream. *)
Lemma openai_streamed_calls_all_run chunkss records parsed closing (s : OpenAIState) :
  OpenAI.ctx_toolCalls (local s) = [] →
  Forall2 streamsCall chunkss records →
  records ≠ [] →
  NoDup (map tc_id records) →
  Forall2 recordParsesTo records parsed →
  toolCallDelta closing = None →
  closesToolCalls (finishReasonOf closing) = true →
  ∃ s',
    OpenAI.translateChunks self (concat chunkss ++ [closing]) s = (Ok tt, s')
    ∧ invocations s' = invocations s ++ parsed
    ∧ OpenAI.ctx_thread (local s')
      = OpenAI.ctx_thread (local s)
        ++ openaiToolMessages records (toolResults (invocations s) parsed)
    ∧ OpenAI.ctx_toolCalls (local s') = []
    ∧ requests s' = requests s ++ [OpenAI.streamRequest self (local s')]
    ∧ yielded s'
      = yielded s ++ map preparationEvent records
        ++ concat (zip_with openaiCallEvents parsed (toolResults (invocations s) parsed))
        ++ [StreamChunk (length (requests s))].
Proof.
  intros Hfresh Hcalls Hne Hids Hparse Hdelta Hclose.
  unfold OpenAI.translateChunks. rewrite forEach_app.
  fold (OpenAI.translateChunks self (concat chunkss)).
  rewrite (openai_calls_accumulate chunkss records s Hcalls)
    by (rewrite Hfresh; exact Hids).
  rewrite Hfresh. cbn [app forEach]. unfold bind at 1.
  set (s1 := {| local := OpenAI.set_toolCalls records (local s) |}).
  pose proof (accumulate_without_delta closing s1 Hdelta) as E.
  destruct (openai_tool_calls_complete self closing s1 s1 parsed E Hclose Hne Hparse)
    as (s' & events & E' & Hi & Ht & Hc & Hr & _ & _).
  pose proof (openai_closing_events self closing s1 s1 parsed E Hclose Hne Hparse) as Hy.
  rewrite E' in Hy |- *. cbn [snd] in Hy. exists s'. unfold ret.
  split; [reflexivity|]. repeat split; try assumption.
  rewrite Hy. cbn. rewrite <- !app_assoc. reflexivity.
Qed.

(** A delta that reports several calls at once opens a record for the
    first of them only, whatever the others are; the announcement of that
    record lists them all. *)
Lemma openai_delta_records_its_first_call chunk first others fn id (s : OpenAIState) :
  head (OpenAI.chunk_choices chunk) ?. OpenAI.delta ?. OpenAI.delta_tool_calls
  = Some (first :: others) →
  tcm_function first = Some fn →
  tcm_id first = Some id →
  truthyStr id = true →
  id ∉ map tc_id (OpenAI.ctx_toolCalls (local s)) →
  OpenAI.accumulateToolCall chunk s
  = (Ok tt,
     {| local := OpenAI.set_toolCalls
                   (OpenAI.ctx_toolCalls (local s)
                    ++ [ {| tc_id := id;
                            tc_message := map OpenAI.deleteIndex (first :: others);
                            tc_function := orEmpty (fn_name fn);
                            tc_args := orEmpty (fn_arguments fn) |} ]) (local s);
        requests := requests s; invocations := invocations s;
        yielded := yielded s
                   ++ [ToolStatusChunk (orEmpty (fn_name fn))
                         (getToolPreparationDescription (orEmpty (fn_name fn)))] |}).
Proof.
  intros Hdelta Hfn Hfirst Hid Hnew. unfold OpenAI.accumulateToolCall.
  rewrite Hdelta, Hfn, Hfirst. cbn [truthyOpt orEmpty]. rewrite Hid. run_monad.
  rewrite (existsb_id_absent _ _ Hnew). reflexivity.
Qed.

End StreamedCalls.

(** C7 on the OpenAI stream: a delta that reports two calls at once, then
    the chunk that closes the tool calls, from the context [stream]
    creates. Only the first call runs; the thread announces both calls and
    answers one; the stream is switched with the second call never run. *)
Lemma openai_stream_runs_one_call_of_a_delta_with_two :
  let attempt := (OpenAI.stream (RT := Toy.runtime) OpenAI.OpenAIEngine "gpt-4o"
                  Toy.thread noOpts (Toy.streamStart [])).2 in
  let outcome := OpenAI.translateChunks (RT := Toy.runtime) OpenAI.OpenAIEngine
               [Sample.twoCalls; Toy.toolCallsDone] attempt in
  outcome.1 = Ok tt
  ∧ OpenAI.ctx_toolCalls (local attempt) = []
  ∧ invocations outcome.2 = [("get_weather", JObj [])]
  ∧ drop (length (OpenAI.ctx_thread (local attempt))) (OpenAI.ctx_thread (local outcome.2))
    = [ OpenAI.toolCallMessage
          (map OpenAI.deleteIndex
             [ Sample.callEntry "call_1" "get_weather" "{}" 0;
               Sample.callEntry "call_2" "get_time" "{}" 1 ]);
        OpenAI.toolResponseMessage "call_1" "get_weather" "{...}" ]
  ∧ yielded outcome.2
    = [ ToolStatusChunk "get_weather" "preparing get_weather";
        ToolStatusChunk "get_weather" "running get_weather";
        ToolDoneChunk "get_weather" (JObj []) (JStr "result of get_weather");
        StreamChunk 1 ]
  ∧ length (requests outcome.2) = 2.
Proof. vm_compute. repeat split. Qed.
